(** * EDVART report sections: column resolution and notebook code export

    A shallow embedding of the parts of [edvart] that decide how column
    selections are resolved and what code is written to an exported notebook:

    - [edvart/utils.py]: [top_frequent_values], [iqr], [value_range], ...
    - [edvart/report_sections/bivariate_analysis.py]: [BivariateAnalysis],
      [CorrelationPlot], [PairPlot], [ContingencyTable]
    - [edvart/report_sections/univariate_analysis.py]: [UnivariateAnalysis]
    - [edvart/report_sections/umap.py]: [UMAP]
    - [edvart/report_sections/timeseries_analysis/autocorrelation.py]:
      [Autocorrelation]

    Python exceptions are an error result, [display(...)] calls are a log of
    outputs, notebook cells are a list that [add_cells] extends. *)

From Stdlib Require Import List String Ascii ZArith QArith Bool Arith Lia.
From Stdlib Require Import DecimalString Qround.
Import ListNotations.

Close Scope Q_scope.

Local Open Scope list_scope.
Local Open Scope string_scope.

(* ================================================================== *)
(** * Python values: exceptions, [repr], slices, dictionaries          *)
(* ================================================================== *)

Module Py.

(** The two exception classes the modelled code can raise: [ValueError]
    from the explicit [raise] statements, [KeyError] from [df[col]] on a
    label the frame does not have. *)
Inductive Exn : Type :=
| ValueError (msg : string)
| KeyError (key : string).

Definition is_ValueError (e : Exn) : bool :=
  match e with ValueError _ => true | KeyError _ => false end.

(** A computation that returns or raises. *)
Definition Res (A : Type) : Type := (Exn + A)%type.

Definition ret {A} (a : A) : Res A := inr a.
Definition raise {A} (e : Exn) : Res A := inl e.
Definition bind {A B} (m : Res A) (k : A -> Res B) : Res B :=
  match m with
  | inl e => inl e
  | inr a => k a
  end.

Definition raises_ValueError {A} (m : Res A) : bool :=
  match m with inl e => is_ValueError e | inr _ => false end.

(** [x is None] / [x is not None]. *)
Definition is_None {A} (o : option A) : bool :=
  match o with None => true | Some _ => false end.

(** ** [repr] of [str], of lists and of pairs

    Column labels are modelled as byte strings.  [repr] picks the quote
    (a double quote only when the text has a single quote and no double
    quote), escapes the backslash, the chosen quote, tab, newline and
    carriage return, writes the other control characters as [\xNN], and
    leaves every other byte as it is. *)

Definition squote : ascii := "'"%char.
Definition dquote : ascii := ascii_of_nat 34.
Definition backslash : ascii := "\"%char.

Fixpoint contains (c : ascii) (s : string) : bool :=
  match s with
  | EmptyString => false
  | String a s' => Ascii.eqb a c || contains c s'
  end.

Definition repr_quote (s : string) : ascii :=
  if contains squote s && negb (contains dquote s) then dquote else squote.

Definition hex_digit (n : nat) : ascii :=
  match n with
  | 0 => "0" | 1 => "1" | 2 => "2" | 3 => "3" | 4 => "4" | 5 => "5"
  | 6 => "6" | 7 => "7" | 8 => "8" | 9 => "9" | 10 => "a" | 11 => "b"
  | 12 => "c" | 13 => "d" | 14 => "e" | _ => "f"
  end%char.

Definition repr_char (q c : ascii) : string :=
  let n := nat_of_ascii c in
  if Ascii.eqb c q || Ascii.eqb c backslash
  then String backslash (String c EmptyString)
  else if Nat.eqb n 9 then String backslash "t"
  else if Nat.eqb n 10 then String backslash "n"
  else if Nat.eqb n 13 then String backslash "r"
  else if Nat.ltb n 32 || Nat.eqb n 127
  then String backslash
         (String "x" (String (hex_digit (n / 16))
                        (String (hex_digit (n mod 16)) EmptyString)))
  else String c EmptyString.

Fixpoint repr_body (q : ascii) (s : string) : string :=
  match s with
  | EmptyString => EmptyString
  | String c s' => repr_char q c ++ repr_body q s'
  end.

Definition repr_str (s : string) : string :=
  let q := repr_quote s in
  String q (repr_body q s ++ String q EmptyString).

(** [", ".join(items)] *)
Fixpoint join_comma (items : list string) : string :=
  match items with
  | [] => EmptyString
  | [x] => x
  | x :: rest => x ++ ", " ++ join_comma rest
  end.

(** [repr] of a list whose items have the given [repr]s. *)
Definition repr_list_of (items : list string) : string :=
  "[" ++ join_comma items ++ "]".

Definition repr_list_str (l : list string) : string :=
  repr_list_of (map repr_str l).

Definition repr_pair_str (p : string * string) : string :=
  "(" ++ repr_str (fst p) ++ ", " ++ repr_str (snd p) ++ ")".

Definition repr_list_pair (l : list (string * string)) : string :=
  repr_list_of (map repr_pair_str l).

(** [s.replace(old, new)] with an empty [new]: the occurrences of [old]
    are dropped left to right, without overlap.  [skip] counts the
    characters of a matched occurrence still to drop. *)
Fixpoint remove_from (old : string) (skip : nat) (s : string) : string :=
  match s with
  | EmptyString => EmptyString
  | String c s' =>
      match skip with
      | S k => remove_from old k s'
      | O =>
          if String.prefix old s && negb (String.eqb old EmptyString)
          then remove_from old (String.length old - 1) s'
          else String c (remove_from old 0 s')
      end
  end.

Definition remove_all (old s : string) : string := remove_from old 0 s.

(** The two quotes of a string literal. *)
Definition is_quote (q : ascii) : Prop := q = squote \/ q = dquote.

(** ** Parenthesis balance of a piece of Python source

    The scanner walks the text once.  Outside a string literal it counts
    [(] up and [)] down and fails when a [)] has no partner; a quote opens
    a literal that runs to the same quote, a backslash inside it protecting
    the next character. *)

Inductive Lex : Type :=
| Code (depth : nat)
| InStr (depth : nat) (q : ascii)
| InEsc (depth : nat) (q : ascii).

Definition lex_step (st : Lex) (c : ascii) : option Lex :=
  match st with
  | Code d =>
      if Ascii.eqb c "("%char then Some (Code (S d))
      else if Ascii.eqb c ")"%char
      then match d with O => None | S d' => Some (Code d') end
      else if Ascii.eqb c squote || Ascii.eqb c dquote then Some (InStr d c)
      else Some (Code d)
  | InStr d q =>
      if Ascii.eqb c backslash then Some (InEsc d q)
      else if Ascii.eqb c q then Some (Code d)
      else Some (InStr d q)
  | InEsc d q => Some (InStr d q)
  end.

Fixpoint lex_run (st : Lex) (s : string) : option Lex :=
  match s with
  | EmptyString => Some st
  | String c s' =>
      match lex_step st c with
      | None => None
      | Some st' => lex_run st' s'
      end
  end.

Definition balanced (s : string) : bool :=
  match lex_run (Code 0) s with
  | Some (Code 0) => true
  | _ => false
  end.

(** ** The float of a quotient

    The true division [a / b] of two integers as floating point computes
    it: a finite quotient, [inf] for a positive integer over zero and [nan]
    for zero over zero, which is what numpy's integers give (with a
    warning) where Python's own would raise. *)

Inductive Float : Type :=
| Finite (q : Q)
| Inf
| NaN.

(** [str] of an [int], as an f-string writes it. *)
Definition str_int (z : Z) : string := NilEmpty.string_of_int (Z.to_int z).

(** [s[:-1]] *)
Fixpoint drop_last (s : string) : string :=
  match s with
  | EmptyString => EmptyString
  | String c EmptyString => EmptyString
  | String c s' => String c (drop_last s')
  end.

(** ** Slices [l[:n]] and [l[n:]] with Python's negative indices *)

Definition slice_bound {A} (n : Z) (l : list A) : nat :=
  let len := Z.of_nat (List.length l) in
  Z.to_nat (if (n <? 0)%Z then Z.max 0 (len + n) else Z.min n len).

Definition slice_to {A} (n : Z) (l : list A) : list A :=
  firstn (slice_bound n l) l.

Definition slice_from {A} (n : Z) (l : list A) : list A :=
  skipn (slice_bound n l) l.

(** ** Dictionaries: insertion-ordered, a repeated key keeps its place and
    takes the new value *)

Section Dict.
Context {K W : Type} (K_eqb : K -> K -> bool).

Fixpoint dict_mem (k : K) (d : list (K * W)) : bool :=
  match d with
  | [] => false
  | (k', _) :: d' => K_eqb k' k || dict_mem k d'
  end.

Fixpoint dict_replace (k : K) (w : W) (d : list (K * W)) : list (K * W) :=
  match d with
  | [] => []
  | (k', w') :: d' =>
      if K_eqb k' k then (k', w) :: d' else (k', w') :: dict_replace k w d'
  end.

Definition dict_set (k : K) (w : W) (d : list (K * W)) : list (K * W) :=
  if dict_mem k d then dict_replace k w d else (d ++ [(k, w)])%list.

Fixpoint dict_get (k : K) (d : list (K * W)) : option W :=
  match d with
  | [] => None
  | (k', w) :: d' => if K_eqb k' k then Some w else dict_get k d'
  end.
End Dict.

End Py.

Notation "x <- m ;; k" := (Py.bind m (fun x => k))
  (at level 61, m at next level, right associativity).

(* ================================================================== *)
(** * pandas: series and frames                                        *)
(* ================================================================== *)

(** Cell values.  [val_eqb] is the equality that [dict] keys and
    [value_counts] use; [of_str] is the value a Python [str] is, so that the
    literal keys of [top_frequent_values] live in the same key space as the
    data.  [index_head n rows] and [index_tail n rows] are [rows[:n]] and
    [rows[n:]] for a Series [rows] whose index holds such values, as
    [value_counts] returns it: how pandas reads the integer of the slice
    depends on the values of the index. *)
Class PyValue (V : Type) : Type := {
  val_eqb : V -> V -> bool;
  of_str : string -> V;
  index_head : Z -> list (V * nat) -> list (V * nat);
  index_tail : Z -> list (V * nat) -> list (V * nat)
}.

(** [val_eqb] decides equality, and different texts are different values. *)
Class PyValueLaws (V : Type) `{PyValue V} : Prop := {
  val_eqb_iff : forall x y : V, val_eqb x y = true <-> x = y;
  of_str_inj : forall s t : string, of_str s = of_str t -> s = t
}.

(** Under an index of texts, integers, booleans or dates pandas reads the
    integer of a slice as a position; under an index of floats it reads it
    as a label, and this law does not hold. *)
Class PositionalIndex (V : Type) `{PyValue V} : Prop := {
  index_head_positional :
    forall (n : Z) (rows : list (V * nat)), index_head n rows = Py.slice_to n rows;
  index_tail_positional :
    forall (n : Z) (rows : list (V * nat)), index_tail n rows = Py.slice_from n rows
}.

Module Pandas.

Section Frames.
Context {V : Type} `{PyValue V}.

(** A series is its cells in row order; [None] is a null cell
    ([None], [NaN], [NaT]). *)
Definition Series : Type := list (option V).

(** [len(series)] *)
Definition len (s : Series) : nat := List.length s.

(** [series.dropna()] *)
Fixpoint dropna (s : Series) : list V :=
  match s with
  | [] => []
  | Some v :: s' => v :: dropna s'
  | None :: s' => dropna s'
  end.

(** [series.isna().sum()] *)
Fixpoint isna_sum (s : Series) : nat :=
  match s with
  | [] => 0
  | Some _ :: s' => isna_sum s'
  | None :: s' => S (isna_sum s')
  end.

(** [series.isnull().all()] *)
Definition isnull_all (s : Series) : bool := forallb Py.is_None s.

Definition mem (v : V) (l : list V) : bool := existsb (val_eqb v) l.

(** Distinct values in order of first appearance. *)
Fixpoint unique (l : list V) : list V :=
  match l with
  | [] => []
  | v :: l' => v :: filter (fun w => negb (val_eqb v w)) (unique l')
  end.

(** [series.nunique()]: nulls are not counted. *)
Definition nunique (s : Series) : nat := List.length (unique (dropna s)).

Definition count_occ_val (v : V) (l : list V) : nat :=
  List.length (filter (val_eqb v) l).

(** Insertion by descending count, in front of the rows with the same
    count: the rows are inserted last to first, so that equal counts stay in
    their order. *)
Fixpoint insert_desc (x : V * nat) (l : list (V * nat)) : list (V * nat) :=
  match l with
  | [] => [x]
  | y :: l' =>
      if Nat.leb (snd y) (snd x) then x :: y :: l' else y :: insert_desc x l'
  end.

Definition sort_desc (l : list (V * nat)) : list (V * nat) :=
  fold_right insert_desc [] l.

(** [series.value_counts()]: one row per distinct non-null value, most
    frequent first, equal counts in order of first appearance. *)
Definition value_counts (s : Series) : list (V * nat) :=
  let vals := dropna s in
  sort_desc (map (fun v => (v, count_occ_val v vals)) (unique vals)).

(** A frame is its labelled columns in column order, together with what
    the time-series sections ask of its index. *)
Record DataFrame : Type := {
  items : list (string * Series);
  index_time_ascending : bool
}.

(** [df.columns] *)
Definition columns_of (df : DataFrame) : list string := map fst (items df).

(** The series under a label; frames are meant with distinct labels, and
    the first column under the label is the one found. *)
Fixpoint lookup (col : string) (l : list (string * Series)) : option Series :=
  match l with
  | [] => None
  | (c, s) :: l' => if String.eqb c col then Some s else lookup col l'
  end.

(** [df[col]] *)
Definition getitem (df : DataFrame) (col : string) : Py.Res Series :=
  match lookup col (items df) with
  | Some s => Py.ret s
  | None => Py.raise (Py.KeyError col)
  end.

Fixpoint select (l : list (string * Series)) (cols : list string)
  : Py.Res (list (string * Series)) :=
  match cols with
  | [] => Py.ret []
  | c :: cols' =>
      match lookup c l with
      | None => Py.raise (Py.KeyError c)
      | Some s => rest <- select l cols' ;; Py.ret ((c, s) :: rest)
      end
  end.

(** [df[columns]] for a list of labels. *)
Definition getitems (df : DataFrame) (cols : list string) : Py.Res DataFrame :=
  sel <- select (items df) cols ;;
  Py.ret {| items := sel; index_time_ascending := index_time_ascending df |}.

(** A label of the frame. *)
Definition has_column (df : DataFrame) (col : string) : bool :=
  match lookup col (items df) with Some _ => true | None => false end.

End Frames.

Arguments Series V : clear implicits.
Arguments DataFrame V : clear implicits.

End Pandas.

(* ================================================================== *)
(** * What the modelled files import from outside                      *)
(* ================================================================== *)

(** The [str.format] conversions used by [top_frequent_values]: [{:,}] of a
    count and [{:.02f}] of a float. *)
Class PyFormat : Type := {
  format_grouped : nat -> string;
  format_fixed2 : Py.Float -> string
}.

(** [str] of a [float], as an f-string writes it. *)
Class PyFloatText : Type := {
  float_str : Q -> string
}.

(** pandas' numeric reductions of a series, with results in [F], and the
    subtraction of [F]. *)
Class PandasNumeric (V F : Type) : Type := {
  series_min : Pandas.Series V -> F;
  series_max : Pandas.Series V -> F;
  series_quantile : Pandas.Series V -> Q -> F;
  fsub : F -> F -> F
}.

(** Modelled from the spec: the enumeration [edvart.data_types.DataType] is
    not among the sources; the spec names the semantic types a column is
    classified into as numeric, categorical, boolean and datetime. *)
Inductive DataType : Type := NUMERIC | CATEGORICAL | BOOLEAN | DATE.

(** [edvart.data_types]: the predicates and the inference the sections call.
    [infer_data_type_str] is [infer_data_type(..., string_representation=True)]. *)
Class DataTypes (V : Type) : Type := {
  is_numeric : Pandas.Series V -> bool;
  is_categorical : Pandas.Series V -> bool;
  is_boolean : Pandas.Series V -> bool;
  infer_data_type : Pandas.Series V -> DataType;
  infer_data_type_str : Pandas.Series V -> string
}.

(** [pd.core.dtypes.common.is_datetime_or_timedelta_dtype] *)
Class PandasDtypeChecks (V : Type) : Type := {
  is_datetime_or_timedelta_dtype : Pandas.Series V -> bool
}.

(** The functions whose source text [get_code] inlines at verbosity 2. *)
Inductive Func : Type :=
| F_default_correlations | F_get_columns_x_y | F_plot_correlation
| F_plot_correlations | F_plot_pairplot | F_contingency_tables
| F_contingency_table | F_default_descriptive_statistics
| F_default_quantile_statistics | F_top_most_frequent | F_bar_plot
| F_numeric_statistics | F_histogram | F_format_number | F_dict_to_html
| F_add_html_heading | F_subcells_html | F_plot_acf | F_plot_pacf
| F_plot_umap.

(** [get_code] and [code_dedent] of
    [edvart.report_sections.code_string_formatting], and the title of
    [section_base.Section.get_title], which depends on the section's [name]
    and the heading level. *)
Class Notebook : Type := {
  get_code : Func -> string;
  code_dedent : string -> string;
  get_title : string -> nat -> string
}.

(** Notebook cells, [nbformat.v4.new_markdown_cell] and [new_code_cell]. *)
Inductive Cell : Type :=
| new_markdown_cell (source : string)
| new_code_cell (source : string).

Definition is_code_cell (c : Cell) : bool :=
  match c with new_code_cell _ => true | new_markdown_cell _ => false end.

(** The error every [columns_x]/[columns_y] check raises. *)
Definition both_or_neither : Py.Exn :=
  Py.ValueError "Either both or neither of columns_x, columns_y must be specified.".

(** [(columns_x is None) != (columns_y is None)] *)
Definition exactly_one {A B} (x : option A) (y : option B) : bool :=
  xorb (Py.is_None x) (Py.is_None y).

(* ================================================================== *)
(** * edvart/utils.py                                                  *)
(* ================================================================== *)

Module utils.

Section TopFrequent.
Context {V : Type} `{PyValue V} `{PyFormat}.

Definition other_key : V := of_str "Other values count".
Definition null_key : V := of_str "Null".

Definition sum_counts (rows : list (V * nat)) : nat :=
  fold_right (fun r acc => snd r + acc) 0 rows.

(** The dictionary literal of [top_frequent_values], before the loop
    that turns its values into text: [counts[:n_top]] and [counts[n_top:]]
    are slices of the Series of the value counts. *)
Definition frequency_counts (series : Pandas.Series V) (n_top : Z)
  : list (V * nat) :=
  let counts := Pandas.value_counts series in
  let nan_count := Pandas.isna_sum series in
  Py.dict_set val_eqb null_key nan_count
    (Py.dict_set val_eqb other_key (sum_counts (index_tail n_top counts))
       (index_head n_top counts)).

(** [100 * count / len(series)].  The length is zero only for the empty
    series, whose two entries hold the numpy integer 0. *)
Definition relative_frequency (count total : nat) : Py.Float :=
  match total, count with
  | O, O => Py.NaN
  | O, S _ => Py.Inf
  | S _, _ => Py.Finite (inject_Z (100 * Z.of_nat count) / inject_Z (Z.of_nat total))%Q
  end.

(** The f-string of one entry. *)
Definition frequency_text (count total : nat) : string :=
  format_grouped count ++ " ("
    ++ format_fixed2 (relative_frequency count total) ++ " %)".

Definition top_frequent_values (series : Pandas.Series V) (n_top : Z)
  : list (V * string) :=
  map (fun kv => (fst kv, frequency_text (snd kv) (Pandas.len series)))
      (frequency_counts series n_top).
End TopFrequent.

Section Categorical.
Context {V : Type} `{PyValue V} `{DataTypes V} `{PandasDtypeChecks V}.

(** [utils.is_categorical]; [is_numeric] is the one of [edvart.data_types]. *)
Definition is_categorical (series : Pandas.Series V) (nunique_max : Z) : bool :=
  (((nunique_max <? 0)%Z || (Z.of_nat (Pandas.nunique series) <=? nunique_max)%Z)
   || negb (is_numeric series))
  && negb (is_datetime_or_timedelta_dtype series).
End Categorical.

Section Statistics.
Context {V F : Type} `{PandasNumeric V F}.

Definition minimum (series : Pandas.Series V) : F := series_min series.
Definition maximum (series : Pandas.Series V) : F := series_max series.
Definition quartile1 (series : Pandas.Series V) : F :=
  series_quantile series (25 # 100).
Definition quartile3 (series : Pandas.Series V) : F :=
  series_quantile series (75 # 100).
Definition iqr (series : Pandas.Series V) : F :=
  fsub (series_quantile series (75 # 100)) (series_quantile series (25 # 100)).
Definition value_range (series : Pandas.Series V) : F :=
  fsub (series_max series) (series_min series).
End Statistics.

End utils.

(* ================================================================== *)
(** * Displayed outputs                                                *)
(* ================================================================== *)

(** The correlation functions of [CorrelationPlot.default_correlations]. *)
Inductive Correlation : Type := pearson | spearman | kendall.

(** The statistic functions of [edvart.utils] that the default dictionaries
    of [UnivariateAnalysis] point to. *)
Inductive Statistic : Type :=
| num_unique_values | sum_ | mean | mode | std | mad
| median_absolute_deviation | coefficient_of_variation | kurtosis | skewness
| minimum | maximum | quartile1 | median | quartile3 | value_range | iqr.

Section Outputs.
Context {V : Type}.

(** What a call to [display], [plt.show], [warnings.warn] or a plotting
    routine leaves in the calling notebook, with the data it was given. *)
Inductive Output : Type :=
| Markdown (text : string)
| CorrelationHeatmap (corr : Correlation) (columns_x columns_y : list string)
| PairplotFigure (columns_x columns_y : list string) (color_col : option string)
| ContingencyHeatmap (column1 column2 : string)
| MostFrequentValues (table : list (V * string))
| BarPlotFigure (value_counts : list (V * nat))
| Warning (message : string)
| StatisticsTables (series : Pandas.Series V)
    (descriptive_stats quantile_stats : list (string * Statistic))
| HistogramFigure (values : list V)
| UmapScatter (columns : list string) (color_col : option string)
    (interactive : bool)
| AutocorrelationFigure (column : string) (values : list V) (partial : bool)
| Printed (text : string).

(** A computation that displays outputs and then returns or raises; what
    was displayed before an exception stays displayed. *)
Definition Run (A : Type) : Type := (list Output * Py.Res A)%type.

Definition pure {A} (a : A) : Run A := ([], Py.ret a).
Definition display (o : Output) : Run unit := ([o], Py.ret tt).
Definition lift {A} (r : Py.Res A) : Run A := ([], r).

Definition then_ {A B} (m : Run A) (k : A -> Run B) : Run B :=
  match snd m with
  | inl e => (fst m, inl e)
  | inr a => ((fst m ++ fst (k a))%list, snd (k a))
  end.

(** [for x in l: body(x)] *)
Fixpoint for_each {A} (body : A -> Run unit) (l : list A) : Run unit :=
  match l with
  | [] => pure tt
  | x :: l' => then_ (body x) (fun _ => for_each body l')
  end.

Definition outputs {A} (m : Run A) : list Output := fst m.
Definition result {A} (m : Run A) : Py.Res A := snd m.
End Outputs.

Arguments Output V : clear implicits.
Arguments Run V A : clear implicits.

Notation "x <~ m ;; k" := (then_ m (fun x => k))
  (at level 61, m at next level, right associativity).
Notation "m ;;; k" := (then_ m (fun _ => k))
  (at level 61, right associativity).

(** [[col for col in cols if keep(df[col])]] *)
Fixpoint filter_by_series {V} (df : Pandas.DataFrame V)
    (keep : Pandas.Series V -> bool) (cols : list string) : Py.Res (list string) :=
  match cols with
  | [] => Py.ret []
  | col :: cols' =>
      s <- Pandas.getitem df col ;;
      rest <- filter_by_series df keep cols' ;;
      Py.ret (if keep s then col :: rest else rest)
  end.

(** [list(filter(keep, xs))] for a predicate that may raise. *)
Fixpoint filter_res {A} (keep : A -> Py.Res bool) (xs : list A) : Py.Res (list A) :=
  match xs with
  | [] => Py.ret []
  | x :: xs' =>
      b <- keep x ;;
      rest <- filter_res keep xs' ;;
      Py.ret (if b then x :: rest else rest)
  end.

(** [for col in columns: if not ok(df[col]): raise ValueError(msg(col))] *)
Fixpoint require_each {V} (df : Pandas.DataFrame V)
    (ok : Pandas.Series V -> bool) (msg : string -> Pandas.Series V -> string)
    (cols : list string) : Py.Res unit :=
  match cols with
  | [] => Py.ret tt
  | col :: cols' =>
      s <- Pandas.getitem df col ;;
      if ok s then require_each df ok msg cols'
      else Py.raise (Py.ValueError (msg col s))
  end.

(* ================================================================== *)
(** * edvart/report_sections/bivariate_analysis.py                     *)
(* ================================================================== *)

Module CorrelationPlot.

(** Modelled from the spec: [section_base.Section] is not among the
    sources.  Its constructor is taken to store [verbosity] and [columns],
    which is how every method reads them back; the record of each section
    carries these two fields next to its own. *)
Record t : Type := {
  verbosity : Z;
  columns : option (list string);
  columns_x : option (list string);
  columns_y : option (list string)
}.

Definition name : string := "Correlation Plot".

(** [CorrelationPlot.__init__] *)
Definition init (verbosity : Z) (columns columns_x columns_y : option (list string))
  : Py.Res t :=
  if exactly_one columns_x columns_y then Py.raise both_or_neither
  else Py.ret {| verbosity := verbosity; columns := columns;
                 columns_x := columns_x; columns_y := columns_y |}.

Definition default_correlations : list (string * Correlation) :=
  [("pearson", pearson); ("spearman", spearman); ("kendall", kendall)].

(** [corr_name.capitalize()]: the first letter in upper case, the others in
    lower case. *)
Definition upper (c : ascii) : ascii :=
  let n := nat_of_ascii c in
  if Nat.leb 97 n && Nat.leb n 122 then ascii_of_nat (n - 32) else c.

Definition lower (c : ascii) : ascii :=
  let n := nat_of_ascii c in
  if Nat.leb 65 n && Nat.leb n 90 then ascii_of_nat (n + 32) else c.

Fixpoint lowercase (s : string) : string :=
  match s with
  | EmptyString => EmptyString
  | String c rest => String (lower c) (lowercase rest)
  end.

Definition capitalize (corr_name : string) : string :=
  match corr_name with
  | EmptyString => EmptyString
  | String c rest => String (upper c) (lowercase rest)
  end.

Section WithFrame.
Context {V : Type} `{PyValue V} `{DataTypes V}.

(** [CorrelationPlot._get_columns_x_y].  After the check the two
    selections are both given or both missing. *)
Definition _get_columns_x_y (df : Pandas.DataFrame V)
    (columns columns_x columns_y : option (list string))
  : Py.Res (list string * list string) :=
  if exactly_one columns_x columns_y then Py.raise both_or_neither
  else
    let '(columns_x, columns_y) :=
      match columns_x, columns_y with
      | Some xs, Some ys => (xs, ys)
      | _, _ =>
          let columns :=
            match columns with
            | None => Pandas.columns_of df
            | Some cols => cols
            end in
          (columns, columns)
      end in
    xs <- filter_by_series df is_numeric columns_x ;;
    ys <- filter_by_series df is_numeric columns_y ;;
    Py.ret (xs, ys).

(** [CorrelationPlot.plot_correlation]: the columns are resolved, the
    heading displayed, the heat map drawn. *)
Definition plot_correlation (df : Pandas.DataFrame V) (corr_name : string)
    (corr_func : Correlation) (columns columns_x columns_y : option (list string))
  : Run V unit :=
  xy <~ lift (_get_columns_x_y df columns columns_x columns_y) ;;
  display (Markdown ("### " ++ capitalize corr_name ++ " Correlation")) ;;;
  display (CorrelationHeatmap corr_func (fst xy) (snd xy)).

(** [CorrelationPlot.plot_correlations] *)
Definition plot_correlations (df : Pandas.DataFrame V)
    (columns columns_x columns_y : option (list string))
    (pearson_ spearman_ kendall_ : bool) : Run V unit :=
  let correlations := default_correlations in
  let correlations :=
    if negb pearson_
    then filter (fun kv => negb (String.eqb (fst kv) "pearson")) correlations
    else correlations in
  let correlations :=
    if negb spearman_
    then filter (fun kv => negb (String.eqb (fst kv) "spearman")) correlations
    else correlations in
  let correlations :=
    if negb kendall_
    then filter (fun kv => negb (String.eqb (fst kv) "kendall")) correlations
    else correlations in
  for_each
    (fun kv => plot_correlation df (fst kv) (snd kv) columns columns_x columns_y)
    correlations.
End WithFrame.

Section WithNotebook.
Context `{Notebook}.

Definition default_call (self : t) : string :=
  let default_call := "plot_correlations(df=df" in
  let default_call :=
    match columns_x self with
    | Some xs =>
        (default_call ++ ", columns_x=" ++ Py.repr_list_str xs)
          ++ ", columns_y="
          ++ match columns_y self with
             | Some ys => Py.repr_list_str ys
             | None => "None"
             end
    | None =>
        match columns self with
        | Some cols => default_call ++ ", columns=" ++ Py.repr_list_str cols
        | None => default_call
        end
    end in
  default_call ++ ")".

Definition newline2 : string := String (ascii_of_nat 10) (String (ascii_of_nat 10) EmptyString).

Definition code (self : t) : string :=
  if (verbosity self <=? 1)%Z then default_call self
  else
    get_code F_default_correlations ++ newline2
      ++ get_code F_get_columns_x_y ++ newline2
      ++ Py.remove_all "CorrelationPlot." (get_code F_plot_correlation) ++ newline2
      ++ Py.remove_all "CorrelationPlot." (get_code F_plot_correlations) ++ newline2
      ++ default_call self.

(** [CorrelationPlot.add_cells] *)
Definition add_cells (self : t) (cells : list Cell) : list Cell :=
  let cells := (cells ++ [new_markdown_cell (get_title name 2)])%list in
  (cells ++ [new_code_cell (code self)])%list.

(** [CorrelationPlot.show] *)
Definition show {V : Type} `{PyValue V} `{DataTypes V}
    (self : t) (df : Pandas.DataFrame V) : Run V unit :=
  display (Markdown (get_title name 2)) ;;;
  plot_correlations df (columns self) (columns_x self) (columns_y self)
    true true true.
End WithNotebook.

End CorrelationPlot.

Module PairPlot.

Record t : Type := {
  verbosity : Z;
  columns : option (list string);
  columns_x : option (list string);
  columns_y : option (list string);
  color_col : option string
}.

Definition name : string := "Pairplot".

(** [PairPlot.__init__] *)
Definition init (verbosity : Z) (columns columns_x columns_y : option (list string))
    (color_col : option string) : Py.Res t :=
  if exactly_one columns_x columns_y then Py.raise both_or_neither
  else Py.ret {| verbosity := verbosity; columns := columns;
                 columns_x := columns_x; columns_y := columns_y;
                 color_col := color_col |}.

Section WithFrame.
Context {V : Type} `{PyValue V} `{DataTypes V}.

(** The local [include_column] of [plot_pairplot], on the series. *)
Definition include_series (s : Pandas.Series V) : bool :=
  negb (is_categorical s) && negb (is_boolean s).

(** [PairPlot.plot_pairplot] *)
Definition plot_pairplot (df : Pandas.DataFrame V)
    (columns columns_x columns_y : option (list string))
    (allow_categorical : bool) (color_col : option string) : Run V unit :=
  if exactly_one columns_x columns_y then lift (Py.raise both_or_neither)
  else
    xy <~ lift
      (match columns_x, columns_y with
       | Some xs, Some ys => Py.ret (xs, ys)
       | _, _ =>
           columns <-
             match columns with
             | None => filter_by_series df include_series (Pandas.columns_of df)
             | Some cols => Py.ret cols
             end ;;
           Py.ret (columns, columns)
       end) ;;
    xy <~ lift
      (if negb allow_categorical
       then
         xs <- filter_by_series df include_series (fst xy) ;;
         ys <- filter_by_series df include_series (snd xy) ;;
         Py.ret (xs, ys)
       else Py.ret xy) ;;
    display (PairplotFigure (fst xy) (snd xy) color_col).
End WithFrame.

Section WithNotebook.
Context `{Notebook}.

(** The call text of [PairPlot.add_cells]; the [columns] branch ends in
    a closing parenthesis of its own. *)
Definition default_call (self : t) : string :=
  let default_call := "plot_pairplot(df=df" in
  let default_call :=
    match columns_x self with
    | Some xs =>
        (default_call ++ ", columns_x=" ++ Py.repr_list_str xs)
          ++ ", columns_y="
          ++ match columns_y self with
             | Some ys => Py.repr_list_str ys
             | None => "None"
             end
    | None =>
        match columns self with
        | Some cols => default_call ++ ", columns=" ++ Py.repr_list_str cols ++ ")"
        | None => default_call
        end
    end in
  let default_call :=
    match color_col self with
    | Some c => default_call ++ ", color_col='" ++ c ++ "'"
    | None => default_call
    end in
  default_call ++ ")".

Definition code (self : t) : string :=
  if (verbosity self <=? 1)%Z then default_call self
  else get_code F_plot_pairplot ++ CorrelationPlot.newline2 ++ default_call self.

(** [PairPlot.add_cells] *)
Definition add_cells (self : t) (cells : list Cell) : list Cell :=
  let cells := (cells ++ [new_markdown_cell (get_title name 2)])%list in
  (cells ++ [new_code_cell (code self)])%list.

(** [PairPlot.show] *)
Definition show {V : Type} `{PyValue V} `{DataTypes V}
    (self : t) (df : Pandas.DataFrame V) : Run V unit :=
  display (Markdown (get_title name 2)) ;;;
  plot_pairplot df (columns self) (columns_x self) (columns_y self)
    false (color_col self).
End WithNotebook.

End PairPlot.

Module ContingencyTable.

Record t : Type := {
  verbosity : Z;
  columns : option (list string);
  columns_x : option (list string);
  columns_y : option (list string);
  columns_pairs : option (list (string * string))
}.

Definition name : string := "Contingency table".

(** [ContingencyTable.__init__]: no check here. *)
Definition init (verbosity : Z) (columns columns_x columns_y : option (list string))
    (columns_pairs : option (list (string * string))) : t :=
  {| verbosity := verbosity; columns := columns; columns_x := columns_x;
     columns_y := columns_y; columns_pairs := columns_pairs |}.

Section WithFrame.
Context {V : Type} `{PyValue V}.

(** The local [include_column] of [contingency_tables]; [or] and [and]
    evaluate [df[col]] only as far as they need. *)
Definition include_column (df : Pandas.DataFrame V) (table_threshold : Z)
    (col : string) : Py.Res bool :=
  few <-
    (if (table_threshold <? 0)%Z then Py.ret true
     else
       s <- Pandas.getitem df col ;;
       Py.ret (Z.of_nat (Pandas.nunique s) <=? table_threshold)%Z) ;;
  if few
  then s <- Pandas.getitem df col ;; Py.ret (negb (Pandas.isnull_all s))
  else Py.ret false.

Definition include_column_pair (df : Pandas.DataFrame V) (table_threshold : Z)
    (col_pair : string * string) : Py.Res bool :=
  if String.eqb (fst col_pair) (snd col_pair) then Py.ret false
  else
    first <- include_column df table_threshold (fst col_pair) ;;
    if first then include_column df table_threshold (snd col_pair)
    else Py.ret false.

(** [ContingencyTable.contingency_table] for two single labels. *)
Definition contingency_table (df : Pandas.DataFrame V) (columns1 columns2 : string)
  : Run V unit :=
  _ <~ lift (Pandas.getitem df columns1) ;;
  _ <~ lift (Pandas.getitem df columns2) ;;
  display (ContingencyHeatmap columns1 columns2).

(** The pairs [contingency_tables] goes on to display. *)
Definition table_pairs (df : Pandas.DataFrame V)
    (columns columns_x columns_y : option (list string))
    (columns_pairs : option (list (string * string))) (table_threshold : Z)
  : Py.Res (list (string * string)) :=
  if exactly_one columns_x columns_y then Py.raise both_or_neither
  else
    columns_pairs <-
      match columns_pairs with
      | Some pairs => Py.ret pairs
      | None =>
          xy <-
            match columns_x, columns_y with
            | Some xs, Some ys => Py.ret (xs, ys)
            | _, _ =>
                columns <-
                  match columns with
                  | None =>
                      filter_by_series df
                        (fun s => Nat.ltb 1 (Pandas.nunique s))
                        (Pandas.columns_of df)
                  | Some cols => Py.ret cols
                  end ;;
                Py.ret (columns, columns)
            end ;;
          Py.ret (flat_map (fun col_x => map (pair col_x) (snd xy)) (fst xy))
      end ;;
    filter_res (include_column_pair df table_threshold) columns_pairs.

(** [ContingencyTable.contingency_tables] *)
Definition contingency_tables (df : Pandas.DataFrame V)
    (columns columns_x columns_y : option (list string))
    (columns_pairs : option (list (string * string))) (table_threshold : Z)
  : Run V unit :=
  columns_pairs <~
    lift (table_pairs df columns columns_x columns_y columns_pairs table_threshold) ;;
  for_each (fun p => contingency_table df (fst p) (snd p)) columns_pairs.

End WithFrame.

Section WithNotebook.
Context `{Notebook}.

Definition default_call (self : t) : string :=
  let default_call := "contingency_tables(df=df" in
  let default_call :=
    match columns_pairs self with
    | Some pairs => default_call ++ ", columns_pairs=" ++ Py.repr_list_pair pairs
    | None =>
        match columns_x self with
        | Some xs =>
            (default_call ++ ", columns_x=" ++ Py.repr_list_str xs)
              ++ ", columns_y="
              ++ match columns_y self with
                 | Some ys => Py.repr_list_str ys
                 | None => "None"
                 end
        | None =>
            match columns self with
            | Some cols => default_call ++ ", columns=" ++ Py.repr_list_str cols
            | None => default_call
            end
        end
    end in
  default_call ++ ")".

Definition code (self : t) : string :=
  if (verbosity self <=? 1)%Z then default_call self
  else
    Py.remove_all "ContingencyTable." (get_code F_contingency_tables)
      ++ CorrelationPlot.newline2
      ++ get_code F_contingency_table ++ CorrelationPlot.newline2
      ++ default_call self.

(** [ContingencyTable.add_cells] *)
Definition add_cells (self : t) (cells : list Cell) : list Cell :=
  let cells := (cells ++ [new_markdown_cell (get_title name 2)])%list in
  (cells ++ [new_code_cell (code self)])%list.

(** [ContingencyTable.show]: the threshold keeps its default, 30. *)
Definition show {V : Type} `{PyValue V}
    (self : t) (df : Pandas.DataFrame V) : Run V unit :=
  display (Markdown (get_title name 2)) ;;;
  contingency_tables df (columns self) (columns_x self) (columns_y self)
    (columns_pairs self) 30.
End WithNotebook.

End ContingencyTable.

Module BivariateAnalysis.

(** [BivariateAnalysis.BivariateAnalysisSubsection]; [str] of a member is
    its name. *)
Inductive BivariateAnalysisSubsection : Type :=
| Sub_CorrelationPlot
| Sub_PairPlot
| Sub_ContingencyTable.

Definition str (sub : BivariateAnalysisSubsection) : string :=
  match sub with
  | Sub_CorrelationPlot => "CorrelationPlot"
  | Sub_PairPlot => "PairPlot"
  | Sub_ContingencyTable => "ContingencyTable"
  end.

(** [list(BivariateAnalysisSubsection)] *)
Definition all_subsections : list BivariateAnalysisSubsection :=
  [Sub_CorrelationPlot; Sub_PairPlot; Sub_ContingencyTable].

(** The section objects behind the members. *)
Inductive Subsection : Type :=
| Correlations (s : CorrelationPlot.t)
| Pairs (s : PairPlot.t)
| Tables (s : ContingencyTable.t).

Definition sub_verbosity (sub : Subsection) : Z :=
  match sub with
  | Correlations s => CorrelationPlot.verbosity s
  | Pairs s => PairPlot.verbosity s
  | Tables s => ContingencyTable.verbosity s
  end.

Record t : Type := {
  subsections_0 : option (list BivariateAnalysisSubsection);
  subsections : list Subsection;
  verbosity : Z;
  columns : option (list string);
  columns_x : option (list string);
  columns_y : option (list string);
  columns_pairs : option (list (string * string));
  color_col : option string
}.

Definition name : string := "Bivariate analysis".

(** [x if x is not None else verbosity] *)
Definition or_default (x : option Z) (verbosity : Z) : Z :=
  match x with Some v => v | None => verbosity end.

(** The arguments of the constructor. *)
Record Args : Type := {
  a_subsections : option (list BivariateAnalysisSubsection);
  a_verbosity : Z;
  a_columns : option (list string);
  a_columns_x : option (list string);
  a_columns_y : option (list string);
  a_columns_pairs : option (list (string * string));
  a_verbosity_correlations : option Z;
  a_verbosity_pairplot : option Z;
  a_verbosity_contingency_table : option Z;
  a_color_col : option string
}.

(** The dictionary [verbosities] of the constructor. *)
Definition verbosities (a : Args) (sub : BivariateAnalysisSubsection) : Z :=
  match sub with
  | Sub_CorrelationPlot => or_default (a_verbosity_correlations a) (a_verbosity a)
  | Sub_PairPlot => or_default (a_verbosity_pairplot a) (a_verbosity a)
  | Sub_ContingencyTable =>
      or_default (a_verbosity_contingency_table a) (a_verbosity a)
  end.

(** [BivariateAnalysis.__init__] *)
Definition init (a : Args) : Py.Res t :=
  let verbosity_correlations := or_default (a_verbosity_correlations a) (a_verbosity a) in
  let verbosity_pairplot := or_default (a_verbosity_pairplot a) (a_verbosity a) in
  let verbosity_contingency_table :=
    or_default (a_verbosity_contingency_table a) (a_verbosity a) in
  let subsections_all :=
    match a_subsections a with
    | None => all_subsections
    | Some subs => subs
    end in
  let subsections_0 :=
    filter (fun sub => (verbosities a sub =? 0)%Z) subsections_all in
  let subsections_0 :=
    if Nat.eqb (List.length subsections_0) (List.length subsections_all)
       && Py.is_None (a_subsections a)
    then None else Some subsections_0 in
  if exactly_one (a_columns_x a) (a_columns_y a) then Py.raise both_or_neither
  else
    let '(columns_x_no_pairs, columns_y_no_pairs) :=
      match a_columns a, a_columns_x a, a_columns_pairs a with
      | None, None, Some pairs => (Some (map fst pairs), Some (map snd pairs))
      | _, _, _ => (a_columns_x a, a_columns_y a)
      end in
    correlation_plot <-
      CorrelationPlot.init verbosity_correlations (a_columns a)
        columns_x_no_pairs columns_y_no_pairs ;;
    pair_plot <-
      PairPlot.init verbosity_pairplot (a_columns a)
        columns_x_no_pairs columns_y_no_pairs (a_color_col a) ;;
    let contingency_table :=
      ContingencyTable.init verbosity_contingency_table (a_columns a)
        (a_columns_x a) (a_columns_y a) (a_columns_pairs a) in
    let enum_to_implementation sub :=
      match sub with
      | Sub_CorrelationPlot => Correlations correlation_plot
      | Sub_PairPlot => Pairs pair_plot
      | Sub_ContingencyTable => Tables contingency_table
      end in
    Py.ret {| subsections_0 := subsections_0;
              subsections := map enum_to_implementation subsections_all;
              verbosity := a_verbosity a;
              columns := a_columns a;
              columns_x := a_columns_x a;
              columns_y := a_columns_y a;
              columns_pairs := a_columns_pairs a;
              color_col := a_color_col a |}.

(** The keyword arguments of the static [bivariate_analysis]. *)
Record Call : Type := {
  c_subsections : option (list BivariateAnalysisSubsection);
  c_columns : option (list string);
  c_columns_x : option (list string);
  c_columns_y : option (list string);
  c_columns_pairs : option (list (string * string));
  c_color_col : option string
}.

Section WithNotebook.
Context `{Notebook}.

Definition sub_add_cells (sub : Subsection) (cells : list Cell) : list Cell :=
  match sub with
  | Correlations s => CorrelationPlot.add_cells s cells
  | Pairs s => PairPlot.add_cells s cells
  | Tables s => ContingencyTable.add_cells s cells
  end.

Definition sub_show {V : Type} `{PyValue V} `{DataTypes V}
    (sub : Subsection) (df : Pandas.DataFrame V) : Run V unit :=
  match sub with
  | Correlations s => CorrelationPlot.show s df
  | Pairs s => PairPlot.show s df
  | Tables s => ContingencyTable.show s df
  end.

(** [BivariateAnalysis.bivariate_analysis] *)
Definition bivariate_analysis {V : Type} `{PyValue V} `{DataTypes V}
    (df : Pandas.DataFrame V) (c : Call) : Run V unit :=
  bivariate_analysis <~
    lift (init {| a_subsections := c_subsections c;
                  a_verbosity := 0;
                  a_columns := c_columns c;
                  a_columns_x := c_columns_x c;
                  a_columns_y := c_columns_y c;
                  a_columns_pairs := c_columns_pairs c;
                  a_verbosity_correlations := None;
                  a_verbosity_pairplot := None;
                  a_verbosity_contingency_table := None;
                  a_color_col := c_color_col c |}) ;;
  for_each (fun sub => sub_show sub df) (subsections bivariate_analysis).

(** The text of the single cell of verbosity 0. *)
Definition aggregate_code (self : t) : string :=
  let code := "bivariate_analysis(df=df" in
  let code :=
    match subsections_0 self with
    | Some subs =>
        let arg_subsections_names :=
          map (fun sub => "BivariateAnalysis.BivariateAnalysisSubsection." ++ str sub)
              subs in
        code ++ Py.remove_all "'"
                  (", subsections=" ++ Py.repr_list_str arg_subsections_names)
    | None => code
    end in
  let code :=
    match columns_x self with
    | Some xs =>
        (code ++ ", columns_x=" ++ Py.repr_list_str xs)
          ++ ", columns_y="
          ++ match columns_y self with
             | Some ys => Py.repr_list_str ys
             | None => "None"
             end
    | None =>
        match columns self with
        | Some cols => code ++ ", columns=" ++ Py.repr_list_str cols
        | None => code
        end
    end in
  let code :=
    match columns_pairs self with
    | Some pairs => code ++ ", columns_pairs=" ++ Py.repr_list_pair pairs
    | None => code
    end in
  let code :=
    match color_col self with
    | Some c => code ++ ", color_col='" ++ c ++ "'"
    | None => code
    end in
  code ++ ")".

(** The keyword arguments that [aggregate_code] writes down. *)
Definition aggregate_call (self : t) : Call :=
  {| c_subsections := subsections_0 self;
     c_columns :=
       match columns_x self with Some _ => None | None => columns self end;
     c_columns_x := columns_x self;
     c_columns_y :=
       match columns_x self with Some _ => columns_y self | None => None end;
     c_columns_pairs := columns_pairs self;
     c_color_col := color_col self |}.

(** [for sub in self.subsections: if sub.verbosity > 0: sub.add_cells(cells)] *)
Definition add_verbose_cells (subs : list Subsection) (cells : list Cell)
  : list Cell :=
  fold_left
    (fun cells sub =>
       if (0 <? sub_verbosity sub)%Z then sub_add_cells sub cells else cells)
    subs cells.

(** [BivariateAnalysis.add_cells].  [super_add_cells] stands for
    [ReportSection.add_cells], which is not among the sources. *)
Definition add_cells (super_add_cells : t -> list Cell -> list Cell)
    (self : t) (cells : list Cell) : list Cell :=
  let cells := (cells ++ [new_markdown_cell (get_title name 1)])%list in
  if (verbosity self =? 0)%Z
  then
    let cells := (cells ++ [new_code_cell (aggregate_code self)])%list in
    add_verbose_cells (subsections self) cells
  else super_add_cells self cells.

(** Modelled from the spec: [ReportSection.show] is not among the
    sources.  A report section is composed of its subsections, and
    showing it shows each of them in order, the loop that
    [bivariate_analysis] runs over the same list. *)
Definition super_show {V : Type} `{PyValue V} `{DataTypes V}
    (self : t) (df : Pandas.DataFrame V) : Run V unit :=
  for_each (fun sub => sub_show sub df) (subsections self).

(** [BivariateAnalysis.show] *)
Definition show {V : Type} `{PyValue V} `{DataTypes V}
    (self : t) (df : Pandas.DataFrame V) : Run V unit :=
  display (Markdown (get_title name 1)) ;;;
  super_show self df.
End WithNotebook.

End BivariateAnalysis.

(* ================================================================== *)
(** * edvart/report_sections/univariate_analysis.py                    *)
(* ================================================================== *)

Module UnivariateAnalysis.

Section WithFrame.
Context {V : Type} `{PyValue V} `{PyFormat} `{DataTypes V} `{Notebook}.

Record t : Type := {
  df : Pandas.DataFrame V;
  verbosity : Z;
  columns : option (list string)
}.

Definition name : string := "Univariate Analysis".

(** [UnivariateAnalysis.__init__] *)
Definition init (df : Pandas.DataFrame V) (verbosity : Z)
    (columns : option (list string)) : t :=
  {| df := df; verbosity := verbosity; columns := columns |}.

Definition default_descriptive_statistics : list (string * Statistic) :=
  [("Number of unique values", num_unique_values);
   ("Sum", sum_);
   ("Mean", mean);
   ("Mode", mode);
   ("Standard deviation", std);
   ("Mean absolute deviation", mad);
   ("Median absolute deviation", median_absolute_deviation);
   ("Coefficient of variation", coefficient_of_variation);
   ("Kurtosis", kurtosis);
   ("Skewness", skewness)].

Definition default_quantile_statistics : list (string * Statistic) :=
  [("Minimum", minimum);
   ("Maximum", maximum);
   ("Q1", quartile1);
   ("Median", median);
   ("Q3", quartile3);
   ("Range", value_range);
   ("IQR", iqr)].

(** [UnivariateAnalysis.histogram], with its defaults. *)
Definition histogram (series : Pandas.Series V) : Run V unit :=
  let series := Pandas.dropna series in
  display (HistogramFigure series).

Definition nat_text (n : nat) : string :=
  NilEmpty.string_of_uint (Nat.to_uint n).

(** [UnivariateAnalysis.bar_plot]: above the threshold there is a
    warning and no plot. *)
Definition bar_plot (series : Pandas.Series V) (plotting_threshold : nat)
  : Run V unit :=
  if Nat.ltb plotting_threshold (Pandas.nunique series)
  then
    display (Warning ("Number of unique values is greater than "
                        ++ nat_text plotting_threshold
                        ++ ", not plotting bar plot."))
  else
    let value_counts := Pandas.value_counts series in
    display (BarPlotFigure value_counts).

(** [UnivariateAnalysis.numeric_statistics] *)
Definition numeric_statistics (series : Pandas.Series V)
    (descriptive_stats quantile_stats : option (list (string * Statistic)))
  : Run V unit :=
  let descriptive_stats :=
    match descriptive_stats with
    | None => default_descriptive_statistics
    | Some stats => stats
    end in
  let quantile_stats :=
    match quantile_stats with
    | None => default_quantile_statistics
    | Some stats => stats
    end in
  display (StatisticsTables series descriptive_stats quantile_stats).

(** [UnivariateAnalysis.top_most_frequent] *)
Definition top_most_frequent (series : Pandas.Series V) (n_top : Z) : Run V unit :=
  display (MostFrequentValues (utils.top_frequent_values series n_top)).

(** The body of the loop over the columns that [univariate_analysis]
    and [show] share, up to the separator that only [show] displays. *)
Definition analyse_column (separator : bool) (col : string)
    (series : Pandas.Series V) : Run V unit :=
  if Pandas.isnull_all series
  then
    display (Markdown ("## *" ++ col ++ " - NULL*")) ;;;
    display (Markdown "The column contains only null values.")
  else
    let data_type_name := infer_data_type_str series in
    let data_type := infer_data_type series in
    display (Markdown ("## *" ++ col ++ " - " ++ data_type_name ++ "*")) ;;;
    (match data_type with
     | CATEGORICAL | BOOLEAN =>
         top_most_frequent series 5 ;;; bar_plot series 50
     | _ =>
         numeric_statistics series None None ;;; histogram series
     end) ;;;
    (if separator then display (Markdown "---") else pure tt).

(** [for col in df.columns: ... df[col] ...] on a frame with distinct
    labels. *)
Definition for_each_column (body : string -> Pandas.Series V -> Run V unit)
    (df : Pandas.DataFrame V) : Run V unit :=
  for_each (fun item => body (fst item) (snd item)) (Pandas.items df).

(** [if columns is not None: df = df[columns]] *)
Definition restrict (df : Pandas.DataFrame V) (columns : option (list string))
  : Py.Res (Pandas.DataFrame V) :=
  match columns with
  | Some cols => Pandas.getitems df cols
  | None => Py.ret df
  end.

(** [UnivariateAnalysis.univariate_analysis] *)
Definition univariate_analysis (df : Pandas.DataFrame V)
    (columns : option (list string)) : Run V unit :=
  df <~ lift (restrict df columns) ;;
  for_each_column (analyse_column false) df.

(** [UnivariateAnalysis.show] *)
Definition show (self : t) (df : Pandas.DataFrame V) : Run V unit :=
  df <~ lift (restrict df (columns self)) ;;
  display (Markdown (get_title name 1)) ;;;
  for_each_column (analyse_column true) df.

Definition newline : string := String (ascii_of_nat 10) EmptyString.
Definition newline2 : string := newline ++ newline.

(** The three cells of definitions that verbosity 2 adds. *)
Definition definition_cells : list Cell :=
  [new_code_cell
     ("# Default statistics dictionaries" ++ newline2
        ++ get_code F_default_descriptive_statistics ++ newline2
        ++ get_code F_default_quantile_statistics);
   new_code_cell
     (get_code F_top_most_frequent ++ newline2
        ++ get_code F_bar_plot ++ newline2
        ++ Py.remove_all "UnivariateAnalysis." (get_code F_numeric_statistics)
        ++ newline2
        ++ get_code F_histogram);
   new_code_cell
     (get_code F_format_number ++ newline2
        ++ get_code F_dict_to_html ++ newline2
        ++ get_code F_add_html_heading ++ newline2
        ++ get_code F_subcells_html)].

(** The three f-strings of the per-column code, before [code_dedent]. *)
Definition frequent_template (col : string) : string :=
  newline
    ++ "                        top_most_frequent(df['" ++ col ++ "'])" ++ newline
    ++ "                        bar_plot(df['" ++ col ++ "'])".

Definition numeric_template (col : string) : string :=
  newline
    ++ "                            numeric_statistics(df['" ++ col ++ "'])" ++ newline
    ++ "                            histogram(df['" ++ col ++ "'])".

Definition numeric_template_explicit (col : string) : string :=
  newline
    ++ "                            numeric_statistics(" ++ newline
    ++ "                                df['" ++ col ++ "']," ++ newline
    ++ "                                descriptive_stats=default_descriptive_statistics(),"
    ++ newline
    ++ "                                quantile_stats=default_quantile_statistics()"
    ++ newline
    ++ "                            )" ++ newline
    ++ "                            histogram(df['" ++ col ++ "'])".

Definition column_code (verbosity : Z) (data_type : DataType) (col : string)
  : string :=
  match data_type with
  | CATEGORICAL | BOOLEAN => code_dedent (frequent_template col)
  | _ =>
      if (verbosity =? 1)%Z then code_dedent (numeric_template col)
      else code_dedent (numeric_template_explicit col)
  end.

(** One turn of the loop of [add_cells] at verbosity 1 and 2: a column of
    nulls displays its note and adds no cell. *)
Definition column_cells (verbosity : Z) (col : string) (series : Pandas.Series V)
  : Run V (list Cell) :=
  if Pandas.isnull_all series
  then
    display (Markdown ("## *" ++ col ++ " - NULL*")) ;;;
    display (Markdown "The column contains only null values.") ;;;
    pure []
  else
    let data_type_name := infer_data_type_str series in
    let data_type := infer_data_type series in
    pure [new_markdown_cell ("## *" ++ col ++ " - " ++ data_type_name ++ "*");
          new_code_cell (column_code verbosity data_type col)].

Fixpoint columns_cells (verbosity : Z) (cols : list (string * Pandas.Series V))
  : Run V (list Cell) :=
  match cols with
  | [] => pure []
  | (col, series) :: cols' =>
      here <~ column_cells verbosity col series ;;
      rest <~ columns_cells verbosity cols' ;;
      pure (here ++ rest)%list
  end.

(** The text of the single cell of verbosity 0. *)
Definition aggregate_code (self : t) : string :=
  match columns self with
  | None => "univariate_analysis(df=df)"
  | Some cols => "univariate_analysis(df=df, columns=" ++ Py.repr_list_str cols ++ ")"
  end.

(** [UnivariateAnalysis.add_cells]: the section with its frame restricted
    to the columns, and the cells. *)
Definition add_cells (self : t) (cells : list Cell) : Run V (t * list Cell) :=
  df' <~ lift (restrict (df self) (columns self)) ;;
  let self :=
    {| df := df'; verbosity := verbosity self; columns := columns self |} in
  let cells := (cells ++ [new_markdown_cell (get_title name 1)])%list in
  let cells :=
    if (verbosity self =? 2)%Z then (cells ++ definition_cells)%list else cells in
  if (verbosity self =? 0)%Z
  then pure (self, (cells ++ [new_code_cell (aggregate_code self)])%list)
  else
    added <~ columns_cells (verbosity self) (Pandas.items (df self)) ;;
    pure (self, (cells ++ added)%list).
End WithFrame.

Arguments t V : clear implicits.

End UnivariateAnalysis.

(* ================================================================== *)
(** * edvart/report_sections/umap.py                                   *)
(* ================================================================== *)

(** [str(series.dtype)], which the error message of [UMAP] quotes. *)
Class Dtypes (V : Type) : Type := {
  dtype_str : Pandas.Series V -> string
}.

(** [[col for col in df.columns if is_numeric(df[col])]] *)
Definition numeric_columns {V} `{DataTypes V} (df : Pandas.DataFrame V)
  : Py.Res (list string) :=
  filter_by_series df is_numeric (Pandas.columns_of df).

Module UMAP.

Record t : Type := {
  verbosity : Z;
  columns : option (list string);
  color_col : option string;
  interactive : bool;
  n_neighbors : Z;
  min_dist : Q;
  metric : string
}.

Definition name : string := "UMAP".

Section WithFrame.
Context {V : Type} `{PyValue V} `{DataTypes V} `{Dtypes V}.

Definition non_numeric_message (col : string) (s : Pandas.Series V) : string :=
  "Cannot use non-numeric column " ++ col ++ " of dtype " ++ dtype_str s
    ++ " in UMAP".

(** [UMAP.__init__]: when every column is numeric the default selection
    is stored as [None] again. *)
Definition init (df : Pandas.DataFrame V) (verbosity : Z)
    (columns : option (list string)) (color_col : option string)
    (interactive : bool) (n_neighbors : Z) (min_dist : Q) (metric : string)
  : Py.Res t :=
  columns <-
    match columns with
    | None =>
        columns <- numeric_columns df ;;
        Py.ret (if Nat.eqb (List.length columns)
                            (List.length (Pandas.columns_of df))
                then None else Some columns)
    | Some cols =>
        _ <- require_each df is_numeric non_numeric_message cols ;;
        Py.ret (Some cols)
    end ;;
  Py.ret {| verbosity := verbosity; columns := columns; color_col := color_col;
            interactive := interactive; n_neighbors := n_neighbors;
            min_dist := min_dist; metric := metric |}.

(** The columns [plot_umap] embeds. *)
Definition resolve_columns (df : Pandas.DataFrame V)
    (columns : option (list string)) : Py.Res (list string) :=
  match columns with
  | None => numeric_columns df
  | Some cols =>
      _ <- require_each df is_numeric non_numeric_message cols ;;
      Py.ret cols
  end.

(** [UMAP.plot_umap]; the embedding and figure parameters pass through to
    [umap] and the scatter plot and are left out. *)
Definition plot_umap (df : Pandas.DataFrame V) (columns : option (list string))
    (color_col : option string) (interactive : bool) (show_message : bool)
  : Run V unit :=
  columns <~ lift (resolve_columns df columns) ;;
  display (UmapScatter columns color_col interactive) ;;;
  if show_message
  then
    display (Printed "UMAP requires proper setting of hyperparameters. ") ;;;
    display (Printed ("If results are unsatisfactory, consider trying different values of parameters"
                        ++ " `n_neighbors`, `min_dist` and `metric`."))
  else pure tt.
End WithFrame.

Section WithNotebook.
Context `{Notebook} `{PyFloatText}.

Definition newline : string := String (ascii_of_nat 10) EmptyString.

(** The f-string of [add_cells], before its last character is cut and
    before [code_dedent]. *)
Definition call_template (self : t) : string :=
  newline
    ++ "            plot_umap(" ++ newline
    ++ "                df=df," ++ newline
    ++ "                n_neighbors=" ++ Py.str_int (n_neighbors self) ++ "," ++ newline
    ++ "                min_dist=" ++ float_str (min_dist self) ++ "," ++ newline
    ++ "                metric='" ++ metric self ++ "'," ++ newline
    ++ "            ".

Definition default_call (self : t) : string :=
  let default_call := code_dedent (Py.drop_last (call_template self)) in
  let default_call :=
    match columns self with
    | Some cols => default_call ++ "    columns=" ++ Py.repr_list_str cols ++ ","
    | None => default_call
    end in
  let default_call :=
    match color_col self with
    | Some c => default_call ++ "    color_col='" ++ c ++ "',"
    | None => default_call
    end in
  let default_call :=
    if negb (interactive self) then default_call ++ "    interactive=False,"
    else default_call in
  default_call ++ newline ++ ")".

Definition code (self : t) : string :=
  if (verbosity self <=? 1)%Z then default_call self
  else get_code F_plot_umap ++ newline ++ newline ++ default_call self.

(** [UMAP.add_cells] *)
Definition add_cells (self : t) (cells : list Cell) : list Cell :=
  let cells := (cells ++ [new_markdown_cell (get_title name 2)])%list in
  (cells ++ [new_code_cell (code self)])%list.

(** [UMAP.show]; [show_message] keeps its default. *)
Definition show {V : Type} `{PyValue V} `{DataTypes V} `{Dtypes V}
    (self : t) (df : Pandas.DataFrame V) : Run V unit :=
  display (Markdown (get_title name 2)) ;;;
  plot_umap df (columns self) (color_col self) (interactive self) true.
End WithNotebook.

End UMAP.

(* ================================================================== *)
(** * edvart/report_sections/timeseries_analysis/autocorrelation.py    *)
(* ================================================================== *)

Module Autocorrelation.

Record t : Type := {
  verbosity : Z;
  columns : option (list string)
}.

Definition name : string := "Autocorrelation".

(** The error of the decorator, worded as the docstring of
    [autocorrelation] words its condition. *)
Definition not_time_ascending : Py.Exn :=
  Py.ValueError "The input data is not indexed by time in ascending order.".

(** Modelled from the spec: [edvart.decorators] is not among the sources.
    The docstring of [autocorrelation] gives what the decorator does: it
    raises ValueError if the input data is not indexed by time in ascending
    order.  The wrapped function runs only when the index passes. *)
Definition check_index_time_ascending {V A} (func : Pandas.DataFrame V -> Run V A)
    (df : Pandas.DataFrame V) : Run V A :=
  if Pandas.index_time_ascending df then func df
  else lift (Py.raise not_time_ascending).

Section WithFrame.
Context {V : Type} `{PyValue V} `{DataTypes V}.

Definition non_numeric_message (col : string) (s : Pandas.Series V) : string :=
  "Cannot plot autocorrelation for non-numeric column `" ++ col ++ "`".

(** The columns [plot_acf] plots. *)
Definition resolve_columns (df : Pandas.DataFrame V)
    (columns : option (list string)) : Py.Res (list string) :=
  match columns with
  | None => numeric_columns df
  | Some cols =>
      _ <- require_each df is_numeric non_numeric_message cols ;;
      Py.ret cols
  end.

Definition plot_column (df : Pandas.DataFrame V) (partial : bool) (col : string)
  : Run V unit :=
  display (Markdown ("---" ++ String (ascii_of_nat 10) "### " ++ col)) ;;;
  s <~ lift (Pandas.getitem df col) ;;
  display (AutocorrelationFigure col (Pandas.dropna s) partial).

(** The body of [Autocorrelation.plot_acf]; [lags] and [figsize] pass
    through to the plot and are left out. *)
Definition plot_acf_body (columns : option (list string)) (partial : bool)
    (df : Pandas.DataFrame V) : Run V unit :=
  columns <~ lift (resolve_columns df columns) ;;
  for_each (plot_column df partial) columns.

(** [Autocorrelation.plot_acf], decorated. *)
Definition plot_acf (df : Pandas.DataFrame V) (columns : option (list string))
    (partial : bool) : Run V unit :=
  check_index_time_ascending (plot_acf_body columns partial) df.

(** [Autocorrelation.plot_pacf], decorated. *)
Definition plot_pacf (df : Pandas.DataFrame V) (columns : option (list string))
  : Run V unit :=
  check_index_time_ascending (fun df => plot_acf df columns true) df.

(** [Autocorrelation.autocorrelation], decorated. *)
Definition autocorrelation (df : Pandas.DataFrame V)
    (columns : option (list string)) : Run V unit :=
  check_index_time_ascending
    (fun df =>
       plot_acf df columns false ;;;
       display (Markdown "## Partial autocorrelation") ;;;
       plot_pacf df columns)
    df.
End WithFrame.

Section WithNotebook.
Context `{Notebook}.

Definition call_text (func : string) (self : t) : string :=
  let default_call := func ++ "(df=df" in
  let default_call :=
    match columns self with
    | Some cols => default_call ++ ", columns=" ++ Py.repr_list_str cols
    | None => default_call
    end in
  default_call ++ ")".

(** [Autocorrelation.add_cells] *)
Definition add_cells (self : t) (cells : list Cell) : list Cell :=
  if (verbosity self =? 0)%Z
  then
    (cells ++ [new_markdown_cell (get_title name 2);
               new_code_cell (call_text "autocorrelation" self)])%list
  else
    let default_call_acf := call_text "plot_acf" self in
    let default_call_pacf := call_text "plot_pacf" self in
    let '(code_acf, code_pacf) :=
      if (verbosity self =? 1)%Z then (default_call_acf, default_call_pacf)
      else
        (get_code F_plot_acf ++ CorrelationPlot.newline2 ++ default_call_acf,
         Py.remove_all "Autocorrelation." (get_code F_plot_pacf)
           ++ CorrelationPlot.newline2 ++ default_call_pacf) in
    (cells ++ [new_markdown_cell (get_title name 2);
               new_code_cell code_acf;
               new_markdown_cell "## Partial autocorrelation";
               new_code_cell code_pacf])%list.

(** [Autocorrelation.show] *)
Definition show {V : Type} `{PyValue V} `{DataTypes V}
    (self : t) (df : Pandas.DataFrame V) : Run V unit :=
  display (Markdown (get_title name 2)) ;;;
  autocorrelation df (columns self).
End WithNotebook.

End Autocorrelation.

(* ================================================================== *)
(** * A small concrete setting to run the definitions in              *)
(* ================================================================== *)

Module Sample.

(** Cells that hold an integer or a text. *)
Inductive Scalar : Type :=
| Int (z : Z)
| Str (s : string).

Definition scalar_eqb (x y : Scalar) : bool :=
  match x, y with
  | Int a, Int b => Z.eqb a b
  | Str a, Str b => String.eqb a b
  | _, _ => false
  end.

(** Integers and texts: an index of these is sliced by position.  (A
    column of integers with nulls stands for one of the nullable dtype
    [Int64]; pandas would hold it as floats otherwise.) *)
#[export] Instance scalar_value : PyValue Scalar := {|
  val_eqb := scalar_eqb;
  of_str := Str;
  index_head := Py.slice_to;
  index_tail := Py.slice_from
|}.

Definition is_int (c : option Scalar) : bool :=
  match c with Some (Str _) => false | _ => true end.

(** A series counts as numeric when it holds no text and is not all null. *)
Definition numeric_series (s : Pandas.Series Scalar) : bool :=
  forallb is_int s && negb (forallb Py.is_None s).

(** Stand-ins for [str.format]: digits without grouping, and the exact
    quotient rounded to two places. *)
Definition plain_count (n : nat) : string := NilEmpty.string_of_uint (Nat.to_uint n).
Definition plain_percent (x : Py.Float) : string :=
  match x with
  | Py.Finite q =>
      let hundredths := Z.to_nat (Qfloor (q * 100 + (1 # 2))%Q) in
      let cents := Nat.modulo hundredths 100 in
      plain_count (Nat.div hundredths 100) ++ "."
        ++ (if Nat.ltb cents 10 then "0" else EmptyString) ++ plain_count cents
  | Py.Inf => "inf"
  | Py.NaN => "nan"
  end.

(** The title of a section as a Markdown heading. *)
Definition hashes (level : nat) : string :=
  String.concat EmptyString (repeat "#" level).

(** Every non-numeric or narrow column counts as categorical here. *)
Definition infer (s : Pandas.Series Scalar) : DataType :=
  if numeric_series s && Nat.ltb 10 (Pandas.nunique (H := scalar_value) s)
  then NUMERIC else CATEGORICAL.

Definition infer_str (s : Pandas.Series Scalar) : string :=
  match infer s with
  | NUMERIC => "numeric"
  | CATEGORICAL => "categorical"
  | BOOLEAN => "boolean"
  | DATE => "date"
  end.

#[export] Instance scalar_types : DataTypes Scalar := {|
  is_numeric := numeric_series;
  is_categorical := fun s => negb (numeric_series s);
  is_boolean := fun _ => false;
  infer_data_type := infer;
  infer_data_type_str := infer_str
|}.

#[export] Instance scalar_dtypes : Dtypes Scalar := {|
  dtype_str := fun s => if numeric_series s then "int64" else "object"
|}.

(** A stand-in for [str] of a float: one decimal place. *)
Definition plain_float (q : Q) : string :=
  let tenths := Z.to_nat (Qfloor (q * 10 + (1 # 2))%Q) in
  plain_count (Nat.div tenths 10) ++ "." ++ plain_count (Nat.modulo tenths 10).

#[export] Instance plain_float_text : PyFloatText := {|
  float_str := plain_float
|}.

(** The sample cells hold no dates. *)
#[export] Instance scalar_dtype_checks : PandasDtypeChecks Scalar := {|
  is_datetime_or_timedelta_dtype := fun _ => false
|}.

#[export] Instance plain_format : PyFormat := {|
  format_grouped := plain_count;
  format_fixed2 := plain_percent
|}.

#[export] Instance plain_notebook : Notebook := {|
  get_code := fun _ => "def f(): pass";
  code_dedent := fun s => s;
  get_title := fun name level => hashes level ++ " " ++ name
|}.

(** Three rows: a numeric column, a text column, a column of nulls. *)
Definition frame : Pandas.DataFrame Scalar :=
  {| Pandas.items :=
       [("height", [Some (Int 170); Some (Int 182); Some (Int 165)]);
        ("city", [Some (Str "Brno"); Some (Str "Praha"); Some (Str "Brno")]);
        ("empty", [None; None; None])];
     Pandas.index_time_ascending := true |}.

(** The same columns under an index that is not a time index. *)
Definition frame_no_time_index : Pandas.DataFrame Scalar :=
  {| Pandas.items := Pandas.items frame;
     Pandas.index_time_ascending := false |}.

(** One text column with [n] distinct values. *)
Definition codes (n : nat) : Pandas.Series Scalar :=
  map (fun i => Some (Str (plain_count i))) (seq 0 n).

Definition wide_frame : Pandas.DataFrame Scalar :=
  {| Pandas.items := [("code", codes 51)];
     Pandas.index_time_ascending := true |}.

(** [BivariateAnalysis(columns=['height', 'city'])], every verbosity 0. *)
Definition quiet_args : BivariateAnalysis.Args :=
  {| BivariateAnalysis.a_subsections := None;
     BivariateAnalysis.a_verbosity := 0;
     BivariateAnalysis.a_columns := Some ["height"; "city"];
     BivariateAnalysis.a_columns_x := None;
     BivariateAnalysis.a_columns_y := None;
     BivariateAnalysis.a_columns_pairs := None;
     BivariateAnalysis.a_verbosity_correlations := None;
     BivariateAnalysis.a_verbosity_pairplot := None;
     BivariateAnalysis.a_verbosity_contingency_table := None;
     BivariateAnalysis.a_color_col := None |}.



(** A frame with two narrow columns. *)
Definition two_columns : Pandas.DataFrame Scalar :=
  {| Pandas.items :=
       [("a", [Some (Int 1); Some (Int 2); Some (Int 1)]);
        ("b", [Some (Str "x"); Some (Str "y"); Some (Str "y")])];
     Pandas.index_time_ascending := true |}.

Definition cities : Pandas.Series Scalar :=
  [Some (Str "Brno"); Some (Str "Praha"); None; Some (Str "Brno");
   Some (Str "Olomouc"); Some (Str "Brno"); Some (Str "Praha")].


End Sample.

(* ================================================================== *)
(** * Vocabulary of the statements                                     *)
(* ================================================================== *)

(** The series under a label satisfies [keep]; a label the frame does not
    have satisfies nothing. *)
Definition column_satisfies {V} (df : Pandas.DataFrame V)
    (keep : Pandas.Series V -> bool) (col : string) : bool :=
  match Pandas.lookup col (Pandas.items df) with
  | Some s => keep s
  | None => false
  end.

(** The labels of the columns of [df] whose series satisfies [keep], in
    column order. *)
Definition labels_where {V} (df : Pandas.DataFrame V)
    (keep : Pandas.Series V -> bool) : list string :=
  map fst (filter (fun item => keep (snd item)) (Pandas.items df)).

(** Every label of the list is a column of the frame. *)
Definition all_columns_of {V} (df : Pandas.DataFrame V) (cols : list string) : Prop :=
  Forall (fun col => Pandas.has_column df col = true) cols.

(** The frame has no two columns under one label. *)
Definition distinct_labels {V} (df : Pandas.DataFrame V) : Prop :=
  NoDup (Pandas.columns_of df).


(* ================================================================== *)
(** * A concrete reading of pandas' reductions, to run the statistics  *)
(* ================================================================== *)

Module SampleNumeric.
Import Sample.

(** The integers of a series, nulls and texts skipped. *)
Fixpoint int_values (s : Pandas.Series Scalar) : list Z :=
  match s with
  | [] => []
  | Some (Int z) :: s' => z :: int_values s'
  | _ :: s' => int_values s'
  end.

Fixpoint insert_sorted (z : Z) (l : list Z) : list Z :=
  match l with
  | [] => [z]
  | y :: l' => if (z <=? y)%Z then z :: y :: l' else y :: insert_sorted z l'
  end.

Definition sorted_values (s : Pandas.Series Scalar) : list Z :=
  fold_right insert_sorted [] (int_values s).

(** [None] stands for NaN, the result on a series without values. *)
Definition smallest (s : Pandas.Series Scalar) : option Q :=
  match sorted_values s with
  | [] => None
  | z :: _ => Some (inject_Z z)
  end.

Definition largest (s : Pandas.Series Scalar) : option Q :=
  match rev (sorted_values s) with
  | [] => None
  | z :: _ => Some (inject_Z z)
  end.

(** Linear interpolation between the two closest ranks. *)
Definition quantile (s : Pandas.Series Scalar) (q : Q) : option Q :=
  match sorted_values s with
  | [] => None
  | z :: rest =>
      let vals := z :: rest in
      let pos := (inject_Z (Z.of_nat (List.length rest)) * q)%Q in
      let lo := Qfloor pos in
      let below := nth (Z.to_nat lo) vals z in
      let above := nth (S (Z.to_nat lo)) vals below in
      Some (Qred (inject_Z below
                  + (pos - inject_Z lo) * (inject_Z above - inject_Z below))%Q)
  end.

Definition minus (a b : option Q) : option Q :=
  match a, b with
  | Some x, Some y => Some (Qred (x - y)%Q)
  | _, _ => None
  end.

#[export] Instance scalar_numeric : PandasNumeric Scalar (option Q) := {|
  series_min := smallest;
  series_max := largest;
  series_quantile := quantile;
  fsub := minus
|}.

End SampleNumeric.

(* ================================================================== *)
(** * What the sections are to display and to export                   *)
(* ================================================================== *)

(** What the univariate dispatch is to display for one column:
    a column of nulls gives the NULL heading and the note; a column
    inferred categorical or boolean gives its heading, the table of most
    frequent values and what [bar_plot] draws (the bar plot up to 50
    distinct values, a warning above); any other column gives its heading,
    the statistics tables with the default dictionaries and the histogram.
    [show] closes every column that is not all null with a rule. *)
Definition expected_column_outputs {V} `{PyValue V} `{PyFormat} `{DataTypes V}
    (separator : bool) (item : string * Pandas.Series V) : list (Output V) :=
  let col := fst item in
  let series := snd item in
  if Pandas.isnull_all series
  then [Markdown ("## *" ++ col ++ " - NULL*");
        Markdown "The column contains only null values."]
  else
    ([Markdown ("## *" ++ col ++ " - " ++ infer_data_type_str series ++ "*")]
       ++ match infer_data_type series with
          | CATEGORICAL | BOOLEAN =>
              [MostFrequentValues (utils.top_frequent_values series 5);
               if Nat.ltb 50 (Pandas.nunique series)
               then Warning "Number of unique values is greater than 50, not plotting bar plot."
               else BarPlotFigure (Pandas.value_counts series)]
          | _ =>
              [StatisticsTables series
                 UnivariateAnalysis.default_descriptive_statistics
                 UnivariateAnalysis.default_quantile_statistics;
               HistogramFigure (Pandas.dropna series)]
          end
       ++ (if separator then [Markdown "---"] else []))%list.

Definition is_bar_plot {V} (o : Output V) : bool :=
  match o with BarPlotFigure _ => true | _ => false end.


(** The cells that [add_cells] of [UnivariateAnalysis] adds for one column
    at verbosity 1 and 2: none for a column of nulls, else the heading and
    one code cell with the calls for the column. *)
Definition expected_column_cells {V} `{PyValue V} `{DataTypes V} `{Notebook}
    (verbosity : Z) (item : string * Pandas.Series V) : list Cell :=
  let col := fst item in
  let series := snd item in
  if Pandas.isnull_all series then []
  else [new_markdown_cell
          ("## *" ++ col ++ " - " ++ infer_data_type_str series ++ "*");
        new_code_cell
          (UnivariateAnalysis.column_code verbosity (infer_data_type series) col)].

(** What [add_cells] displays on the way: the note of each column of nulls. *)
Definition null_notes {V} (item : string * Pandas.Series V) : list (Output V) :=
  if Pandas.isnull_all (snd item)
  then [Markdown ("## *" ++ fst item ++ " - NULL*");
        Markdown "The column contains only null values."]
  else [].

(** The cells a run of [add_cells] returned, when it returned. *)
Definition added_cells {V S} (m : Run V (S * list Cell)) : option (list Cell) :=
  match result m with
  | inr (_, cells) => Some cells
  | inl _ => None
  end.

(** A keyword argument of a call, written when the value is given. *)
Definition keyword {A} (name : string) (literal : A -> string) (value : option A)
  : string :=
  match value with
  | Some x => ", " ++ name ++ "=" ++ literal x
  | None => EmptyString
  end.

(** The members of the enumeration as the exported code names them. *)
Definition subsections_literal
    (subs : list BivariateAnalysis.BivariateAnalysisSubsection) : string :=
  Py.repr_list_of
    (map (fun sub => "BivariateAnalysis.BivariateAnalysisSubsection."
                       ++ BivariateAnalysis.str sub) subs).





(* ================================================================== *)
(** * Counting with [val_eqb]                                          *)
(* ================================================================== *)

Module Counting.
Section Values.
Context {V : Type} `{PyValue V}.

(** The total, over the values of [us], of their occurrences in [m]. *)
Fixpoint total_over (us m : list V) : nat :=
  match us with
  | [] => 0
  | u :: us' => Pandas.count_occ_val u m + total_over us' m
  end.

Definition other_than (v : V) (w : V) : bool := negb (val_eqb v w).

End Values.
End Counting.

(* ================================================================== *)
(** * The section that the constructor of [BivariateAnalysis] returns  *)
(* ================================================================== *)

Module Constructed.
Import Py BivariateAnalysis.

(** The columns handed to the correlation plot and to the pair plot. *)
Definition x_no_pairs (a : Args) : option (list string) :=
  match a_columns a, a_columns_x a, a_columns_pairs a with
  | None, None, Some pairs => Some (map fst pairs)
  | _, _, _ => a_columns_x a
  end.

Definition y_no_pairs (a : Args) : option (list string) :=
  match a_columns a, a_columns_x a, a_columns_pairs a with
  | None, None, Some pairs => Some (map snd pairs)
  | _, _, _ => a_columns_y a
  end.

(** The dictionary [enum_to_implementation] of the constructor. *)
Definition implementation (a : Args) (sub : BivariateAnalysisSubsection) : Subsection :=
  match sub with
  | Sub_CorrelationPlot =>
      Correlations
        {| CorrelationPlot.verbosity := verbosities a Sub_CorrelationPlot;
           CorrelationPlot.columns := a_columns a;
           CorrelationPlot.columns_x := x_no_pairs a;
           CorrelationPlot.columns_y := y_no_pairs a |}
  | Sub_PairPlot =>
      Pairs
        {| PairPlot.verbosity := verbosities a Sub_PairPlot;
           PairPlot.columns := a_columns a;
           PairPlot.columns_x := x_no_pairs a;
           PairPlot.columns_y := y_no_pairs a;
           PairPlot.color_col := a_color_col a |}
  | Sub_ContingencyTable =>
      Tables
        {| ContingencyTable.verbosity := verbosities a Sub_ContingencyTable;
           ContingencyTable.columns := a_columns a;
           ContingencyTable.columns_x := a_columns_x a;
           ContingencyTable.columns_y := a_columns_y a;
           ContingencyTable.columns_pairs := a_columns_pairs a |}
  end.

Definition requested (a : Args) : list BivariateAnalysisSubsection :=
  match a_subsections a with
  | None => all_subsections
  | Some subs => subs
  end.

Definition quiet (a : Args) : list BivariateAnalysisSubsection :=
  filter (fun sub => (verbosities a sub =? 0)%Z) (requested a).

(** The section that the constructor returns. *)
Definition built (a : Args) : t :=
  {| subsections_0 :=
       if Nat.eqb (List.length (quiet a)) (List.length (requested a))
          && is_None (a_subsections a)
       then None else Some (quiet a);
     subsections := map (implementation a) (requested a);
     verbosity := a_verbosity a;
     columns := a_columns a;
     columns_x := a_columns_x a;
     columns_y := a_columns_y a;
     columns_pairs := a_columns_pairs a;
     color_col := a_color_col a |}.

(** The arguments with which the call of the cell runs the constructor. *)
Definition again (a : Args) : Args :=
  {| a_subsections := subsections_0 (built a);
     a_verbosity := 0;
     a_columns := match a_columns_x a with Some _ => None | None => a_columns a end;
     a_columns_x := a_columns_x a;
     a_columns_y := match a_columns_x a with Some _ => a_columns_y a | None => None end;
     a_columns_pairs := a_columns_pairs a;
     a_verbosity_correlations := None;
     a_verbosity_pairplot := None;
     a_verbosity_contingency_table := None;
     a_color_col := a_color_col a |}.

(** The name of a member in the exported code. *)
Definition qualified (sub : BivariateAnalysisSubsection) : string :=
  "BivariateAnalysis.BivariateAnalysisSubsection." ++ str sub.

End Constructed.

(* ================================================================== *)
(** * Vocabulary of the further statements                             *)
(* ================================================================== *)

(** A text without single quote and without backslash: written between
    single quotes it is a string literal. *)
Definition plain_text (s : string) : bool :=
  negb (Py.contains Py.squote s) && negb (Py.contains Py.backslash s).


(** The text of a call [func(df=df, ...)] with the given keyword
    arguments. *)
Definition call_with (func keywords : string) : string :=
  func ++ "(df=df" ++ keywords ++ ")".

(** The selection that [CorrelationPlot.add_cells] writes into its call:
    [columns_x] and [columns_y], or else [columns]. *)
Definition correlation_keywords (self : CorrelationPlot.t) : string :=
  match CorrelationPlot.columns_x self with
  | Some xs =>
      keyword "columns_x" Py.repr_list_str (Some xs)
        ++ ", columns_y="
        ++ match CorrelationPlot.columns_y self with
           | Some ys => Py.repr_list_str ys
           | None => "None"
           end
  | None => keyword "columns" Py.repr_list_str (CorrelationPlot.columns self)
  end.

(** The selection that [ContingencyTable.add_cells] writes into its call:
    [columns_pairs], or else [columns_x] and [columns_y], or else [columns]. *)
Definition contingency_keywords (self : ContingencyTable.t) : string :=
  match ContingencyTable.columns_pairs self with
  | Some pairs => keyword "columns_pairs" Py.repr_list_pair (Some pairs)
  | None =>
      match ContingencyTable.columns_x self with
      | Some xs =>
          keyword "columns_x" Py.repr_list_str (Some xs)
            ++ ", columns_y="
            ++ match ContingencyTable.columns_y self with
               | Some ys => Py.repr_list_str ys
               | None => "None"
               end
      | None => keyword "columns" Py.repr_list_str (ContingencyTable.columns self)
      end
  end.

(** The section that keeps only what the call of [ContingencyTable.add_cells]
    writes down. *)
Definition contingency_as_exported (self : ContingencyTable.t) : ContingencyTable.t :=
  match ContingencyTable.columns_pairs self with
  | Some pairs =>
      ContingencyTable.init 0 None None None (Some pairs)
  | None =>
      match ContingencyTable.columns_x self with
      | Some xs =>
          ContingencyTable.init 0 None (Some xs) (ContingencyTable.columns_y self) None
      | None =>
          ContingencyTable.init 0 (ContingencyTable.columns self) None None None
      end
  end.

(** A text that the scanner reads through at any depth. *)
Definition neutral (s : string) : Prop :=
  forall d, Py.lex_run (Py.Code d) s = Some (Py.Code d).

(** The series under a label, empty for a label the frame does not have. *)
Definition series_of {V} (df : Pandas.DataFrame V) (col : string) : Pandas.Series V :=
  match Pandas.lookup col (Pandas.items df) with
  | Some s => s
  | None => []
  end.

(** The first label of the list that the frame does not have. *)
Definition first_missing {V} (df : Pandas.DataFrame V) (cols : list string)
  : option string :=
  find (fun col => negb (Pandas.has_column df col)) cols.

(** The correlations that the three switches of [plot_correlations] leave,
    in the order of the dictionary. *)
Definition enabled_correlations (pearson_ spearman_ kendall_ : bool)
  : list Correlation :=
  ((if pearson_ then [pearson] else [])
     ++ (if spearman_ then [spearman] else [])
     ++ (if kendall_ then [kendall] else []))%list.

Definition correlation_heading (corr : Correlation) : string :=
  match corr with
  | pearson => "### Pearson Correlation"
  | spearman => "### Spearman Correlation"
  | kendall => "### Kendall Correlation"
  end.

(** What one correlation displays: its heading and its heat map. *)
Definition correlation_outputs {V} (xs ys : list string) (corr : Correlation)
  : list (Output V) :=
  [Markdown (correlation_heading corr); CorrelationHeatmap corr xs ys].

(** The pairs among which [contingency_tables] chooses: the pairs given,
    or else the product of [columns_x] and [columns_y], or else the product
    of [columns] with itself, or else of the columns of the frame with more
    than one distinct value. *)
Definition table_candidates {V} `{PyValue V} (df : Pandas.DataFrame V)
    (columns columns_x columns_y : option (list string))
    (columns_pairs : option (list (string * string))) : list (string * string) :=
  match columns_pairs with
  | Some pairs => pairs
  | None =>
      let product xs ys := flat_map (fun col_x => map (pair col_x) ys) xs in
      match columns_x, columns_y with
      | Some xs, Some ys => product xs ys
      | _, _ =>
          let cols :=
            match columns with
            | Some cols => cols
            | None =>
                filter (column_satisfies df (fun s => Nat.ltb 1 (Pandas.nunique s)))
                       (Pandas.columns_of df)
            end in
          product cols cols
      end
  end.

(** A column that passes the test of [contingency_tables]: a column of the
    frame, not all null, with at most [table_threshold] distinct values when
    the threshold is not negative. *)
Definition table_column {V} `{PyValue V} (df : Pandas.DataFrame V)
    (table_threshold : Z) (col : string) : bool :=
  column_satisfies df
    (fun s => ((table_threshold <? 0)%Z
               || (Z.of_nat (Pandas.nunique s) <=? table_threshold)%Z)
              && negb (Pandas.isnull_all s)) col.

Definition accepted_pair {V} `{PyValue V} (df : Pandas.DataFrame V)
    (table_threshold : Z) (p : string * string) : bool :=
  negb (String.eqb (fst p) (snd p))
  && table_column df table_threshold (fst p)
  && table_column df table_threshold (snd p).

(** The labels that a list of pairs names. *)
Definition pair_labels (pairs : list (string * string)) : list string :=
  flat_map (fun p => [fst p; snd p]) pairs.

Definition heatmap_of {V} (p : string * string) : Output V :=
  ContingencyHeatmap (fst p) (snd p).

(** The two lists from which [_get_columns_x_y] and [plot_pairplot]
    start: [columns_x] and [columns_y], or else [columns] twice, or else the
    columns of the frame twice. *)
Definition selected_lists {V} (df : Pandas.DataFrame V)
    (columns columns_x columns_y : option (list string))
  : list string * list string :=
  match columns_x, columns_y with
  | Some xs, Some ys => (xs, ys)
  | _, _ =>
      let cols :=
        match columns with
        | Some cols => cols
        | None => Pandas.columns_of df
        end in
      (cols, cols)
  end.

(** What [plot_acf] displays for the columns it plots. *)
Definition acf_outputs {V} (df : Pandas.DataFrame V) (partial : bool)
    (cols : list string) : list (Output V) :=
  flat_map
    (fun col =>
       [Markdown ("---" ++ String (ascii_of_nat 10) "### " ++ col);
        AutocorrelationFigure col (Pandas.dropna (series_of df col)) partial])
    cols.

(** The section that keeps only what the call of [CorrelationPlot.add_cells]
    writes down. *)
Definition correlation_as_exported (self : CorrelationPlot.t) : CorrelationPlot.t :=
  match CorrelationPlot.columns_x self with
  | Some xs =>
      {| CorrelationPlot.verbosity := 0; CorrelationPlot.columns := None;
         CorrelationPlot.columns_x := Some xs;
         CorrelationPlot.columns_y := CorrelationPlot.columns_y self |}
  | None =>
      {| CorrelationPlot.verbosity := 0;
         CorrelationPlot.columns := CorrelationPlot.columns self;
         CorrelationPlot.columns_x := None; CorrelationPlot.columns_y := None |}
  end.

(** The keyword arguments of a call of [plot_correlations] that passes
    every selection the section holds. *)
Definition correlation_arguments (self : CorrelationPlot.t) : string :=
  keyword "columns_x" Py.repr_list_str (CorrelationPlot.columns_x self)
    ++ keyword "columns_y" Py.repr_list_str (CorrelationPlot.columns_y self)
    ++ keyword "columns" Py.repr_list_str (CorrelationPlot.columns self).

(** The keyword arguments of a call of [contingency_tables] that passes
    every selection the section holds. *)
Definition contingency_arguments (self : ContingencyTable.t) : string :=
  keyword "columns_pairs" Py.repr_list_pair (ContingencyTable.columns_pairs self)
    ++ keyword "columns_x" Py.repr_list_str (ContingencyTable.columns_x self)
    ++ keyword "columns_y" Py.repr_list_str (ContingencyTable.columns_y self)
    ++ keyword "columns" Py.repr_list_str (ContingencyTable.columns self).

(** What [univariate_analysis] and [show] display for a list of labels of
    the frame, label after label. *)
Definition selected_outputs {V} `{PyValue V} `{PyFormat} `{DataTypes V}
    (df : Pandas.DataFrame V) (separator : bool) (cols : list string)
  : list (Output V) :=
  flat_map (fun col => expected_column_outputs separator (col, series_of df col)) cols.

(** The columns of the frame that are not all null. *)
Definition columns_with_values {V} (df : Pandas.DataFrame V)
  : list (string * Pandas.Series V) :=
  filter (fun item => negb (Pandas.isnull_all (snd item))) (Pandas.items df).

(** The number of code cells in a list of cells. *)
Definition code_cells (cells : list Cell) : nat :=
  List.length (filter is_code_cell cells).

(** ** The text that the export is to write *)




















(* ================================================================== *)
(** * The sample values are lawful                                     *)
(* ================================================================== *)

Module SampleFacts.
Import Sample.

Lemma scalar_eqb_spec (x y : Scalar) : reflect (x = y) (scalar_eqb x y).
Proof.
  destruct x as [a|a], y as [b|b]; simpl;
    try (constructor; discriminate).
  - destruct (Z.eqb_spec a b); constructor; congruence.
  - destruct (String.eqb_spec a b); constructor; congruence.
Qed.

Lemma Str_inj (s t : string) : Str s = Str t -> s = t.
Proof. congruence. Qed.

#[export] Instance scalar_laws : PyValueLaws Scalar.
Proof.
  split; [|exact Str_inj].
  intros x y. change (val_eqb x y) with (scalar_eqb x y).
  destruct (scalar_eqb_spec x y); split; congruence.
Qed.

#[export] Instance scalar_positional : PositionalIndex Scalar.
Proof. split; reflexivity. Qed.

End SampleFacts.

(* ================================================================== *)
(** * Properties of the scanner and of [repr]                          *)
(* ================================================================== *)

Module PyFacts.
Import Py.

Example repr_plain : repr_list_str ["a"; "b c"] = "['a', 'b c']".
Proof. reflexivity. Qed.

Example repr_quotes :
  repr_str "it's" = String dquote ("it's" ++ String dquote EmptyString).
Proof. reflexivity. Qed.

Example remove_all_quotes : remove_all "'" "['A.b', 'A.c']" = "[A.b, A.c]".
Proof. reflexivity. Qed.

Example remove_all_prefix :
  remove_all "PairPlot." "x = PairPlot.f(PairPlot.g)" = "x = f(g)".
Proof. reflexivity. Qed.

Example balanced_call : balanced "f(df=df, columns=['a)'])" = true.
Proof. reflexivity. Qed.

Example unbalanced_call : balanced "f(df=df, columns=['a']))" = false.
Proof. reflexivity. Qed.

Lemma append_assoc (a b c : string) : (a ++ b) ++ c = a ++ (b ++ c).
Proof. induction a as [|x a IH]; simpl; [reflexivity | now rewrite IH]. Qed.

Lemma lex_run_app (a b : string) : forall st,
  lex_run st (a ++ b) =
  match lex_run st a with
  | None => None
  | Some st' => lex_run st' b
  end.
Proof.
  induction a as [|c a IH]; intros st; simpl.
  - reflexivity.
  - destruct (lex_step st c); [apply IH | reflexivity].
Qed.

Lemma hex_digit_plain (n : nat) :
  Ascii.eqb (hex_digit n) backslash = false /\
  Ascii.eqb (hex_digit n) squote = false /\
  Ascii.eqb (hex_digit n) dquote = false.
Proof.
  do 15 (destruct n as [|n]; [repeat split; reflexivity|]).
  repeat split; reflexivity.
Qed.

Lemma repr_quote_is_quote (s : string) : is_quote (repr_quote s).
Proof.
  unfold repr_quote, is_quote.
  destruct (contains squote s && negb (contains dquote s)); auto.
Qed.

Lemma hex_digit_not_quote (n : nat) (q : ascii) :
  is_quote q -> Ascii.eqb (hex_digit n) q = false.
Proof.
  destruct (hex_digit_plain n) as (_ & Hs & Hd).
  intros [-> | ->]; assumption.
Qed.

Lemma lex_step_plain (d : nat) (q c : ascii) :
  Ascii.eqb c backslash = false -> Ascii.eqb c q = false ->
  lex_step (InStr d q) c = Some (InStr d q).
Proof. intros Hb Hc. unfold lex_step. rewrite Hb, Hc. reflexivity. Qed.

Lemma lex_step_hex (d n : nat) (q : ascii) :
  is_quote q -> lex_step (InStr d q) (hex_digit n) = Some (InStr d q).
Proof.
  intros Hq. apply lex_step_plain.
  - apply hex_digit_plain.
  - apply hex_digit_not_quote, Hq.
Qed.

(** Inside a literal, the escaped form of one character leaves the
    scanner inside the literal. *)
Lemma lex_repr_char (d : nat) (q c : ascii) :
  is_quote q ->
  lex_run (InStr d q) (repr_char q c) = Some (InStr d q).
Proof.
  intros Hq. unfold repr_char.
  destruct (Ascii.eqb c q || Ascii.eqb c backslash) eqn:Hesc.
  - reflexivity.
  - apply orb_false_iff in Hesc as [Hcq Hcb].
    destruct (Nat.eqb (nat_of_ascii c) 9); [reflexivity|].
    destruct (Nat.eqb (nat_of_ascii c) 10); [reflexivity|].
    destruct (Nat.eqb (nat_of_ascii c) 13); [reflexivity|].
    destruct (Nat.ltb (nat_of_ascii c) 32 || Nat.eqb (nat_of_ascii c) 127).
    + change (lex_run (InStr d q)
                (String (hex_digit (nat_of_ascii c / 16))
                   (String (hex_digit (nat_of_ascii c mod 16)) EmptyString))
              = Some (InStr d q)).
      cbn [lex_run]. rewrite !lex_step_hex by assumption. reflexivity.
    + cbn [lex_run]. rewrite lex_step_plain by assumption. reflexivity.
Qed.

Lemma lex_repr_body (d : nat) (q : ascii) (s : string) :
  is_quote q ->
  lex_run (InStr d q) (repr_body q s) = Some (InStr d q).
Proof.
  intros Hq. induction s as [|c s IH]; simpl.
  - reflexivity.
  - rewrite lex_run_app, lex_repr_char by assumption. exact IH.
Qed.

(** A [repr]ed string is one whole literal: the scanner comes out of it
    at the depth it went in. *)
Lemma lex_repr_str (d : nat) (s : string) :
  lex_run (Code d) (repr_str s) = Some (Code d).
Proof.
  unfold repr_str.
  pose proof (repr_quote_is_quote s) as Hq.
  set (q := repr_quote s) in *.
  assert (Hopen : lex_step (Code d) q = Some (InStr d q)).
  { destruct Hq as [-> | ->]; reflexivity. }
  cbn [lex_run]. rewrite Hopen.
  rewrite lex_run_app, lex_repr_body by assumption.
  simpl. assert (Hb : Ascii.eqb q backslash = false).
  { destruct Hq as [-> | ->]; reflexivity. }
  rewrite Hb, Ascii.eqb_refl. reflexivity.
Qed.

Lemma lex_join_repr (d : nat) (l : list string) :
  lex_run (Code d) (join_comma (map repr_str l)) = Some (Code d).
Proof.
  induction l as [|x l IH]; [reflexivity|].
  destruct l as [|y l].
  - simpl. apply lex_repr_str.
  - change (join_comma (map repr_str (x :: y :: l)))
      with (repr_str x ++ ", " ++ join_comma (map repr_str (y :: l))).
    rewrite lex_run_app, lex_repr_str. simpl. exact IH.
Qed.

Lemma lex_repr_list_str (d : nat) (l : list string) :
  lex_run (Code d) (repr_list_str l) = Some (Code d).
Proof.
  change (lex_run (Code d)
            (String "[" (join_comma (map repr_str l) ++ "]")) = Some (Code d)).
  cbn [lex_run]. change (lex_step (Code d) "[") with (Some (Code d)).
  cbv beta iota. rewrite lex_run_app, lex_join_repr. reflexivity.
Qed.

End PyFacts.

(* ================================================================== *)
(** * The code cell of [PairPlot]                                      *)
(* ================================================================== *)

Module PairPlotFacts.
Import Py PyFacts Sample.

(** The call text for a section built with [columns] alone. *)
Lemma default_call_columns (v : Z) (cols : list string) :
  PairPlot.default_call
    {| PairPlot.verbosity := v; PairPlot.columns := Some cols;
       PairPlot.columns_x := None; PairPlot.columns_y := None;
       PairPlot.color_col := None |}
  = "plot_pairplot(df=df, columns=" ++ repr_list_str cols ++ "))".
Proof.
  unfold PairPlot.default_call; cbn [PairPlot.columns_x PairPlot.columns PairPlot.color_col].
  rewrite !append_assoc. reflexivity.
Qed.

(** A call that closes twice after the list never balances. *)
Lemma columns_call_unbalanced (cols : list string) :
  balanced ("plot_pairplot(df=df, columns=" ++ repr_list_str cols ++ "))") = false.
Proof.
  unfold balanced.
  change (lex_run (Code 0)
            ("plot_pairplot(df=df, columns=" ++ repr_list_str cols ++ "))"))
    with (lex_run (Code 1) (repr_list_str cols ++ "))")).
  rewrite lex_run_app, lex_repr_list_str. reflexivity.
Qed.

(** C1, as the code has it: for a [PairPlot] built with [columns] and
    without [columns_x]/[columns_y] (and no colour column), at verbosity 0
    or 1, [add_cells] appends the title and one code cell whose text is
    [plot_pairplot(df=df, columns=[...]))]: the call is closed twice, so
    its parentheses do not balance and the cell is not valid Python. *)
Theorem PairPlot_columns_cell_unbalanced `{Notebook}
    (v : Z) (cols : list string) (cells : list Cell) :
  (v <=? 1)%Z = true ->
  let self :=
    {| PairPlot.verbosity := v; PairPlot.columns := Some cols;
       PairPlot.columns_x := None; PairPlot.columns_y := None;
       PairPlot.color_col := None |} in
  let text := "plot_pairplot(df=df, columns=" ++ repr_list_str cols ++ "))" in
  PairPlot.add_cells self cells
  = (cells ++ [new_markdown_cell (get_title PairPlot.name 2);
               new_code_cell text])%list
  /\ balanced text = false.
Proof.
  intros Hv self text. split.
  - unfold PairPlot.add_cells, PairPlot.code.
    cbn [PairPlot.verbosity self]. rewrite Hv.
    unfold self. rewrite default_call_columns.
    rewrite <- app_assoc. reflexivity.
  - apply columns_call_unbalanced.
Qed.

(** The same at the concrete section [PairPlot(verbosity=0, columns=['a', 'b'])]. *)
Lemma PairPlot_columns_cell_unbalanced_witness :
  PairPlot.add_cells
    {| PairPlot.verbosity := 0; PairPlot.columns := Some ["a"; "b"];
       PairPlot.columns_x := None; PairPlot.columns_y := None;
       PairPlot.color_col := None |} []
  = [new_markdown_cell "## Pairplot";
     new_code_cell "plot_pairplot(df=df, columns=['a', 'b']))"]
  /\ balanced "plot_pairplot(df=df, columns=['a', 'b']))" = false.
Proof.
  exact (PairPlot_columns_cell_unbalanced (H := Sample.plain_notebook)
           0 ["a"; "b"] [] eq_refl).
Defined.

(** With a colour column the stray parenthesis closes the call before the
    [color_col] argument. *)
Example PairPlot_columns_color_cell :
  PairPlot.default_call
    {| PairPlot.verbosity := 0; PairPlot.columns := Some ["a"];
       PairPlot.columns_x := None; PairPlot.columns_y := None;
       PairPlot.color_col := Some "c" |}
  = "plot_pairplot(df=df, columns=['a']), color_col='c')"
  /\ balanced "plot_pairplot(df=df, columns=['a']), color_col='c')" = false.
Proof. split; reflexivity. Qed.

(** The sibling sections close the same call once. *)
Example CorrelationPlot_columns_cell :
  CorrelationPlot.default_call
    {| CorrelationPlot.verbosity := 0; CorrelationPlot.columns := Some ["a"; "b"];
       CorrelationPlot.columns_x := None; CorrelationPlot.columns_y := None |}
  = "plot_correlations(df=df, columns=['a', 'b'])"
  /\ balanced "plot_correlations(df=df, columns=['a', 'b'])" = true.
Proof. split; reflexivity. Qed.

End PairPlotFacts.

(* ================================================================== *)
(** * Which exception a computation raises                             *)
(* ================================================================== *)

Module RaiseFacts.
Import Py.

Lemma raises_bind {A B} (m : Res A) (k : A -> Res B) :
  raises_ValueError (bind m k) =
  match m with
  | inl e => is_ValueError e
  | inr a => raises_ValueError (k a)
  end.
Proof. destruct m; reflexivity. Qed.

Section Frame.
Context {V : Type} `{PyValue V}.

Lemma getitem_no_ValueError (df : Pandas.DataFrame V) (col : string) :
  raises_ValueError (Pandas.getitem df col) = false.
Proof. unfold Pandas.getitem. destruct (Pandas.lookup col (Pandas.items df)); reflexivity. Qed.

Lemma filter_by_series_no_ValueError (df : Pandas.DataFrame V)
    (keep : Pandas.Series V -> bool) (cols : list string) :
  raises_ValueError (filter_by_series df keep cols) = false.
Proof.
  induction cols as [|c cols IH]; simpl; [reflexivity|].
  unfold Pandas.getitem. destruct (Pandas.lookup c (Pandas.items df)); simpl; [|reflexivity].
  destruct (filter_by_series df keep cols); simpl in *; [assumption | reflexivity].
Qed.

Lemma filter_res_no_ValueError {A} (keep : A -> Res bool) (xs : list A) :
  (forall x, raises_ValueError (keep x) = false) ->
  raises_ValueError (filter_res keep xs) = false.
Proof.
  intros Hk. induction xs as [|x xs IH]; simpl; [reflexivity|].
  specialize (Hk x). destruct (keep x); simpl in *; [assumption|].
  destruct (filter_res keep xs); simpl in *; [assumption | reflexivity].
Qed.

Lemma include_column_no_ValueError (df : Pandas.DataFrame V) (thr : Z) (col : string) :
  raises_ValueError (ContingencyTable.include_column df thr col) = false.
Proof.
  unfold ContingencyTable.include_column, Pandas.getitem.
  destruct (thr <? 0)%Z; simpl;
    destruct (Pandas.lookup col (Pandas.items df)); simpl; try reflexivity.
  destruct (Z.of_nat (Pandas.nunique s) <=? thr)%Z; reflexivity.
Qed.

Lemma include_column_pair_no_ValueError (df : Pandas.DataFrame V) (thr : Z)
    (p : string * string) :
  raises_ValueError (ContingencyTable.include_column_pair df thr p) = false.
Proof.
  unfold ContingencyTable.include_column_pair.
  destruct (String.eqb (fst p) (snd p)); [reflexivity|].
  rewrite raises_bind.
  pose proof (include_column_no_ValueError df thr (fst p)) as H1.
  destruct (ContingencyTable.include_column df thr (fst p)) as [e|[|]];
    simpl in *; auto using include_column_no_ValueError.
Qed.

(** What a run raises, once its outputs are set aside. *)
Lemma result_then {A B} (m : Run V A) (k : A -> Run V B) :
  result (then_ m k) = bind (result m) (fun a => result (k a)).
Proof. unfold then_, result. destruct m as [o [e|a]]; reflexivity. Qed.

Lemma then_lift_ret {A B} (a : A) (k : A -> Run V B) :
  then_ (lift (inr a)) k = k a.
Proof. unfold then_, lift. cbn. destruct (k a); reflexivity. Qed.

Lemma then_display {B} (o : Output V) (k : unit -> Run V B) :
  then_ (display o) k = (o :: outputs (k tt), result (k tt)).
Proof. reflexivity. Qed.

Lemma for_each_no_ValueError {A} (body : A -> Run V unit) (l : list A) :
  (forall x, raises_ValueError (result (body x)) = false) ->
  raises_ValueError (result (for_each body l)) = false.
Proof.
  intros Hb. induction l as [|x l IH]; simpl; [reflexivity|].
  rewrite result_then, raises_bind. specialize (Hb x).
  destruct (result (body x)); assumption.
Qed.

Lemma contingency_table_no_ValueError (df : Pandas.DataFrame V) (c1 c2 : string) :
  raises_ValueError (result (ContingencyTable.contingency_table df c1 c2)) = false.
Proof.
  unfold ContingencyTable.contingency_table.
  rewrite result_then, raises_bind. cbn [lift result snd].
  pose proof (getitem_no_ValueError df c1) as H1.
  destruct (Pandas.getitem df c1); [assumption|].
  rewrite result_then, raises_bind. cbn [lift result snd].
  pose proof (getitem_no_ValueError df c2) as H2.
  destruct (Pandas.getitem df c2); [assumption | reflexivity].
Qed.

End Frame.

Create HintDb raises discriminated.
#[export] Hint Resolve getitem_no_ValueError filter_by_series_no_ValueError
  include_column_no_ValueError include_column_pair_no_ValueError
  contingency_table_no_ValueError filter_res_no_ValueError
  for_each_no_ValueError : raises.

End RaiseFacts.

(* ================================================================== *)
(** * The [columns_x]/[columns_y] check                                *)
(* ================================================================== *)

Module ColumnsXYFacts.
Import Py RaiseFacts.

Section Frame.
Context {V : Type} `{PyValue V} `{DataTypes V}.

Lemma init_raises (a : BivariateAnalysis.Args) :
  exactly_one (BivariateAnalysis.a_columns_x a) (BivariateAnalysis.a_columns_y a) = true ->
  BivariateAnalysis.init a = inl both_or_neither.
Proof. intros E. unfold BivariateAnalysis.init. rewrite E. reflexivity. Qed.

Lemma init_returns (a : BivariateAnalysis.Args) :
  exactly_one (BivariateAnalysis.a_columns_x a) (BivariateAnalysis.a_columns_y a) = false ->
  exists self,
    BivariateAnalysis.init a = inr self
    /\ BivariateAnalysis.verbosity self = BivariateAnalysis.a_verbosity a
    /\ BivariateAnalysis.columns self = BivariateAnalysis.a_columns a
    /\ BivariateAnalysis.columns_x self = BivariateAnalysis.a_columns_x a
    /\ BivariateAnalysis.columns_y self = BivariateAnalysis.a_columns_y a
    /\ BivariateAnalysis.columns_pairs self = BivariateAnalysis.a_columns_pairs a
    /\ BivariateAnalysis.color_col self = BivariateAnalysis.a_color_col a.
Proof.
  destruct a as [subs v cols xs ys ps vc vp vt color]. cbn. intros E.
  destruct xs, ys; try discriminate E; destruct cols, ps; cbn;
    eexists; repeat split; reflexivity.
Qed.

Lemma get_columns_x_y_raises (df : Pandas.DataFrame V)
    (columns columns_x columns_y : option (list string)) :
  raises_ValueError (CorrelationPlot._get_columns_x_y df columns columns_x columns_y)
  = exactly_one columns_x columns_y.
Proof.
  unfold CorrelationPlot._get_columns_x_y.
  destruct (exactly_one columns_x columns_y) eqn:E; [reflexivity|].
  assert (Hboth : forall xs ys,
             raises_ValueError
               (xs' <- filter_by_series df is_numeric xs ;;
                ys' <- filter_by_series df is_numeric ys ;;
                ret (xs', ys')) = false).
  { intros xs ys. rewrite raises_bind.
    pose proof (filter_by_series_no_ValueError df is_numeric xs) as Hx.
    destruct (filter_by_series df is_numeric xs); [exact Hx|].
    rewrite raises_bind.
    pose proof (filter_by_series_no_ValueError df is_numeric ys) as Hy.
    destruct (filter_by_series df is_numeric ys); [exact Hy | reflexivity]. }
  destruct columns_x as [xs|], columns_y as [ys|]; try discriminate E; apply Hboth.
Qed.

Lemma table_pairs_raises (df : Pandas.DataFrame V)
    (columns columns_x columns_y : option (list string))
    (columns_pairs : option (list (string * string))) (thr : Z) :
  raises_ValueError
    (ContingencyTable.table_pairs df columns columns_x columns_y columns_pairs thr)
  = exactly_one columns_x columns_y.
Proof.
  unfold ContingencyTable.table_pairs.
  destruct (exactly_one columns_x columns_y) eqn:E; [reflexivity|].
  rewrite raises_bind.
  assert (Hfilter : forall ps,
             raises_ValueError
               (filter_res (ContingencyTable.include_column_pair df thr) ps) = false).
  { intros ps. auto with raises. }
  destruct columns_pairs as [ps|]; [apply Hfilter|].
  destruct columns_x as [xs|], columns_y as [ys|]; try discriminate E;
    cbn [bind ret]; try apply Hfilter.
  destruct columns as [cols|]; cbn [bind ret]; try apply Hfilter.
  match goal with
  | |- context [filter_by_series df ?k ?l] =>
      pose proof (filter_by_series_no_ValueError df k l) as Hc;
      destruct (filter_by_series df k l); [exact Hc|]
  end.
  cbn [bind ret]. apply Hfilter.
Qed.

Lemma contingency_tables_raises (df : Pandas.DataFrame V)
    (columns columns_x columns_y : option (list string))
    (columns_pairs : option (list (string * string))) (thr : Z) :
  raises_ValueError
    (result (ContingencyTable.contingency_tables df columns columns_x columns_y
               columns_pairs thr))
  = exactly_one columns_x columns_y.
Proof.
  unfold ContingencyTable.contingency_tables.
  rewrite result_then, raises_bind. cbn [lift result snd].
  pose proof (table_pairs_raises df columns columns_x columns_y columns_pairs thr) as Hp.
  destruct (ContingencyTable.table_pairs df columns columns_x columns_y columns_pairs thr);
    [exact Hp|].
  rewrite <- Hp. auto with raises.
Qed.

(** C4.  The constructor of [BivariateAnalysis], [_get_columns_x_y] and
    [contingency_tables] raise [ValueError] exactly when one of
    [columns_x], [columns_y] is given and the other is not; with both or
    neither, the constructor returns the section holding its arguments. *)
Theorem columns_x_y_both_or_neither
    (a : BivariateAnalysis.Args) (df : Pandas.DataFrame V)
    (columns columns_x columns_y : option (list string))
    (columns_pairs : option (list (string * string))) (table_threshold : Z) :
  (raises_ValueError (BivariateAnalysis.init a) = true
   <-> exactly_one (BivariateAnalysis.a_columns_x a) (BivariateAnalysis.a_columns_y a) = true)
  /\ (exactly_one (BivariateAnalysis.a_columns_x a) (BivariateAnalysis.a_columns_y a) = false
      <-> exists self,
            BivariateAnalysis.init a = inr self
            /\ BivariateAnalysis.verbosity self = BivariateAnalysis.a_verbosity a
            /\ BivariateAnalysis.columns self = BivariateAnalysis.a_columns a
            /\ BivariateAnalysis.columns_x self = BivariateAnalysis.a_columns_x a
            /\ BivariateAnalysis.columns_y self = BivariateAnalysis.a_columns_y a
            /\ BivariateAnalysis.columns_pairs self = BivariateAnalysis.a_columns_pairs a
            /\ BivariateAnalysis.color_col self = BivariateAnalysis.a_color_col a)
  /\ (raises_ValueError (CorrelationPlot._get_columns_x_y df columns columns_x columns_y) = true
      <-> exactly_one columns_x columns_y = true)
  /\ (raises_ValueError
        (result (ContingencyTable.contingency_tables df columns columns_x columns_y
                   columns_pairs table_threshold)) = true
      <-> exactly_one columns_x columns_y = true).
Proof.
  repeat split.
  - destruct (exactly_one (BivariateAnalysis.a_columns_x a) (BivariateAnalysis.a_columns_y a))
      eqn:E; [reflexivity|].
    destruct (init_returns a E) as (self & -> & _). discriminate.
  - intros E. rewrite (init_raises a E). reflexivity.
  - apply init_returns.
  - intros (self & Hinit & _).
    destruct (exactly_one (BivariateAnalysis.a_columns_x a) (BivariateAnalysis.a_columns_y a))
      eqn:E; [|reflexivity].
    rewrite (init_raises a E) in Hinit. discriminate.
  - rewrite get_columns_x_y_raises. exact (fun E => E).
  - rewrite get_columns_x_y_raises. exact (fun E => E).
  - rewrite contingency_tables_raises. exact (fun E => E).
  - rewrite contingency_tables_raises. exact (fun E => E).
Qed.

End Frame.

(** The error and the constructed section on concrete arguments. *)
Example init_only_columns_x :
  BivariateAnalysis.init
    {| BivariateAnalysis.a_subsections := None; BivariateAnalysis.a_verbosity := 0;
       BivariateAnalysis.a_columns := None;
       BivariateAnalysis.a_columns_x := Some ["a"];
       BivariateAnalysis.a_columns_y := None;
       BivariateAnalysis.a_columns_pairs := None;
       BivariateAnalysis.a_verbosity_correlations := None;
       BivariateAnalysis.a_verbosity_pairplot := None;
       BivariateAnalysis.a_verbosity_contingency_table := None;
       BivariateAnalysis.a_color_col := None |}
  = inl (ValueError "Either both or neither of columns_x, columns_y must be specified.").
Proof. reflexivity. Qed.

End ColumnsXYFacts.

(* ================================================================== *)
(** * Resolving column selections                                      *)
(* ================================================================== *)

Module ResolveFacts.
Import Py Sample.

Section Frame.
Context {V : Type} `{PyValue V}.

(** On labels of the frame the comprehension neither raises nor reorders. *)
Lemma filter_by_series_present (df : Pandas.DataFrame V)
    (keep : Pandas.Series V -> bool) (cols : list string) :
  all_columns_of df cols ->
  filter_by_series df keep cols = inr (filter (column_satisfies df keep) cols).
Proof.
  unfold all_columns_of.
  induction 1 as [|c cols Hc _ IH]; [reflexivity|].
  cbn [filter_by_series filter]. unfold Pandas.getitem, column_satisfies in *.
  unfold Pandas.has_column in Hc.
  destruct (Pandas.lookup c (Pandas.items df)) as [s|]; [|discriminate Hc].
  cbn [bind ret]. rewrite IH. cbn [bind ret]. reflexivity.
Qed.

Lemma lookup_own (l : list (string * Pandas.Series V)) (c : string) (s : Pandas.Series V) :
  NoDup (map fst l) -> In (c, s) l -> Pandas.lookup c l = Some s.
Proof.
  induction l as [|[c' s'] l IH]; intros Hnd Hin; [contradiction|].
  cbn [map fst] in Hnd. apply NoDup_cons_iff in Hnd as [Hfresh Hnd].
  cbn [Pandas.lookup]. destruct Hin as [Heq | Hin].
  - inversion Heq; subst. rewrite String.eqb_refl. reflexivity.
  - destruct (String.eqb_spec c' c) as [->|_].
    + exfalso. apply Hfresh. apply (in_map fst) in Hin. exact Hin.
    + apply IH; assumption.
Qed.

Lemma own_labels_present (df : Pandas.DataFrame V) :
  all_columns_of df (Pandas.columns_of df).
Proof.
  unfold all_columns_of, Pandas.columns_of, Pandas.has_column.
  apply Forall_forall. intros c Hc.
  induction (Pandas.items df) as [|[c' s'] l IH]; [contradiction|].
  cbn [Pandas.lookup]. destruct (String.eqb_spec c' c) as [_|Hne]; [reflexivity|].
  destruct Hc as [Heq | Hc]; [contradiction|]. apply IH, Hc.
Qed.

Lemma filter_labels_of_items (keep : Pandas.Series V -> bool)
    (look : string -> option (Pandas.Series V)) (l : list (string * Pandas.Series V)) :
  (forall c s, In (c, s) l -> look c = Some s) ->
  filter (fun c => match look c with Some s => keep s | None => false end) (map fst l)
  = map fst (filter (fun item => keep (snd item)) l).
Proof.
  induction l as [|[c s] l IH]; intros Hown; [reflexivity|].
  cbn [map filter fst snd]. rewrite (Hown c s (or_introl eq_refl)).
  destruct (keep s); cbn [map fst]; rewrite IH; auto using in_cons.
Qed.

(** Over the frame's own labels the comprehension selects the columns
    themselves. *)
Lemma filter_own_labels (df : Pandas.DataFrame V) (keep : Pandas.Series V -> bool) :
  distinct_labels df ->
  filter (column_satisfies df keep) (Pandas.columns_of df) = labels_where df keep.
Proof.
  intros Hnd. unfold Pandas.columns_of, labels_where, column_satisfies.
  apply (filter_labels_of_items keep (fun c => Pandas.lookup c (Pandas.items df))).
  intros c s. apply lookup_own, Hnd.
Qed.

Lemma filter_by_series_own (df : Pandas.DataFrame V) (keep : Pandas.Series V -> bool) :
  distinct_labels df ->
  filter_by_series df keep (Pandas.columns_of df) = inr (labels_where df keep).
Proof.
  intros Hnd. rewrite filter_by_series_present by apply own_labels_present.
  rewrite filter_own_labels by assumption. reflexivity.
Qed.

Context `{DataTypes V}.

(** C5.  With [columns], [columns_x] and [columns_y] all missing,
    [_get_columns_x_y] returns twice the numeric columns of the frame, in
    the frame's column order; with [columns_x] and [columns_y] both given
    (labels of the frame), it returns each list without its non-numeric
    columns, in the order given. *)
Theorem get_columns_x_y_resolves (df : Pandas.DataFrame V)
    (columns : option (list string)) (xs ys : list string) :
  (distinct_labels df ->
   CorrelationPlot._get_columns_x_y df None None None
   = inr (labels_where df is_numeric, labels_where df is_numeric))
  /\ (all_columns_of df xs -> all_columns_of df ys ->
      CorrelationPlot._get_columns_x_y df columns (Some xs) (Some ys)
      = inr (filter (column_satisfies df is_numeric) xs,
             filter (column_satisfies df is_numeric) ys)).
Proof.
  split.
  - intros Hnd. unfold CorrelationPlot._get_columns_x_y. cbn.
    rewrite filter_by_series_own by assumption. reflexivity.
  - intros Hx Hy. unfold CorrelationPlot._get_columns_x_y. cbn.
    rewrite !filter_by_series_present by assumption. reflexivity.
Qed.

End Frame.

Lemma frame_distinct_labels : distinct_labels frame.
Proof.
  unfold distinct_labels. cbn.
  repeat constructor; cbn; intuition discriminate.
Qed.

Lemma frame_all_columns (cols : list string) :
  forallb (Pandas.has_column frame) cols = true -> all_columns_of frame cols.
Proof. intros Hall. apply Forall_forall. apply forallb_forall. exact Hall. Qed.

(** On the sample frame: the default is its one numeric column; of the two
    given lists the text column and the column of nulls are dropped. *)
Lemma get_columns_x_y_resolves_witness :
  CorrelationPlot._get_columns_x_y frame None None None
  = inr (["height"], ["height"])
  /\ CorrelationPlot._get_columns_x_y frame None
       (Some ["city"; "height"]) (Some ["height"; "city"; "height"])
     = inr (["height"], ["height"; "height"]).
Proof.
  split.
  - exact (proj1 (get_columns_x_y_resolves frame None [] []) frame_distinct_labels).
  - exact (proj2 (get_columns_x_y_resolves frame None
                    ["city"; "height"] ["height"; "city"; "height"])
             (frame_all_columns ["city"; "height"] eq_refl)
             (frame_all_columns ["height"; "city"; "height"] eq_refl)).
Defined.

End ResolveFacts.

(* ================================================================== *)
(** * The threshold of [contingency_tables]                            *)
(* ================================================================== *)

Module ThresholdFacts.
Import Py Sample.

Section Frame.
Context {V : Type} `{PyValue V}.

Lemma unique_nil (l : list V) : Pandas.unique l = [] -> l = [].
Proof. destruct l; [reflexivity | discriminate]. Qed.

Lemma dropna_nil (s : Pandas.Series V) :
  Pandas.dropna s = [] -> Pandas.isnull_all s = true.
Proof.
  induction s as [|[v|] s IH]; cbn; [reflexivity | discriminate | exact IH].
Qed.

(** A series without a single distinct value holds nulls only. *)
Lemma nunique_zero_all_null (s : Pandas.Series V) :
  Pandas.nunique s = 0 -> Pandas.isnull_all s = true.
Proof.
  unfold Pandas.nunique. intros Hlen.
  apply dropna_nil, unique_nil, length_zero_iff_nil, Hlen.
Qed.

(** [include_column] without the short cuts of [or] and [and]. *)
Lemma include_column_unfold (df : Pandas.DataFrame V) (thr : Z) (col : string) :
  ContingencyTable.include_column df thr col =
  (s <- Pandas.getitem df col ;;
   ret (((thr <? 0)%Z || (Z.of_nat (Pandas.nunique s) <=? thr)%Z)
        && negb (Pandas.isnull_all s))).
Proof.
  unfold ContingencyTable.include_column, Pandas.getitem.
  destruct (Pandas.lookup col (Pandas.items df)) as [s|];
    destruct (thr <? 0)%Z; cbn; try reflexivity.
  destruct (Z.of_nat (Pandas.nunique s) <=? thr)%Z; reflexivity.
Qed.

Lemma include_column_zero (df : Pandas.DataFrame V) (col : string) :
  ContingencyTable.include_column df 0 col <> inr true.
Proof.
  rewrite include_column_unfold. unfold Pandas.getitem.
  destruct (Pandas.lookup col (Pandas.items df)) as [s|]; cbn; [|discriminate].
  destruct (Z.of_nat (Pandas.nunique s) <=? 0)%Z eqn:Hle; cbn; [|discriminate].
  apply Z.leb_le in Hle.
  rewrite nunique_zero_all_null by lia. discriminate.
Qed.

Lemma include_column_pair_zero (df : Pandas.DataFrame V) (p : string * string) :
  ContingencyTable.include_column_pair df 0 p <> inr true.
Proof.
  unfold ContingencyTable.include_column_pair.
  destruct (String.eqb (fst p) (snd p)); [discriminate|].
  pose proof (include_column_zero df (fst p)) as H1.
  destruct (ContingencyTable.include_column df 0 (fst p)) as [e|[|]]; cbn;
    [discriminate | contradiction | discriminate].
Qed.

Lemma filter_res_never {A} (keep : A -> Res bool) (xs kept : list A) :
  (forall x, keep x <> inr true) ->
  filter_res keep xs = inr kept -> kept = [].
Proof.
  intros Hk. revert kept.
  induction xs as [|x xs IH]; cbn; intros kept Hres.
  - cbv [ret] in Hres. congruence.
  - specialize (Hk x). destruct (keep x) as [e|[|]]; cbn in Hres;
      [discriminate | contradiction |].
    destruct (filter_res keep xs) as [e|rest]; cbn in Hres; [discriminate|].
    cbv [ret] in Hres. inversion Hres; subst. apply IH. reflexivity.
Qed.

Lemma table_pairs_zero (df : Pandas.DataFrame V)
    (columns columns_x columns_y : option (list string))
    (columns_pairs : option (list (string * string))) (kept : list (string * string)) :
  ContingencyTable.table_pairs df columns columns_x columns_y columns_pairs 0 = inr kept ->
  kept = [].
Proof.
  unfold ContingencyTable.table_pairs.
  destruct (exactly_one columns_x columns_y); [discriminate|].
  match goal with
  | |- bind ?m _ = _ -> _ => destruct m as [e|ps]; cbn [bind]; [discriminate|]
  end.
  apply filter_res_never, include_column_pair_zero.
Qed.

(** C10.  At [table_threshold = 0] the test of [include_column] fails for
    every column: a column passes the count test only with no distinct
    value, and then it is all null.  So [contingency_tables] displays
    nothing, whatever the frame and the selection.  The count test is
    skipped exactly when the threshold is negative. *)
Theorem contingency_tables_threshold_zero (df : Pandas.DataFrame V)
    (columns columns_x columns_y : option (list string))
    (columns_pairs : option (list (string * string)))
    (table_threshold : Z) (col : string) :
  outputs (ContingencyTable.contingency_tables df columns columns_x columns_y
             columns_pairs 0) = []
  /\ ContingencyTable.include_column df 0 col <> inr true
  /\ ContingencyTable.include_column df table_threshold col =
     (s <- Pandas.getitem df col ;;
      ret (((table_threshold <? 0)%Z
            || (Z.of_nat (Pandas.nunique s) <=? table_threshold)%Z)
           && negb (Pandas.isnull_all s))).
Proof.
  split; [|split; [apply include_column_zero | apply include_column_unfold]].
  unfold ContingencyTable.contingency_tables, then_, lift, outputs.
  cbn [fst snd].
  pose proof (table_pairs_zero df columns columns_x columns_y columns_pairs) as Hz.
  destruct (ContingencyTable.table_pairs df columns columns_x columns_y columns_pairs 0)
    as [e|kept]; [reflexivity|].
  rewrite (Hz kept eq_refl). reflexivity.
Qed.

End Frame.

Example contingency_tables_default_threshold :
  ContingencyTable.contingency_tables two_columns None None None None 30
  = ([ContingencyHeatmap "a" "b"; ContingencyHeatmap "b" "a"], inr tt).
Proof. reflexivity. Qed.

Example contingency_tables_zero_threshold :
  ContingencyTable.contingency_tables two_columns None None None None 0
  = ([], inr tt).
Proof. reflexivity. Qed.

Example contingency_tables_negative_threshold :
  ContingencyTable.contingency_tables two_columns None None None None (-1)
  = ([ContingencyHeatmap "a" "b"; ContingencyHeatmap "b" "a"], inr tt).
Proof. reflexivity. Qed.

End ThresholdFacts.

(* ================================================================== *)
(** * Numeric columns in [UMAP] and [Autocorrelation]                  *)
(* ================================================================== *)

Module NumericFacts.
Import Py RaiseFacts ResolveFacts Sample.

Section Frame.
Context {V : Type} `{PyValue V} `{DataTypes V} `{Dtypes V}.











End Frame.

Lemma frame_no_time_index_distinct : distinct_labels frame_no_time_index.
Proof. exact frame_distinct_labels. Qed.

Lemma frame_no_time_index_columns (cols : list string) :
  forallb (Pandas.has_column frame_no_time_index) cols = true ->
  all_columns_of frame_no_time_index cols.
Proof. intros Hall. apply Forall_forall. apply forallb_forall. exact Hall. Qed.



End NumericFacts.

(* ================================================================== *)
(** * Derived statistics                                               *)
(* ================================================================== *)

Module StatisticsFacts.
Import Sample SampleNumeric.

(** C8.  On every series, [iqr] is the third quartile minus the first, and
    [value_range] the maximum minus the minimum, each computed by the
    statistic functions on the same series. *)
Theorem derived_statistics_are_differences {V F : Type} `{PandasNumeric V F}
    (series : Pandas.Series V) :
  utils.iqr series = fsub (utils.quartile3 series) (utils.quartile1 series)
  /\ utils.value_range series = fsub (utils.maximum series) (utils.minimum series).
Proof. split; reflexivity. Qed.

Example statistics_of_four_values :
  let series := [Some (Int 1); Some (Int 2); None; Some (Int 4); Some (Int 8)] in
  utils.quartile1 series = Some (7 # 4)%Q
  /\ utils.quartile3 series = Some (5 # 1)%Q
  /\ utils.iqr series = Some (13 # 4)%Q
  /\ utils.minimum series = Some (1 # 1)%Q
  /\ utils.maximum series = Some (8 # 1)%Q
  /\ utils.value_range series = Some (7 # 1)%Q.
Proof. cbv zeta. repeat split; vm_compute; reflexivity. Qed.

Example statistics_of_no_value :
  utils.iqr (V := Scalar) [None; None] = None
  /\ utils.value_range (V := Scalar) [None; None] = None.
Proof. split; reflexivity. Qed.

End StatisticsFacts.

(* ================================================================== *)
(** * Counting values                                                  *)
(* ================================================================== *)

Module CountFacts.
Import Py Counting.

Section Values.
Context {V : Type} `{PyValue V} `{!PyValueLaws V}.

Lemma val_eqb_eq (x y : V) : val_eqb x y = true <-> x = y.
Proof. apply val_eqb_iff. Qed.

Lemma val_eqb_spec (x y : V) : reflect (x = y) (val_eqb x y).
Proof. apply iff_reflect. symmetry. apply val_eqb_eq. Qed.

Lemma val_eqb_refl (x : V) : val_eqb x x = true.
Proof. apply val_eqb_eq. reflexivity. Qed.

Lemma val_eqb_sym (x y : V) : val_eqb x y = val_eqb y x.
Proof. destruct (val_eqb_spec x y), (val_eqb_spec y x); congruence. Qed.

Lemma count_other_than (v u : V) (m : list V) :
  Pandas.count_occ_val u (filter (other_than v) m)
  = if val_eqb v u then 0 else Pandas.count_occ_val u m.
Proof.
  unfold Pandas.count_occ_val, other_than.
  induction m as [|x m IH]; cbn [filter]; [destruct (val_eqb v u); reflexivity|].
  destruct (val_eqb_spec v x) as [->|Hvx]; cbn [negb filter].
  - rewrite IH. destruct (val_eqb_spec x u) as [->|Hxu].
    + reflexivity.
    + destruct (val_eqb_spec u x) as [->|_]; [contradiction | reflexivity].
  - destruct (val_eqb u x) eqn:Hux; cbn [List.length]; rewrite IH.
    + apply val_eqb_eq in Hux. subst x.
      destruct (val_eqb_spec v u); [contradiction | reflexivity].
    + reflexivity.
Qed.

Lemma total_over_other_than (v : V) (us m : list V) :
  total_over (filter (other_than v) us) m = total_over us (filter (other_than v) m).
Proof.
  induction us as [|u us IH]; [reflexivity|].
  cbn [filter total_over]. rewrite count_other_than. unfold other_than at 1.
  destruct (val_eqb v u); cbn [negb total_over]; rewrite IH; reflexivity.
Qed.

Lemma count_split (v : V) (p : V -> bool) (m : list V) :
  Pandas.count_occ_val v m + List.length (filter p (filter (other_than v) m))
  = List.length (filter (fun x => val_eqb x v || p x) m).
Proof.
  unfold Pandas.count_occ_val, other_than.
  induction m as [|x m IH]; [reflexivity|].
  cbn [filter]. rewrite (val_eqb_sym x v).
  destruct (val_eqb v x); cbn [negb orb filter List.length].
  - rewrite <- IH. reflexivity.
  - destruct (p x); cbn [List.length]; rewrite <- IH; lia.
Qed.

Lemma total_over_unique (l m : list V) :
  total_over (Pandas.unique l) m = List.length (filter (fun x => Pandas.mem x l) m).
Proof.
  revert m. induction l as [|v l IH]; intros m.
  - cbn. induction m; [reflexivity | assumption].
  - cbn [Pandas.unique total_over].
    change (filter (fun w => negb (val_eqb v w)) (Pandas.unique l))
      with (filter (other_than v) (Pandas.unique l)).
    rewrite total_over_other_than, IH, count_split. reflexivity.
Qed.

Lemma filter_all {A} (p : A -> bool) (l : list A) :
  (forall x, In x l -> p x = true) -> filter p l = l.
Proof.
  induction l as [|x l IH]; intros Hp; [reflexivity|].
  cbn. rewrite (Hp x (or_introl eq_refl)), IH; auto using in_cons.
Qed.

Lemma mem_of_In (x : V) (l : list V) : In x l -> Pandas.mem x l = true.
Proof.
  intros Hin. apply existsb_exists. exists x. split; [exact Hin | apply val_eqb_refl].
Qed.

(** Each value counted once for all its occurrences. *)
Lemma total_over_unique_self (l : list V) :
  total_over (Pandas.unique l) l = List.length l.
Proof.
  rewrite total_over_unique, filter_all; [reflexivity|].
  intros x. apply mem_of_In.
Qed.

Lemma sum_counts_rows (us m : list V) :
  utils.sum_counts (map (fun v => (v, Pandas.count_occ_val v m)) us) = total_over us m.
Proof. induction us as [|u us IH]; [reflexivity|]. cbn. rewrite <- IH. reflexivity. Qed.

Lemma sum_counts_app (a b : list (V * nat)) :
  utils.sum_counts (a ++ b) = utils.sum_counts a + utils.sum_counts b.
Proof.
  unfold utils.sum_counts.
  induction a as [|x a IH]; cbn [app fold_right]; [reflexivity | rewrite IH; lia].
Qed.

Lemma insert_desc_sum (x : V * nat) (l : list (V * nat)) :
  utils.sum_counts (Pandas.insert_desc x l) = snd x + utils.sum_counts l.
Proof.
  unfold utils.sum_counts.
  induction l as [|y l IH]; [reflexivity|].
  cbn [Pandas.insert_desc]. destruct (Nat.leb (snd y) (snd x));
    cbn [fold_right]; [reflexivity | rewrite IH; lia].
Qed.

Lemma sort_desc_sum (l : list (V * nat)) :
  utils.sum_counts (Pandas.sort_desc l) = utils.sum_counts l.
Proof.
  induction l as [|x l IH]; [reflexivity|].
  cbn [Pandas.sort_desc fold_right]. fold (Pandas.sort_desc l).
  rewrite insert_desc_sum, IH. reflexivity.
Qed.

Lemma insert_desc_In (x y : V * nat) (l : list (V * nat)) :
  In y (Pandas.insert_desc x l) -> y = x \/ In y l.
Proof.
  induction l as [|z l IH]; cbn [Pandas.insert_desc].
  - intros [<-|[]]. left. reflexivity.
  - destruct (Nat.leb (snd z) (snd x)); cbn; intuition auto.
Qed.

Lemma sort_desc_In (y : V * nat) (l : list (V * nat)) :
  In y (Pandas.sort_desc l) -> In y l.
Proof.
  induction l as [|x l IH]; [intros []|].
  cbn [Pandas.sort_desc fold_right]. fold (Pandas.sort_desc l).
  intros Hin. apply insert_desc_In in Hin as [->|Hin]; cbn; auto.
Qed.

Lemma unique_In (v : V) (l : list V) : In v (Pandas.unique l) -> In v l.
Proof.
  induction l as [|x l IH]; [intros []|].
  cbn [Pandas.unique]. intros [<-|Hin]; [left; reflexivity|].
  right. apply IH. apply filter_In in Hin. apply Hin.
Qed.

Lemma dropna_In (v : V) (s : Pandas.Series V) :
  In v (Pandas.dropna s) -> In (Some v) s.
Proof.
  induction s as [|[x|] s IH]; cbn; [intros [] | |]; intuition congruence.
Qed.

(** The rows of [value_counts] are values of the series. *)
Lemma value_counts_In (v : V) (c : nat) (s : Pandas.Series V) :
  In (v, c) (Pandas.value_counts s) -> In (Some v) s.
Proof.
  unfold Pandas.value_counts. intros Hin.
  apply sort_desc_In, in_map_iff in Hin as (u & Heq & Hu).
  inversion Heq; subst. apply dropna_In, unique_In, Hu.
Qed.

(** The counts of [value_counts] add up to the number of non-null cells. *)
Lemma value_counts_sum (s : Pandas.Series V) :
  utils.sum_counts (Pandas.value_counts s) = List.length (Pandas.dropna s).
Proof.
  unfold Pandas.value_counts.
  rewrite sort_desc_sum, sum_counts_rows. apply total_over_unique_self.
Qed.

Lemma isna_dropna (s : Pandas.Series V) :
  Pandas.isna_sum s + List.length (Pandas.dropna s) = Pandas.len s.
Proof.
  unfold Pandas.len. induction s as [|[x|] s IH]; cbn; lia.
Qed.

Lemma dict_mem_absent {W} (k : V) (d : list (V * W)) :
  (forall p, In p d -> fst p <> k) -> dict_mem val_eqb k d = false.
Proof.
  induction d as [|[k' w] d IH]; intros Habs; [reflexivity|].
  cbn [dict_mem]. rewrite IH by auto using in_cons.
  destruct (val_eqb_spec k' k) as [Heq|_]; [|reflexivity].
  exfalso. apply (Habs (k', w) (or_introl eq_refl)). exact Heq.
Qed.

Lemma dict_set_absent {W} (k : V) (w : W) (d : list (V * W)) :
  (forall p, In p d -> fst p <> k) -> dict_set val_eqb k w d = (d ++ [(k, w)])%list.
Proof. intros Habs. unfold dict_set. rewrite dict_mem_absent by assumption. reflexivity. Qed.

End Values.
End CountFacts.

(* ================================================================== *)
(** * [top_frequent_values]                                            *)
(* ================================================================== *)

Module TopFrequentFacts.
Import Py CountFacts Sample SampleFacts.

Section Values.
Context {V : Type} `{PyValue V} `{!PyValueLaws V} `{!PositionalIndex V} `{PyFormat}.

Lemma slice_to_from {A} (n : Z) (l : list A) :
  (slice_to n l ++ slice_from n l)%list = l.
Proof. apply firstn_skipn. Qed.

Lemma slice_to_length {A} (n : Z) (l : list A) :
  (0 <= n)%Z -> (Z.of_nat (List.length (slice_to n l)) <= n)%Z.
Proof.
  intros Hn. unfold slice_to, slice_bound.
  rewrite length_firstn.
  destruct (n <? 0)%Z eqn:Hneg; [apply Z.ltb_lt in Hneg; lia | lia].
Qed.

Lemma slice_to_In {A} (n : Z) (l : list A) (x : A) :
  In x (slice_to n l) -> In x l.
Proof.
  intros Hin. rewrite <- (slice_to_from n l). apply in_or_app. left. exact Hin.
Qed.

Lemma other_key_not_null_key : utils.other_key <> utils.null_key.
Proof.
  unfold utils.other_key, utils.null_key. intros Heq.
  apply of_str_inj in Heq. discriminate Heq.
Qed.

(** Without the two literal keys among the values, the dictionary is the
    top rows followed by the two literal entries. *)
Lemma frequency_counts_rows (series : Pandas.Series V) (n_top : Z) :
  ~ In (Some utils.other_key) series ->
  ~ In (Some utils.null_key) series ->
  utils.frequency_counts series n_top
  = (slice_to n_top (Pandas.value_counts series)
       ++ [(utils.other_key,
            utils.sum_counts (slice_from n_top (Pandas.value_counts series)));
           (utils.null_key, Pandas.isna_sum series)])%list.
Proof.
  intros Hother Hnull. unfold utils.frequency_counts.
  rewrite index_head_positional, index_tail_positional.
  assert (Htop : forall k, ~ In (Some k) series ->
                   forall p, In p (slice_to n_top (Pandas.value_counts series)) ->
                             fst p <> k).
  { intros k Hk [v c] Hin Heq. cbn in Heq. subst v.
    apply Hk. apply (value_counts_In k c). apply (slice_to_In n_top). exact Hin. }
  rewrite (dict_set_absent utils.other_key) by (apply Htop, Hother).
  rewrite dict_set_absent.
  - rewrite <- app_assoc. reflexivity.
  - intros p Hin. apply in_app_or in Hin as [Hin | [<- | []]].
    + apply (Htop _ Hnull), Hin.
    + apply other_key_not_null_key.
Qed.

Lemma relative_frequency_times_len (count total : nat) :
  total <> 0 ->
  exists q,
    utils.relative_frequency count total = Finite q
    /\ (q * inject_Z (Z.of_nat total) == inject_Z (100 * Z.of_nat count))%Q.
Proof.
  intros Htotal. destruct total as [|total]; [contradiction Htotal; reflexivity|].
  unfold utils.relative_frequency. eexists. split; [reflexivity|].
  field. intros Hzero.
  apply (Qeq_bool_neq (inject_Z (Z.of_nat (S total))) 0); [|exact Hzero].
  unfold Qeq_bool, inject_Z. cbn [Qnum Qden].
  apply Z.eqb_neq. lia.
Qed.

(** C9, as the code has it.  For values whose index pandas slices by
    position (texts, integers, booleans, dates: every kind but floats), a
    non-empty series that holds neither of the two literal keys, and [n_top]
    not negative: the dictionary is the first [n_top] rows of [value_counts]
    followed by the entries "Other values count" and "Null", so it has at
    most [n_top + 2] entries; the counts of the top values, of the other
    values and of the nulls add up to [len(series)]; and every entry is
    rendered from its count and from the finite quotient
    [100 * count / len(series)]. *)
Theorem top_frequent_values_partition (series : Pandas.Series V) (n_top : Z) :
  series <> [] ->
  (0 <= n_top)%Z ->
  ~ In (Some utils.other_key) series ->
  ~ In (Some utils.null_key) series ->
  let counts := Pandas.value_counts series in
  let top := slice_to n_top counts in
  let other := utils.sum_counts (slice_from n_top counts) in
  let null := Pandas.isna_sum series in
  let total := Pandas.len series in
  utils.top_frequent_values series n_top
  = map (fun row =>
           (fst row,
            format_grouped (snd row) ++ " ("
              ++ format_fixed2 (utils.relative_frequency (snd row) total) ++ " %)"))
        (top ++ [(utils.other_key, other); (utils.null_key, null)])%list
  /\ (Z.of_nat (List.length (utils.top_frequent_values series n_top)) <= n_top + 2)%Z
  /\ utils.sum_counts top + other + null = total
  /\ forall count,
       exists q,
         utils.relative_frequency count total = Finite q
         /\ (q * inject_Z (Z.of_nat total) == inject_Z (100 * Z.of_nat count))%Q.
Proof.
  intros Hne Hn Hother Hnull counts top other null total.
  assert (Hrows := frequency_counts_rows series n_top Hother Hnull).
  fold counts top other null in Hrows.
  split; [|split; [|split]].
  - unfold utils.top_frequent_values. rewrite Hrows. reflexivity.
  - unfold utils.top_frequent_values. rewrite length_map, Hrows, length_app.
    pose proof (slice_to_length n_top counts Hn) as Hlen. fold top in Hlen.
    cbn [List.length]. lia.
  - unfold other, top. rewrite <- sum_counts_app, slice_to_from.
    unfold counts. rewrite value_counts_sum.
    unfold null, total. pose proof (isna_dropna series). lia.
  - intros count. apply relative_frequency_times_len.
    unfold total, Pandas.len. destruct series; [contradiction | discriminate].
Qed.

End Values.

Lemma cities_without (key : Scalar) :
  forallb (fun cell => match cell with
                       | Some v => negb (scalar_eqb v key)
                       | None => true
                       end) cities = true ->
  ~ In (Some key) cities.
Proof.
  intros Hall Hin. rewrite forallb_forall in Hall. specialize (Hall _ Hin).
  cbn in Hall. destruct (scalar_eqb_spec key key); [discriminate | congruence].
Qed.

(** The seven cities with [n_top = 1]: one top value, the rest, the nulls. *)
Lemma top_frequent_values_partition_witness :
  utils.top_frequent_values cities 1
  = [(Str "Brno", "3 (42.86 %)");
     (Str "Other values count", "3 (42.86 %)");
     (Str "Null", "1 (14.29 %)")]
  /\ (Z.of_nat (List.length (utils.top_frequent_values cities 1)) <= 1 + 2)%Z
  /\ 3 + 3 + 1 = 7.
Proof.
  pose proof (top_frequent_values_partition cities 1
                ltac:(discriminate) ltac:(lia)
                (cities_without utils.other_key eq_refl)
                (cities_without utils.null_key eq_refl))
    as (Htable & Hsize & Hsum & _).
  split; [exact Htable | split; [exact Hsize | exact Hsum]].
Defined.

(** C9 as stated fails for a negative [n_top]: the slice [counts[:-1]]
    keeps all rows but the last, so three distinct values give four
    entries, more than [n_top + 2 = 1]. *)
Lemma top_frequent_values_negative_n_top :
  let series := [Some (Str "a"); Some (Str "b"); Some (Str "c")] in
  series <> []
  /\ ~ In (Some (utils.other_key (V := Scalar))) series
  /\ ~ In (Some (utils.null_key (V := Scalar))) series
  /\ List.length (utils.top_frequent_values series (-1)) = 4
  /\ ~ (Z.of_nat (List.length (utils.top_frequent_values series (-1))) <= -1 + 2)%Z.
Proof.
  cbv zeta. split; [discriminate|].
  split; [intros [Heq | [Heq | [Heq | []]]]; discriminate Heq|].
  split; [intros [Heq | [Heq | [Heq | []]]]; discriminate Heq|].
  split; [reflexivity|].
  change (List.length (utils.top_frequent_values
                         [Some (Str "a"); Some (Str "b"); Some (Str "c")] (-1)))
    with 4. lia.
Qed.

(** Without values every quotient is [0 / 0], which numpy gives as [nan]. *)
Example top_frequent_values_of_nothing :
  utils.top_frequent_values (V := Scalar) [] 5
  = [(Str "Other values count", "0 (nan %)"); (Str "Null", "0 (nan %)")].
Proof. reflexivity. Qed.

(** Equal counts keep the order in which the values first appear. *)
Example value_counts_of_ties :
  Pandas.value_counts [Some (Str "b"); Some (Str "a"); Some (Str "c"); Some (Str "c");
                       Some (Str "a"); Some (Str "b")]
  = [(Str "b", 2); (Str "a", 2); (Str "c", 2)].
Proof. reflexivity. Qed.

End TopFrequentFacts.

(* ================================================================== *)
(** * The univariate dispatch                                          *)
(* ================================================================== *)

Module UnivariateFacts.
Import Py RaiseFacts Sample.

Section Frame.
Context {V : Type} `{PyValue V} `{PyFormat} `{DataTypes V} `{Notebook}.

(** A loop whose body always returns displays the outputs of its turns,
    one after the other, and returns. *)
Lemma for_each_returns {A} (body : A -> Run V unit) (outs : A -> list (Output V))
    (l : list A) :
  (forall x, body x = (outs x, inr tt)) ->
  for_each body l = (flat_map outs l, inr tt).
Proof.
  intros Hbody. induction l as [|x l IH]; [reflexivity|].
  cbn [for_each flat_map]. rewrite Hbody, IH. reflexivity.
Qed.

Lemma analyse_column_outputs (separator : bool) (col : string)
    (series : Pandas.Series V) :
  UnivariateAnalysis.analyse_column separator col series
  = (expected_column_outputs separator (col, series), inr tt).
Proof.
  unfold UnivariateAnalysis.analyse_column, expected_column_outputs.
  cbn [fst snd].
  destruct (Pandas.isnull_all series); [reflexivity|].
  unfold UnivariateAnalysis.bar_plot.
  destruct (infer_data_type series), separator;
    try reflexivity;
    destruct (Nat.ltb 50 (Pandas.nunique series)); reflexivity.
Qed.



(** What [univariate_analysis] and [show] display, column after column. *)
Lemma univariate_analysis_runs (df df' : Pandas.DataFrame V)
    (columns : option (list string)) (verbosity : Z) :
  UnivariateAnalysis.restrict df columns = inr df' ->
  UnivariateAnalysis.univariate_analysis df columns
  = (flat_map (expected_column_outputs false) (Pandas.items df'), inr tt)
  /\ UnivariateAnalysis.show (UnivariateAnalysis.init df verbosity columns) df
     = (Markdown (get_title UnivariateAnalysis.name 1)
          :: flat_map (expected_column_outputs true) (Pandas.items df'),
        inr tt).
Proof.
  intros Hsel.
  assert (Hloop : forall sep,
             UnivariateAnalysis.for_each_column
               (UnivariateAnalysis.analyse_column sep) df'
             = (flat_map (expected_column_outputs sep) (Pandas.items df'), inr tt)).
  { intros sep. unfold UnivariateAnalysis.for_each_column.
    apply for_each_returns. intros [col series]. apply analyse_column_outputs. }
  split.
  - unfold UnivariateAnalysis.univariate_analysis.
    rewrite Hsel, then_lift_ret. apply Hloop.
  - unfold UnivariateAnalysis.show, UnivariateAnalysis.init.
    cbn [UnivariateAnalysis.columns].
    rewrite Hsel, then_lift_ret, then_display, Hloop. reflexivity.
Qed.

(** C6, as the code has it.  On the frame restricted to the analysed
    columns, [univariate_analysis] displays, column after column: for a
    column of nulls the NULL heading and the note only; for a column
    inferred CATEGORICAL or BOOLEAN the heading, the table of most frequent
    values and the output of [bar_plot], which is the bar plot when the
    column has at most 50 distinct values and a warning otherwise; for
    every other column the heading, the descriptive and quantile statistics
    tables and the histogram.  [show] does the same under the section title
    and with a rule after each column that is not all null. *)
Theorem univariate_analysis_dispatch (df df' : Pandas.DataFrame V)
    (columns : option (list string)) (verbosity : Z) :
  UnivariateAnalysis.restrict df columns = inr df' ->
  UnivariateAnalysis.univariate_analysis df columns
  = (flat_map (expected_column_outputs false) (Pandas.items df'), inr tt)
  /\ UnivariateAnalysis.show (UnivariateAnalysis.init df verbosity columns) df
     = (Markdown (get_title UnivariateAnalysis.name 1)
          :: flat_map (expected_column_outputs true) (Pandas.items df'),
        inr tt).
Proof. apply univariate_analysis_runs. Qed.

End Frame.

(** Two columns of the sample frame: the text column and the column of
    nulls. *)
Lemma univariate_analysis_dispatch_witness :
  UnivariateAnalysis.univariate_analysis frame (Some ["city"; "empty"])
  = ([Markdown "## *city - categorical*";
      MostFrequentValues
        [(Str "Brno", "2 (66.67 %)"); (Str "Praha", "1 (33.33 %)");
         (Str "Other values count", "0 (0.00 %)"); (Str "Null", "0 (0.00 %)")];
      BarPlotFigure [(Str "Brno", 2); (Str "Praha", 1)];
      Markdown "## *empty - NULL*";
      Markdown "The column contains only null values."],
     inr tt).
Proof.
  exact (proj1 (univariate_analysis_dispatch frame
                  {| Pandas.items :=
                       [("city", [Some (Str "Brno"); Some (Str "Praha"); Some (Str "Brno")]);
                        ("empty", [None; None; None])];
                     Pandas.index_time_ascending := true |}
                  (Some ["city"; "empty"]) 0 eq_refl)).
Defined.

(** C6 as stated fails for a categorical column with more than 50 distinct
    values: [bar_plot] warns and draws nothing. *)
Lemma wide_column_gets_no_bar_plot :
  Pandas.isnull_all (codes 51) = false
  /\ infer_data_type (codes 51) = CATEGORICAL
  /\ Pandas.nunique (codes 51) = 51
  /\ result (UnivariateAnalysis.univariate_analysis wide_frame None) = inr tt
  /\ existsb is_bar_plot
       (outputs (UnivariateAnalysis.univariate_analysis wide_frame None)) = false
  /\ In (Warning "Number of unique values is greater than 50, not plotting bar plot.")
        (outputs (UnivariateAnalysis.univariate_analysis wide_frame None)).
Proof.
  repeat split; try (vm_compute; reflexivity).
  vm_compute. right. right. left. reflexivity.
Qed.

End UnivariateFacts.

(* ================================================================== *)
(** * The three verbosity levels                                       *)
(* ================================================================== *)

Module VerbosityFacts.
Import Py PyFacts RaiseFacts Sample.

Section Frame.
Context {V : Type} `{PyValue V} `{PyFormat} `{DataTypes V} `{Notebook}.

Lemma column_cells_returns (verbosity : Z) (col : string) (series : Pandas.Series V) :
  UnivariateAnalysis.column_cells verbosity col series
  = (null_notes (col, series), inr (expected_column_cells verbosity (col, series))).
Proof.
  unfold UnivariateAnalysis.column_cells, null_notes, expected_column_cells.
  cbn [fst snd]. destruct (Pandas.isnull_all series); reflexivity.
Qed.

Lemma columns_cells_returns (verbosity : Z) (cols : list (string * Pandas.Series V)) :
  UnivariateAnalysis.columns_cells verbosity cols
  = (flat_map null_notes cols, inr (flat_map (expected_column_cells verbosity) cols)).
Proof.
  induction cols as [|[col series] cols IH]; [reflexivity|].
  cbn [UnivariateAnalysis.columns_cells flat_map].
  rewrite column_cells_returns, IH.
  unfold then_, pure. cbn [fst snd]. rewrite app_nil_r. reflexivity.
Qed.

Lemma add_cells_levels (self : UnivariateAnalysis.t V) (df' : Pandas.DataFrame V)
    (cells : list Cell) :
  UnivariateAnalysis.restrict (UnivariateAnalysis.df self)
    (UnivariateAnalysis.columns self) = inr df' ->
  let self' :=
    {| UnivariateAnalysis.df := df';
       UnivariateAnalysis.verbosity := UnivariateAnalysis.verbosity self;
       UnivariateAnalysis.columns := UnivariateAnalysis.columns self |} in
  let header := new_markdown_cell (get_title UnivariateAnalysis.name 1) in
  let v := UnivariateAnalysis.verbosity self in
  UnivariateAnalysis.add_cells self cells =
  if (v =? 0)%Z
  then ([], inr (self',
                 (cells ++ [header;
                            new_code_cell (UnivariateAnalysis.aggregate_code self)])%list))
  else (flat_map null_notes (Pandas.items df'),
        inr (self',
             (cells ++ [header]
                ++ (if (v =? 2)%Z then UnivariateAnalysis.definition_cells else [])
                ++ flat_map (expected_column_cells v) (Pandas.items df'))%list)).
Proof.
  intros Hsel self' header v. subst self' header v.
  unfold UnivariateAnalysis.add_cells. rewrite Hsel, then_lift_ret.
  cbn [UnivariateAnalysis.verbosity UnivariateAnalysis.df UnivariateAnalysis.columns].
  destruct (UnivariateAnalysis.verbosity self =? 0)%Z eqn:Hv0.
  - assert (Hv2 : (UnivariateAnalysis.verbosity self =? 2)%Z = false).
    { apply Z.eqb_eq in Hv0. rewrite Hv0. reflexivity. }
    rewrite Hv2. unfold pure, UnivariateAnalysis.aggregate_code.
    cbn [UnivariateAnalysis.columns]. rewrite <- app_assoc. reflexivity.
  - rewrite columns_cells_returns. unfold then_, pure. cbn [fst snd].
    rewrite app_nil_r.
    destruct (UnivariateAnalysis.verbosity self =? 2)%Z;
      rewrite <- ?app_assoc; reflexivity.
Qed.


End Frame.

End VerbosityFacts.

(* ================================================================== *)
(** * The single cell of verbosity 0                                   *)
(* ================================================================== *)

Module AggregateFacts.
Import Py PyFacts RaiseFacts Sample Constructed.
Import BivariateAnalysis.

Lemma init_built (a : Args) :
  exactly_one (a_columns_x a) (a_columns_y a) = false -> init a = inr (built a).
Proof.
  destruct a as [subs v cols xs ys ps vc vp vt color]. cbn. intros E.
  destruct xs, ys; try discriminate E; destruct cols, ps; reflexivity.
Qed.

Lemma init_inv (a : Args) (self : t) :
  init a = inr self ->
  exactly_one (a_columns_x a) (a_columns_y a) = false /\ self = built a.
Proof.
  intros Hinit.
  destruct (exactly_one (a_columns_x a) (a_columns_y a)) eqn:E.
  - unfold init in Hinit. rewrite E in Hinit. discriminate Hinit.
  - rewrite (init_built a E) in Hinit. inversion Hinit. split; reflexivity.
Qed.






Lemma remove_quote_step (c : ascii) (s : string) :
  remove_all "'" (String c s)
  = if Ascii.eqb c squote then remove_all "'" s else String c (remove_all "'" s).
Proof.
  unfold remove_all. cbn [remove_from String.prefix String.eqb String.length Nat.sub].
  destruct (Ascii.ascii_dec "'" c) as [<-|Hne].
  - destruct s; reflexivity.
  - destruct (Ascii.eqb_spec c squote) as [->|_]; [contradiction Hne; reflexivity|].
    reflexivity.
Qed.

Lemma remove_quote_app (a b : string) :
  remove_all "'" (a ++ b) = remove_all "'" a ++ remove_all "'" b.
Proof.
  induction a as [|c a IH]; [reflexivity|].
  cbn [append]. rewrite !remove_quote_step, IH.
  destruct (Ascii.eqb c squote); reflexivity.
Qed.

Lemma remove_quote_qualified (sub : BivariateAnalysisSubsection) :
  remove_all "'" (repr_str (qualified sub)) = qualified sub.
Proof. destruct sub; reflexivity. Qed.

Lemma remove_quote_join (subs : list BivariateAnalysisSubsection) :
  remove_all "'" (join_comma (map repr_str (map qualified subs)))
  = join_comma (map qualified subs).
Proof.
  induction subs as [|sub subs IH]; [reflexivity|].
  destruct subs as [|sub' subs].
  - cbn [map join_comma]. apply remove_quote_qualified.
  - change (remove_all "'"
              (repr_str (qualified sub) ++ ", "
                 ++ join_comma (map repr_str (map qualified (sub' :: subs))))
            = qualified sub ++ ", " ++ join_comma (map qualified (sub' :: subs))).
    rewrite !remove_quote_app, remove_quote_qualified, IH. reflexivity.
Qed.

(** The quotes that [repr] puts around the member names are the only ones
    that [replace] removes. *)
Lemma subsections_argument (subs : list BivariateAnalysisSubsection) :
  remove_all "'" (", subsections=" ++ repr_list_str (map qualified subs))
  = ", subsections=" ++ subsections_literal subs.
Proof.
  unfold repr_list_str, repr_list_of, subsections_literal, repr_list_of.
  rewrite !remove_quote_app, remove_quote_join. reflexivity.
Qed.


Section Frame.
Context {V : Type} `{PyValue V} `{DataTypes V} `{Notebook}.






Context `{PyFormat}.


End Frame.

End AggregateFacts.

(* ================================================================== *)
(** * Which exported calls are well formed                             *)
(* ================================================================== *)

Module CallTextFacts.
Import Py PyFacts Sample.

Lemma neutral_app (a b : string) : neutral a -> neutral b -> neutral (a ++ b).
Proof. intros Ha Hb d. rewrite lex_run_app, Ha. apply Hb. Qed.

Lemma neutral_empty : neutral EmptyString.
Proof. intros d. reflexivity. Qed.

Lemma neutral_repr_str (s : string) : neutral (repr_str s).
Proof. intros d. apply lex_repr_str. Qed.

Lemma neutral_join (items : list string) :
  Forall neutral items -> neutral (join_comma items).
Proof.
  induction 1 as [|x items Hx Hitems IH]; [apply neutral_empty|].
  destruct items as [|y items]; [exact Hx|].
  change (join_comma (x :: y :: items)) with (x ++ ", " ++ join_comma (y :: items)).
  apply neutral_app; [exact Hx|]. apply neutral_app; [|exact IH].
  intros d. reflexivity.
Qed.

Lemma neutral_repr_list_of (items : list string) :
  Forall neutral items -> neutral (repr_list_of items).
Proof.
  intros Hitems. unfold repr_list_of.
  apply (neutral_app "["); [intros d; reflexivity|].
  apply neutral_app; [apply neutral_join, Hitems | intros d; reflexivity].
Qed.

Lemma neutral_repr_list_str (l : list string) : neutral (repr_list_str l).
Proof.
  apply neutral_repr_list_of. apply Forall_forall. intros x Hx.
  apply in_map_iff in Hx as (s & <- & _). apply neutral_repr_str.
Qed.

(** A pair is written between parentheses of its own. *)
Lemma neutral_repr_pair (p : string * string) : neutral (repr_pair_str p).
Proof.
  intros d. unfold repr_pair_str.
  change (lex_run (Code d) ("(" ++ repr_str (fst p) ++ ", " ++ repr_str (snd p) ++ ")"))
    with (lex_run (Code (S d)) (repr_str (fst p) ++ ", " ++ repr_str (snd p) ++ ")")).
  rewrite lex_run_app, lex_repr_str.
  change (lex_run (Code (S d)) (", " ++ repr_str (snd p) ++ ")"))
    with (lex_run (Code (S d)) (repr_str (snd p) ++ ")")).
  rewrite lex_run_app, lex_repr_str. reflexivity.
Qed.

Lemma neutral_repr_list_pair (l : list (string * string)) : neutral (repr_list_pair l).
Proof.
  apply neutral_repr_list_of. apply Forall_forall. intros x Hx.
  apply in_map_iff in Hx as (p & <- & _). apply neutral_repr_pair.
Qed.

Lemma neutral_keyword {A} (name : string) (literal : A -> string) (value : option A) :
  neutral name -> (forall x, neutral (literal x)) -> neutral (keyword name literal value).
Proof.
  intros Hname Hlit. destruct value as [x|]; [|apply neutral_empty].
  unfold keyword. apply (neutral_app ", "); [intros d; reflexivity|].
  apply neutral_app; [exact Hname|].
  apply (neutral_app "="); [intros d; reflexivity | apply Hlit].
Qed.

(** A call whose name and keyword arguments are neutral balances. *)
Lemma balanced_call_with (func keywords : string) :
  neutral func -> neutral keywords -> balanced (call_with func keywords) = true.
Proof.
  intros Hf Hk. unfold balanced, call_with.
  rewrite lex_run_app, Hf.
  change (lex_run (Code 0) ("(df=df" ++ keywords ++ ")"))
    with (lex_run (Code 1) (keywords ++ ")")).
  rewrite lex_run_app, Hk. reflexivity.
Qed.

Lemma inside_plain (d : nat) (s : string) :
  plain_text s = true -> lex_run (InStr d squote) s = Some (InStr d squote).
Proof.
  unfold plain_text. induction s as [|c s IH]; [reflexivity|].
  cbn [contains]. rewrite !negb_orb. intros Hp.
  apply andb_prop in Hp as [Hq Hb].
  apply andb_prop in Hq as [Hcq Hsq]. apply andb_prop in Hb as [Hcb Hsb].
  cbn [lex_run]. rewrite lex_step_plain.
  - apply IH. rewrite Hsq, Hsb. reflexivity.
  - apply negb_true_iff in Hcb. exact Hcb.
  - apply negb_true_iff in Hcq. exact Hcq.
Qed.

(** A plain text between single quotes is one literal. *)
Lemma neutral_quoted (s : string) :
  plain_text s = true -> neutral ("'" ++ s ++ "'").
Proof.
  intros Hp d.
  change (lex_run (Code d) ("'" ++ s ++ "'"))
    with (lex_run (InStr d squote) (s ++ "'")).
  rewrite lex_run_app, (inside_plain d s Hp). reflexivity.
Qed.

Lemma correlation_call_text (self : CorrelationPlot.t) :
  CorrelationPlot.default_call self
  = call_with "plot_correlations" (correlation_keywords self).
Proof.
  unfold CorrelationPlot.default_call, call_with, correlation_keywords, keyword.
  destruct (CorrelationPlot.columns_x self), (CorrelationPlot.columns_y self),
    (CorrelationPlot.columns self); rewrite ?append_assoc; reflexivity.
Qed.

Lemma contingency_call_text (self : ContingencyTable.t) :
  ContingencyTable.default_call self
  = call_with "contingency_tables" (contingency_keywords self).
Proof.
  unfold ContingencyTable.default_call, call_with, contingency_keywords, keyword.
  destruct (ContingencyTable.columns_pairs self), (ContingencyTable.columns_x self),
    (ContingencyTable.columns_y self), (ContingencyTable.columns self);
    rewrite ?append_assoc; reflexivity.
Qed.

Lemma autocorrelation_call_text (func : string) (self : Autocorrelation.t) :
  Autocorrelation.call_text func self
  = call_with func (keyword "columns" repr_list_str (Autocorrelation.columns self)).
Proof.
  unfold Autocorrelation.call_text, call_with, keyword.
  destruct (Autocorrelation.columns self); rewrite ?append_assoc; reflexivity.
Qed.

Lemma neutral_columns_xy (xs : list string) (ys : option (list string)) :
  neutral (keyword "columns_x" repr_list_str (Some xs)
             ++ ", columns_y="
             ++ match ys with Some l => repr_list_str l | None => "None" end).
Proof.
  apply neutral_app.
  - apply neutral_keyword; [intros d; reflexivity | apply neutral_repr_list_str].
  - apply (neutral_app ", columns_y="); [intros d; reflexivity|].
    destruct ys; [apply neutral_repr_list_str | intros d; reflexivity].
Qed.

Lemma neutral_correlation_keywords (self : CorrelationPlot.t) :
  neutral (correlation_keywords self).
Proof.
  unfold correlation_keywords.
  destruct (CorrelationPlot.columns_x self); [apply neutral_columns_xy|].
  apply neutral_keyword; [intros d; reflexivity | apply neutral_repr_list_str].
Qed.

Lemma neutral_contingency_keywords (self : ContingencyTable.t) :
  neutral (contingency_keywords self).
Proof.
  unfold contingency_keywords.
  destruct (ContingencyTable.columns_pairs self).
  - apply neutral_keyword; [intros d; reflexivity | apply neutral_repr_list_pair].
  - destruct (ContingencyTable.columns_x self); [apply neutral_columns_xy|].
    apply neutral_keyword; [intros d; reflexivity | apply neutral_repr_list_str].
Qed.

(** X1.  Whatever selection is stored, the calls that
    [CorrelationPlot.add_cells], [ContingencyTable.add_cells] and
    [Autocorrelation.add_cells] write have balanced parentheses: the
    labels go through [repr], which quotes and escapes them, and the call
    is closed once. *)
Theorem sibling_calls_balanced
    (correlation : CorrelationPlot.t) (tables : ContingencyTable.t)
    (acf : Autocorrelation.t) :
  balanced (CorrelationPlot.default_call correlation) = true
  /\ balanced (ContingencyTable.default_call tables) = true
  /\ balanced (Autocorrelation.call_text "autocorrelation" acf) = true
  /\ balanced (Autocorrelation.call_text "plot_acf" acf) = true
  /\ balanced (Autocorrelation.call_text "plot_pacf" acf) = true.
Proof.
  assert (Hacf : forall func, neutral func ->
                   balanced (Autocorrelation.call_text func acf) = true).
  { intros func Hf. rewrite autocorrelation_call_text.
    apply balanced_call_with; [exact Hf|].
    apply neutral_keyword; [intros d; reflexivity | apply neutral_repr_list_str]. }
  split; [|split; [|split; [|split]]].
  - rewrite correlation_call_text.
    apply balanced_call_with; [intros d; reflexivity | apply neutral_correlation_keywords].
  - rewrite contingency_call_text.
    apply balanced_call_with; [intros d; reflexivity | apply neutral_contingency_keywords].
  - apply Hacf. intros d. reflexivity.
  - apply Hacf. intros d. reflexivity.
  - apply Hacf. intros d. reflexivity.
Qed.

(** Labels with parentheses and quotes inside. *)
Example awkward_labels_balanced :
  ContingencyTable.default_call
    (ContingencyTable.init 0 None None None (Some [("a)", "it's")]))
  = "contingency_tables(df=df, columns_pairs=[('a)', " ++ String dquote "it's"
      ++ String dquote ")])".
Proof. reflexivity. Qed.

(** X2.  [PairPlot.add_cells] writes a balanced call whenever it does not
    go through its [columns] branch, that is with [columns_x] and
    [columns_y] stored or with no selection at all, provided the colour
    column, which is written between single quotes as it is, holds no single
    quote and no backslash. *)
Theorem PairPlot_other_calls_balanced (self : PairPlot.t) :
  PairPlot.columns_x self <> None \/ PairPlot.columns self = None ->
  match PairPlot.color_col self with
  | Some c => plain_text c = true
  | None => True
  end ->
  balanced (PairPlot.default_call self) = true.
Proof.
  intros Hbranch Hcolor.
  assert (Htext :
            PairPlot.default_call self
            = call_with "plot_pairplot"
                (match PairPlot.columns_x self with
                 | Some xs =>
                     keyword "columns_x" repr_list_str (Some xs)
                       ++ ", columns_y="
                       ++ match PairPlot.columns_y self with
                          | Some ys => repr_list_str ys
                          | None => "None"
                          end
                 | None => EmptyString
                 end
                 ++ keyword "color_col" (fun c => "'" ++ c ++ "'")
                      (PairPlot.color_col self))).
  { unfold PairPlot.default_call, call_with, keyword.
    destruct (PairPlot.columns_x self) as [xs|].
    - destruct (PairPlot.columns_y self), (PairPlot.color_col self);
        rewrite ?append_assoc; reflexivity.
    - destruct Hbranch as [Hx | Hc]; [contradiction Hx; reflexivity|].
      rewrite Hc. destruct (PairPlot.color_col self); rewrite ?append_assoc; reflexivity. }
  rewrite Htext. apply balanced_call_with; [intros d; reflexivity|].
  apply neutral_app.
  - destruct (PairPlot.columns_x self); [apply neutral_columns_xy | apply neutral_empty].
  - destruct (PairPlot.color_col self) as [c|]; [|apply neutral_empty].
    unfold keyword. apply (neutral_app ", "); [intros d; reflexivity|].
    apply (neutral_app "color_col"); [intros d; reflexivity|].
    apply (neutral_app "="); [intros d; reflexivity|].
    apply neutral_quoted, Hcolor.
Qed.

Lemma PairPlot_other_calls_balanced_witness :
  balanced
    (PairPlot.default_call
       {| PairPlot.verbosity := 1; PairPlot.columns := Some ["ignored"];
          PairPlot.columns_x := Some ["a"; "b"]; PairPlot.columns_y := Some ["c"];
          PairPlot.color_col := Some "group (1)" |}) = true.
Proof.
  apply PairPlot_other_calls_balanced; cbn.
  - left. discriminate.
  - reflexivity.
Defined.

(** A colour column with a single quote ends the literal early. *)
Example color_with_quote_unbalanced :
  PairPlot.default_call
    {| PairPlot.verbosity := 0; PairPlot.columns := None;
       PairPlot.columns_x := None; PairPlot.columns_y := None;
       PairPlot.color_col := Some "it's" |}
  = "plot_pairplot(df=df, color_col='it's')"
  /\ balanced "plot_pairplot(df=df, color_col='it's')" = false.
Proof. split; reflexivity. Qed.

Lemma bivariate_aggregate_text (self : BivariateAnalysis.t) :
  BivariateAnalysis.aggregate_code self
  = call_with "bivariate_analysis"
      (keyword "subsections" subsections_literal (BivariateAnalysis.subsections_0 self)
         ++ match BivariateAnalysis.columns_x self with
            | Some xs =>
                keyword "columns_x" repr_list_str (Some xs)
                  ++ ", columns_y="
                  ++ match BivariateAnalysis.columns_y self with
                     | Some ys => repr_list_str ys
                     | None => "None"
                     end
            | None => keyword "columns" repr_list_str (BivariateAnalysis.columns self)
            end
         ++ keyword "columns_pairs" repr_list_pair (BivariateAnalysis.columns_pairs self)
         ++ keyword "color_col" (fun c => "'" ++ c ++ "'")
              (BivariateAnalysis.color_col self)).
Proof.
  unfold BivariateAnalysis.aggregate_code, call_with.
  assert (Hsubs : forall l,
             remove_all "'"
               (", subsections="
                  ++ repr_list_str
                       (map (fun sub =>
                               "BivariateAnalysis.BivariateAnalysisSubsection."
                                 ++ BivariateAnalysis.str sub) l))
             = keyword "subsections" subsections_literal (Some l)).
  { intros l. apply AggregateFacts.subsections_argument. }
  destruct (BivariateAnalysis.subsections_0 self) as [l|]; [rewrite Hsubs|];
    destruct (BivariateAnalysis.columns_x self), (BivariateAnalysis.columns_y self),
      (BivariateAnalysis.columns self), (BivariateAnalysis.columns_pairs self),
      (BivariateAnalysis.color_col self);
    unfold keyword; rewrite ?append_assoc; reflexivity.
Qed.

Lemma neutral_subsections_literal
    (subs : list BivariateAnalysis.BivariateAnalysisSubsection) :
  neutral (subsections_literal subs).
Proof.
  apply neutral_repr_list_of. apply Forall_forall. intros x Hx.
  apply in_map_iff in Hx as (sub & <- & _). intros d. destruct sub; reflexivity.
Qed.

(** The cell of verbosity 0 balances when the colour column is plain. *)
Lemma aggregate_code_balanced (self : BivariateAnalysis.t) :
  match BivariateAnalysis.color_col self with
  | Some c => plain_text c = true
  | None => True
  end ->
  balanced (BivariateAnalysis.aggregate_code self) = true.
Proof.
  intros Hcolor. rewrite bivariate_aggregate_text.
  apply balanced_call_with; [intros d; reflexivity|].
  apply neutral_app.
  { apply neutral_keyword; [intros d; reflexivity | apply neutral_subsections_literal]. }
  apply neutral_app.
  { destruct (BivariateAnalysis.columns_x self); [apply neutral_columns_xy|].
    apply neutral_keyword; [intros d; reflexivity | apply neutral_repr_list_str]. }
  apply neutral_app.
  { apply neutral_keyword; [intros d; reflexivity | apply neutral_repr_list_pair]. }
  destruct (BivariateAnalysis.color_col self) as [c|]; [|apply neutral_empty].
  unfold keyword. apply (neutral_app ", "); [intros d; reflexivity|].
  apply (neutral_app "color_col"); [intros d; reflexivity|].
  apply (neutral_app "="); [intros d; reflexivity|].
  apply neutral_quoted, Hcolor.
Qed.

(** X3.  The single cell that [BivariateAnalysis.add_cells] writes at
    verbosity 0 has balanced parentheses for every stored selection of
    subsections, columns and pairs, provided the colour column, written
    between single quotes as it is, holds no single quote and no
    backslash. *)
Theorem bivariate_aggregate_balanced (self : BivariateAnalysis.t) :
  match BivariateAnalysis.color_col self with
  | Some c => plain_text c = true
  | None => True
  end ->
  balanced (BivariateAnalysis.aggregate_code self) = true.
Proof. apply aggregate_code_balanced. Qed.

Lemma bivariate_aggregate_balanced_witness :
  balanced
    (BivariateAnalysis.aggregate_code
       (Constructed.built
          {| BivariateAnalysis.a_subsections :=
               Some [BivariateAnalysis.Sub_PairPlot; BivariateAnalysis.Sub_ContingencyTable];
             BivariateAnalysis.a_verbosity := 0;
             BivariateAnalysis.a_columns := None;
             BivariateAnalysis.a_columns_x := None;
             BivariateAnalysis.a_columns_y := None;
             BivariateAnalysis.a_columns_pairs := Some [("a (cm)", "it's")];
             BivariateAnalysis.a_verbosity_correlations := None;
             BivariateAnalysis.a_verbosity_pairplot := None;
             BivariateAnalysis.a_verbosity_contingency_table := None;
             BivariateAnalysis.a_color_col := Some "group" |})) = true.
Proof.
  apply bivariate_aggregate_balanced. reflexivity.
Defined.

Section UnivariateCalls.
Context {V : Type} `{PyValue V} `{PyFormat} `{DataTypes V} `{Notebook}.

Lemma neutral_subscript (col : string) :
  plain_text col = true -> neutral ("df['" ++ col ++ "']").
Proof.
  intros Hp d.
  change (lex_run (Code d) ("df['" ++ col ++ "']"))
    with (lex_run (InStr d squote) (col ++ "']")).
  rewrite lex_run_app, (inside_plain d col Hp). reflexivity.
Qed.

Lemma neutral_call_on_column (indent func col rest : string) :
  neutral indent -> neutral func -> plain_text col = true -> neutral rest ->
  neutral (indent ++ func ++ "(df['" ++ col ++ "'])" ++ rest).
Proof.
  intros Hi Hf Hp Hr.
  apply neutral_app; [exact Hi|]. apply neutral_app; [exact Hf|].
  intros d.
  change (lex_run (Code d) ("(df['" ++ col ++ "'])" ++ rest))
    with (lex_run (Code (S d)) ("df['" ++ col ++ "'])" ++ rest)).
  change (lex_run (Code (S d)) ("df['" ++ col ++ "'])" ++ rest))
    with (lex_run (InStr (S d) squote) (col ++ "'])" ++ rest)).
  rewrite lex_run_app, (inside_plain (S d) col Hp).
  change (lex_run (InStr (S d) squote) ("'])" ++ rest)) with (lex_run (Code d) rest).
  apply Hr.
Qed.

End UnivariateCalls.

Lemma neutral_newline : neutral UnivariateAnalysis.newline.
Proof. intros d. reflexivity. Qed.

(** X4.  The code that [UnivariateAnalysis.add_cells] writes.  The single
    call of verbosity 0 passes the labels through [repr] and balances for
    every selection.  The calls written per column at verbosity 1 and 2 put
    the label between single quotes as it is: they balance when the label
    holds no single quote and no backslash. *)
Theorem univariate_calls_balanced {V : Type} (self : UnivariateAnalysis.t V)
    (col : string) :
  plain_text col = true ->
  balanced (UnivariateAnalysis.aggregate_code self) = true
  /\ balanced (UnivariateAnalysis.frequent_template col) = true
  /\ balanced (UnivariateAnalysis.numeric_template col) = true
  /\ balanced (UnivariateAnalysis.numeric_template_explicit col) = true.
Proof.
  intros Hp.
  assert (Hend : forall indent func,
             neutral indent -> neutral func ->
             neutral (indent ++ func ++ "(df['" ++ col ++ "'])")).
  { intros indent func Hi Hf.
    exact (neutral_call_on_column indent func col EmptyString Hi Hf Hp neutral_empty). }
  assert (Hbal : forall s, neutral s -> balanced s = true).
  { intros s Hs. unfold balanced. rewrite Hs. reflexivity. }
  split; [|split; [|split]].
  - unfold UnivariateAnalysis.aggregate_code.
    destruct (UnivariateAnalysis.columns self) as [cols|]; [|reflexivity].
    apply (balanced_call_with "univariate_analysis" (keyword "columns" repr_list_str (Some cols))).
    + intros d. reflexivity.
    + apply neutral_keyword; [intros d; reflexivity | apply neutral_repr_list_str].
  - apply Hbal. unfold UnivariateAnalysis.frequent_template.
    apply neutral_app; [apply neutral_newline|].
    apply (neutral_call_on_column "                        " "top_most_frequent" col);
      [intros d; reflexivity | intros d; reflexivity | exact Hp |].
    apply neutral_app; [apply neutral_newline|].
    apply (Hend "                        " "bar_plot"); intros d; reflexivity.
  - apply Hbal. unfold UnivariateAnalysis.numeric_template.
    apply neutral_app; [apply neutral_newline|].
    apply (neutral_call_on_column "                            " "numeric_statistics" col);
      [intros d; reflexivity | intros d; reflexivity | exact Hp |].
    apply neutral_app; [apply neutral_newline|].
    apply (Hend "                            " "histogram"); intros d; reflexivity.
  - apply Hbal. unfold UnivariateAnalysis.numeric_template_explicit.
    apply neutral_app; [apply neutral_newline|].
    intros d.
    change (lex_run (Code d)
              ("                            numeric_statistics("
                 ++ UnivariateAnalysis.newline
                 ++ "                                df['" ++ col ++ "'],"
                 ++ UnivariateAnalysis.newline
                 ++ "                                descriptive_stats=default_descriptive_statistics(),"
                 ++ UnivariateAnalysis.newline
                 ++ "                                quantile_stats=default_quantile_statistics()"
                 ++ UnivariateAnalysis.newline
                 ++ "                            )" ++ UnivariateAnalysis.newline
                 ++ "                            histogram(df['" ++ col ++ "'])"))
      with (lex_run (InStr (S d) squote)
              (col ++ "'],"
                 ++ UnivariateAnalysis.newline
                 ++ "                                descriptive_stats=default_descriptive_statistics(),"
                 ++ UnivariateAnalysis.newline
                 ++ "                                quantile_stats=default_quantile_statistics()"
                 ++ UnivariateAnalysis.newline
                 ++ "                            )" ++ UnivariateAnalysis.newline
                 ++ "                            histogram(df['" ++ col ++ "'])")).
    rewrite lex_run_app, (inside_plain (S d) col Hp).
    apply (Hend "                            " "histogram"); intros d'; reflexivity.
Qed.

Lemma univariate_calls_balanced_witness :
  balanced (UnivariateAnalysis.aggregate_code
              (UnivariateAnalysis.init frame 0 (Some ["it's"; "a)"]))) = true
  /\ balanced (UnivariateAnalysis.frequent_template "height (cm)") = true
  /\ balanced (UnivariateAnalysis.numeric_template "height (cm)") = true
  /\ balanced (UnivariateAnalysis.numeric_template_explicit "height (cm)") = true.
Proof.
  apply univariate_calls_balanced. reflexivity.
Defined.

(** A label with a single quote ends the literal of the per-column call
    early, and what follows it is read as code, while the call of verbosity
    0 quotes the label. *)
Example label_with_quote_unbalanced :
  balanced (UnivariateAnalysis.frequent_template "a'(") = false
  /\ balanced (UnivariateAnalysis.numeric_template "a'(") = false
  /\ UnivariateAnalysis.aggregate_code (UnivariateAnalysis.init frame 0 (Some ["a'("]))
     = "univariate_analysis(df=df, columns=[" ++ String dquote "a'("
         ++ String dquote "])".
Proof. split; [|split]; reflexivity. Qed.

End CallTextFacts.

(* ================================================================== *)
(** * The single cell of verbosity 0                                   *)
(* ================================================================== *)

Module AggregateCellFacts.
Import Py PyFacts RaiseFacts Sample Constructed AggregateFacts.
Import BivariateAnalysis.

Section Frame.
Context {V : Type} `{PyValue V} `{DataTypes V} `{Notebook} `{PyFormat}.


End Frame.


Example quiet_section_outputs :
  outputs (bivariate_analysis frame (aggregate_call (built quiet_args)))
  = [Markdown "## Correlation Plot";
     Markdown "### Pearson Correlation";
     CorrelationHeatmap pearson ["height"] ["height"];
     Markdown "### Spearman Correlation";
     CorrelationHeatmap spearman ["height"] ["height"];
     Markdown "### Kendall Correlation";
     CorrelationHeatmap kendall ["height"] ["height"];
     Markdown "## Pairplot";
     PairplotFigure ["height"] ["height"] None;
     Markdown "## Contingency table";
     ContingencyHeatmap "height" "city";
     ContingencyHeatmap "city" "height"].
Proof. reflexivity. Qed.


(** A colour column with a single quote: the cell is not the call, its
    literal ends early. *)
Example aggregate_cell_color_with_quote :
  let self :=
    built {| a_subsections := None; a_verbosity := 0; a_columns := None;
             a_columns_x := None; a_columns_y := None; a_columns_pairs := None;
             a_verbosity_correlations := None; a_verbosity_pairplot := None;
             a_verbosity_contingency_table := None; a_color_col := Some "it's" |} in
  aggregate_code self = "bivariate_analysis(df=df, color_col='it's')"
  /\ balanced (aggregate_code self) = false.
Proof. split; reflexivity. Qed.

End AggregateCellFacts.

(* ================================================================== *)
(** * The exported text, by verbosity                                  *)
(* ================================================================== *)

Module LevelFacts.
Import Py PyFacts RaiseFacts Sample Constructed AggregateFacts CallTextFacts.

Section Frame.
Context {V : Type} `{PyValue V} `{PyFormat} `{DataTypes V} `{Notebook} `{PyFloatText}.









End Frame.



End LevelFacts.


(* ================================================================== *)
(** * What the plotting functions display                              *)
(* ================================================================== *)

(** A plotting call stands in the outputs as the figure it is asked for,
    with the columns it is given; what pandas, seaborn, statsmodels or umap
    raise from inside such a call is not modelled, here as in the sections
    above.  The statements below are about the checks and the look-ups of
    the code itself. *)

Module DisplayFacts.
Import Py RaiseFacts ResolveFacts Sample.

Section Frame.
Context {V : Type} `{PyValue V} `{DataTypes V}.

(** The comprehension over labels either keeps the labels whose series
    pass, or raises [KeyError] for a label the frame does not have. *)
Lemma filter_by_series_cases (df : Pandas.DataFrame V)
    (keep : Pandas.Series V -> bool) (cols : list string) :
  filter_by_series df keep cols = inr (filter (column_satisfies df keep) cols)
  \/ exists col,
       In col cols /\ Pandas.has_column df col = false
       /\ filter_by_series df keep cols = inl (KeyError col).
Proof.
  induction cols as [|c cols IH]; [left; reflexivity|].
  cbn [filter_by_series filter]. unfold Pandas.getitem, column_satisfies at 1.
  destruct (Pandas.lookup c (Pandas.items df)) as [s|] eqn:Hc.
  - cbn [bind ret]. destruct IH as [-> | (col & Hin & Hmiss & ->)].
    + left. reflexivity.
    + right. exists col. split; [right; exact Hin | split; [exact Hmiss | reflexivity]].
  - right. exists c. split; [left; reflexivity|].
    split; [unfold Pandas.has_column; rewrite Hc; reflexivity | reflexivity].
Qed.

Lemma for_each_displays {A} (body : A -> Run V unit) (f : A -> list (Output V))
    (l : list A) :
  (forall x, In x l -> body x = (f x, inr tt)) ->
  for_each body l = (flat_map f l, inr tt).
Proof.
  induction l as [|x l IH]; intros Hbody; [reflexivity|].
  cbn [for_each flat_map]. rewrite (Hbody x (or_introl eq_refl)).
  rewrite IH by (intros y Hy; apply Hbody; right; exact Hy).
  reflexivity.
Qed.

Lemma filter_idempotent {A} (p : A -> bool) (l : list A) :
  filter p (filter p l) = filter p l.
Proof.
  induction l as [|x l IH]; [reflexivity|]. cbn [filter].
  destruct (p x) eqn:Hp; [cbn [filter]; rewrite Hp, IH; reflexivity | exact IH].
Qed.

(** What [plot_correlations] displays, by its switches. *)
Lemma plot_correlations_cases (df : Pandas.DataFrame V)
    (columns columns_x columns_y : option (list string))
    (pearson_ spearman_ kendall_ : bool) :
  CorrelationPlot.plot_correlations df columns columns_x columns_y
    pearson_ spearman_ kendall_
  = match enabled_correlations pearson_ spearman_ kendall_,
          CorrelationPlot._get_columns_x_y df columns columns_x columns_y with
    | [], _ => ([], inr tt)
    | _ :: _, inl e => ([], inl e)
    | corrs, inr (xs, ys) => (flat_map (correlation_outputs xs ys) corrs, inr tt)
    end.
Proof.
  unfold CorrelationPlot.plot_correlations, CorrelationPlot.plot_correlation.
  destruct (CorrelationPlot._get_columns_x_y df columns columns_x columns_y)
    as [e|[xs ys]];
    destruct pearson_, spearman_, kendall_; reflexivity.
Qed.

(** X5.  [plot_correlations] displays, for each correlation that its
    switches leave, in the order Pearson, Spearman, Kendall, the heading
    and the heat map over one and the same pair of resolved column lists.
    When the columns do not resolve, the first correlation raises before
    anything is displayed; with the three switches off nothing is resolved,
    nothing displayed and nothing raised, whatever the selection. *)
Theorem plot_correlations_switches (df : Pandas.DataFrame V)
    (columns columns_x columns_y : option (list string))
    (pearson_ spearman_ kendall_ : bool) :
  CorrelationPlot.plot_correlations df columns columns_x columns_y
    pearson_ spearman_ kendall_
  = match enabled_correlations pearson_ spearman_ kendall_,
          CorrelationPlot._get_columns_x_y df columns columns_x columns_y with
    | [], _ => ([], inr tt)
    | _ :: _, inl e => ([], inl e)
    | corrs, inr (xs, ys) => (flat_map (correlation_outputs xs ys) corrs, inr tt)
    end.
Proof. apply plot_correlations_cases. Qed.

(** ** [_get_columns_x_y] *)

(** X6.  On a frame with distinct labels, with [columns_x] and
    [columns_y] both given or both missing, [_get_columns_x_y] either
    returns the two starting lists ([columns_x] and [columns_y], or else
    [columns] twice, or else the columns of the frame twice) without their
    columns that are not numeric, in the order given, or raises [KeyError]
    for a label of the starting lists that the frame does not have; it
    returns when every label of the starting lists is a column of the
    frame. *)
Theorem get_columns_x_y_cases (df : Pandas.DataFrame V)
    (columns columns_x columns_y : option (list string)) :
  distinct_labels df ->
  exactly_one columns_x columns_y = false ->
  let start := selected_lists df columns columns_x columns_y in
  let numeric := filter (column_satisfies df is_numeric) in
  let resolved := CorrelationPlot._get_columns_x_y df columns columns_x columns_y in
  (resolved = inr (numeric (fst start), numeric (snd start))
   \/ exists col,
        In col (fst start ++ snd start) /\ Pandas.has_column df col = false
        /\ resolved = inl (KeyError col))
  /\ (all_columns_of df (fst start ++ snd start) ->
      resolved = inr (numeric (fst start), numeric (snd start))).
Proof.
  intros _ E start numeric resolved.
  assert (Hcases :
            resolved = inr (numeric (fst start), numeric (snd start))
            \/ exists col,
                 In col (fst start ++ snd start) /\ Pandas.has_column df col = false
                 /\ resolved = inl (KeyError col)).
  { assert (Hboth : forall l r : list string,
               (xs <- filter_by_series df is_numeric l ;;
                ys <- filter_by_series df is_numeric r ;;
                ret (xs, ys))
               = inr (numeric l, numeric r)
               \/ exists col,
                    In col (l ++ r) /\ Pandas.has_column df col = false
                    /\ (xs <- filter_by_series df is_numeric l ;;
                        ys <- filter_by_series df is_numeric r ;;
                        ret (xs, ys))
                       = inl (KeyError col)).
    { intros l r.
      destruct (filter_by_series_cases df is_numeric l)
        as [-> | (col & Hin & Hmiss & ->)].
      - destruct (filter_by_series_cases df is_numeric r)
          as [-> | (col & Hin & Hmiss & ->)].
        + left. reflexivity.
        + right. exists col.
          split; [apply in_or_app; right; exact Hin | split; [exact Hmiss | reflexivity]].
      - right. exists col.
        split; [apply in_or_app; left; exact Hin | split; [exact Hmiss | reflexivity]]. }
    unfold resolved, CorrelationPlot._get_columns_x_y, start, selected_lists.
    rewrite E.
    destruct columns_x as [cx|], columns_y as [cy|]; try discriminate E.
    - apply (Hboth cx cy).
    - destruct columns as [cols|]; [apply (Hboth cols cols)|].
      apply (Hboth (Pandas.columns_of df) (Pandas.columns_of df)). }
  split; [exact Hcases|].
  intros Hall. destruct Hcases as [Hres | (col & Hin & Hmiss & _)]; [exact Hres|].
  unfold all_columns_of in Hall. rewrite Forall_forall in Hall.
  rewrite (Hall col Hin) in Hmiss. discriminate Hmiss.
Qed.

(** ** [contingency_tables] *)

Lemma include_column_cases (df : Pandas.DataFrame V) (thr : Z) (col : string) :
  ContingencyTable.include_column df thr col
  = match Pandas.lookup col (Pandas.items df) with
    | Some _ => inr (table_column df thr col)
    | None => inl (KeyError col)
    end.
Proof.
  rewrite ThresholdFacts.include_column_unfold.
  unfold Pandas.getitem, table_column, column_satisfies.
  destruct (Pandas.lookup col (Pandas.items df)); reflexivity.
Qed.

Lemma table_column_present (df : Pandas.DataFrame V) (thr : Z) (col : string) :
  table_column df thr col = true -> Pandas.has_column df col = true.
Proof.
  unfold table_column, column_satisfies, Pandas.has_column.
  destruct (Pandas.lookup col (Pandas.items df)); [reflexivity | discriminate].
Qed.

Lemma include_pair_cases (df : Pandas.DataFrame V) (thr : Z) (p : string * string) :
  ContingencyTable.include_column_pair df thr p = inr (accepted_pair df thr p)
  \/ exists col,
       In col [fst p; snd p] /\ Pandas.has_column df col = false
       /\ ContingencyTable.include_column_pair df thr p = inl (KeyError col).
Proof.
  unfold ContingencyTable.include_column_pair, accepted_pair.
  destruct (String.eqb (fst p) (snd p)); [left; reflexivity|].
  cbn [negb andb]. rewrite !include_column_cases.
  destruct (Pandas.lookup (fst p) (Pandas.items df)) eqn:H1.
  - cbn [bind]. destruct (table_column df thr (fst p)); [|left; reflexivity].
    destruct (Pandas.lookup (snd p) (Pandas.items df)) eqn:H2; [left; reflexivity|].
    right. exists (snd p). split; [right; left; reflexivity|].
    split; [unfold Pandas.has_column; rewrite H2; reflexivity | reflexivity].
  - right. exists (fst p). split; [left; reflexivity|].
    split; [unfold Pandas.has_column; rewrite H1; reflexivity | reflexivity].
Qed.

Lemma filter_pairs_cases (df : Pandas.DataFrame V) (thr : Z)
    (pairs : list (string * string)) :
  filter_res (ContingencyTable.include_column_pair df thr) pairs
  = inr (filter (accepted_pair df thr) pairs)
  \/ exists col,
       In col (pair_labels pairs) /\ Pandas.has_column df col = false
       /\ filter_res (ContingencyTable.include_column_pair df thr) pairs
          = inl (KeyError col).
Proof.
  induction pairs as [|p pairs IH]; [left; reflexivity|].
  cbn [filter_res filter pair_labels flat_map].
  destruct (include_pair_cases df thr p) as [-> | (col & Hin & Hmiss & ->)].
  - cbn [bind]. destruct IH as [-> | (col & Hin & Hmiss & ->)].
    + left. reflexivity.
    + right. exists col.
      split; [apply in_or_app; right; exact Hin | split; [exact Hmiss | reflexivity]].
  - right. exists col.
    split; [apply in_or_app; left; exact Hin | split; [exact Hmiss | reflexivity]].
Qed.

Lemma table_pairs_candidates (df : Pandas.DataFrame V)
    (columns columns_x columns_y : option (list string))
    (columns_pairs : option (list (string * string))) (thr : Z) :
  exactly_one columns_x columns_y = false ->
  ContingencyTable.table_pairs df columns columns_x columns_y columns_pairs thr
  = filter_res (ContingencyTable.include_column_pair df thr)
      (table_candidates df columns columns_x columns_y columns_pairs).
Proof.
  intros E. unfold ContingencyTable.table_pairs, table_candidates. rewrite E.
  destruct columns_pairs as [pairs|]; [reflexivity|].
  destruct columns_x as [xs|], columns_y as [ys|]; try discriminate E;
    [reflexivity|].
  destruct columns as [cols|]; [reflexivity|].
  rewrite filter_by_series_present by apply own_labels_present. reflexivity.
Qed.

Lemma contingency_table_accepted (df : Pandas.DataFrame V) (thr : Z)
    (p : string * string) :
  accepted_pair df thr p = true ->
  ContingencyTable.contingency_table df (fst p) (snd p) = ([heatmap_of p], inr tt).
Proof.
  unfold accepted_pair. intros Hp.
  apply andb_prop in Hp as [Hp H2]. apply andb_prop in Hp as [_ H1].
  apply table_column_present in H1. apply table_column_present in H2.
  unfold ContingencyTable.contingency_table, Pandas.getitem.
  unfold Pandas.has_column in H1, H2.
  destruct (Pandas.lookup (fst p) (Pandas.items df)); [|discriminate H1].
  destruct (Pandas.lookup (snd p) (Pandas.items df)); [|discriminate H2].
  reflexivity.
Qed.

(** X7.  On a frame with distinct labels, with [columns_x] and
    [columns_y] both given or both missing,
    [contingency_tables] either displays one table for each candidate pair
    of two different labels whose two columns are columns of the frame, are
    not all null and, for a threshold that is not negative, have at most
    [table_threshold] distinct values, in the order of the candidates, and
    returns; or it raises [KeyError] for a label among the candidates that
    the frame does not have, and then it has displayed nothing.  When every
    label of the candidates is a column of the frame it does not raise. *)
Theorem contingency_tables_displays (df : Pandas.DataFrame V)
    (columns columns_x columns_y : option (list string))
    (columns_pairs : option (list (string * string))) (table_threshold : Z) :
  distinct_labels df ->
  exactly_one columns_x columns_y = false ->
  let candidates := table_candidates df columns columns_x columns_y columns_pairs in
  let run :=
    ContingencyTable.contingency_tables df columns columns_x columns_y columns_pairs
      table_threshold in
  let tables := map heatmap_of (filter (accepted_pair df table_threshold) candidates) in
  (run = (tables, inr tt)
   \/ exists col,
        In col (pair_labels candidates) /\ Pandas.has_column df col = false
        /\ run = ([], inl (KeyError col)))
  /\ (all_columns_of df (pair_labels candidates) -> run = (tables, inr tt)).
Proof.
  intros _ E candidates run tables.
  assert (Hcases :
            run = (tables, inr tt)
            \/ exists col,
                 In col (pair_labels candidates) /\ Pandas.has_column df col = false
                 /\ run = ([], inl (KeyError col))).
  { unfold run, ContingencyTable.contingency_tables.
    rewrite (table_pairs_candidates df columns columns_x columns_y columns_pairs
               table_threshold E).
    fold candidates.
    destruct (filter_pairs_cases df table_threshold candidates)
      as [-> | (col & Hin & Hmiss & ->)].
    - left. rewrite then_lift_ret.
      rewrite (for_each_displays _ (fun p => [heatmap_of p])).
      + unfold tables. f_equal.
      + intros p Hp. apply filter_In in Hp as [_ Hp].
        apply (contingency_table_accepted df table_threshold p Hp).
    - right. exists col. split; [exact Hin | split; [exact Hmiss | reflexivity]]. }
  split; [exact Hcases|].
  intros Hall. destruct Hcases as [Hrun | (col & Hin & Hmiss & _)]; [exact Hrun|].
  unfold all_columns_of in Hall. rewrite Forall_forall in Hall.
  rewrite (Hall col Hin) in Hmiss. discriminate Hmiss.
Qed.

(** ** [plot_pairplot] *)

(** X8.  On a frame with distinct labels, with [columns_x] and
    [columns_y] both given or both missing and
    [allow_categorical] left off, [plot_pairplot] either asks for one figure
    over the two starting lists without their categorical and boolean
    columns, explicitly named ones included, in the order given, and
    returns; or it raises [KeyError] for a label of the starting lists that
    the frame does not have, and then it has drawn nothing.  With
    [allow_categorical] on, two explicit lists are handed to the figure as
    they are, without any look-up. *)
Theorem plot_pairplot_displays (df : Pandas.DataFrame V)
    (columns columns_x columns_y : option (list string)) (color_col : option string)
    (xs ys : list string) :
  distinct_labels df ->
  exactly_one columns_x columns_y = false ->
  let start := selected_lists df columns columns_x columns_y in
  let run := PairPlot.plot_pairplot df columns columns_x columns_y false color_col in
  let plotted := filter (column_satisfies df PairPlot.include_series) in
  (run = ([PairplotFigure (plotted (fst start)) (plotted (snd start)) color_col], inr tt)
   \/ exists col,
        In col (fst start ++ snd start) /\ Pandas.has_column df col = false
        /\ run = ([], inl (KeyError col)))
  /\ PairPlot.plot_pairplot df columns (Some xs) (Some ys) true color_col
     = ([PairplotFigure xs ys color_col], inr tt).
Proof.
  intros _ E start run plotted. split; [|reflexivity].
  pose (both := fun l r : list string =>
          ((xy <~ lift (xs' <- filter_by_series df PairPlot.include_series l ;;
                        ys' <- filter_by_series df PairPlot.include_series r ;;
                        ret (xs', ys')) ;;
            display (PairplotFigure (fst xy) (snd xy) color_col)) : Run V unit)).
  assert (Hboth : forall l r : list string,
             both l r = ([PairplotFigure (plotted l) (plotted r) color_col], inr tt)
             \/ exists col,
                  In col (l ++ r) /\ Pandas.has_column df col = false
                  /\ both l r = ([], inl (KeyError col))).
  { intros l r. unfold both.
    destruct (filter_by_series_cases df PairPlot.include_series l)
      as [-> | (col & Hin & Hmiss & ->)].
    - destruct (filter_by_series_cases df PairPlot.include_series r)
        as [-> | (col & Hin & Hmiss & ->)].
      + left. reflexivity.
      + right. exists col.
        split; [apply in_or_app; right; exact Hin | split; [exact Hmiss | reflexivity]].
    - right. exists col.
      split; [apply in_or_app; left; exact Hin | split; [exact Hmiss | reflexivity]]. }
  unfold run, PairPlot.plot_pairplot, start, selected_lists. rewrite E.
  destruct columns_x as [cx|], columns_y as [cy|]; try discriminate E.
  - cbn [fst snd]. rewrite then_lift_ret. cbn [negb fst snd]. apply (Hboth cx cy).
  - destruct columns as [cols|].
    + cbn [bind ret fst snd]. rewrite then_lift_ret. cbn [negb fst snd].
      apply (Hboth cols cols).
    + rewrite filter_by_series_present by apply own_labels_present.
      cbn [bind ret fst snd]. rewrite then_lift_ret. cbn [negb fst snd].
      left.
      assert (Hown : all_columns_of df
                       (filter (column_satisfies df PairPlot.include_series)
                               (Pandas.columns_of df))).
      { unfold all_columns_of. apply Forall_forall. intros c Hc.
        apply filter_In in Hc as [Hc _].
        pose proof (own_labels_present df) as Hall.
        unfold all_columns_of in Hall. rewrite Forall_forall in Hall. apply Hall, Hc. }
      rewrite (filter_by_series_present df PairPlot.include_series _ Hown).
      cbn [bind ret]. unfold plotted. rewrite filter_idempotent. reflexivity.
Qed.

End Frame.

(** On the sample frame, with [columns] given: the text column and the
    column of nulls are left out. *)
Lemma get_columns_x_y_cases_witness :
  CorrelationPlot._get_columns_x_y frame (Some ["empty"; "height"; "city"]) None None
  = inr (["height"], ["height"]).
Proof.
  refine (proj2 (get_columns_x_y_cases frame (Some ["empty"; "height"; "city"]) None None
                   frame_distinct_labels eq_refl) _).
  unfold all_columns_of. apply Forall_forall. apply forallb_forall. reflexivity.
Defined.

Lemma two_columns_distinct : distinct_labels two_columns.
Proof.
  unfold distinct_labels. cbn.
  repeat constructor; cbn; intuition discriminate.
Qed.

(** On the frame of two narrow columns, with a pair of one column with
    itself and the default threshold. *)
Lemma contingency_tables_displays_witness :
  ContingencyTable.contingency_tables two_columns None None None
    (Some [("b", "a"); ("a", "a"); ("a", "b")]) 30
  = ([ContingencyHeatmap "b" "a"; ContingencyHeatmap "a" "b"], inr tt).
Proof.
  refine (proj2 (contingency_tables_displays two_columns None None None
                   (Some [("b", "a"); ("a", "a"); ("a", "b")]) 30
                   two_columns_distinct eq_refl) _).
  unfold all_columns_of. apply Forall_forall. apply forallb_forall. reflexivity.
Defined.

(** A label that the frame does not have is an error only when it is
    reached: behind a column that fails the test it is not looked up. *)
Example contingency_tables_missing_label :
  ContingencyTable.contingency_tables two_columns None None None
    (Some [("a", "b"); ("a", "zzz")]) 30
  = ([], inl (KeyError "zzz"))
  /\ ContingencyTable.contingency_tables two_columns None None None
       (Some [("a", "b"); ("a", "zzz")]) 1
     = ([], inr tt).
Proof. split; reflexivity. Qed.

(** On the sample frame the text column is dropped although it is named. *)
Lemma plot_pairplot_displays_witness :
  PairPlot.plot_pairplot frame None (Some ["city"; "height"]) (Some ["height"])
    false (Some "city")
  = ([PairplotFigure ["height"] ["height"] (Some "city")], inr tt)
  /\ PairPlot.plot_pairplot frame None (Some ["city"]) (Some ["height"]) true
       (Some "city")
     = ([PairplotFigure ["city"] ["height"] (Some "city")], inr tt).
Proof.
  pose proof (plot_pairplot_displays frame None (Some ["city"; "height"])
                (Some ["height"]) (Some "city") ["city"] ["height"]
                frame_distinct_labels eq_refl)
    as [Hrun Hallow].
  split; [|exact Hallow].
  destruct Hrun as [Hrun | (col & _ & _ & Hrun)]; [exact Hrun | discriminate Hrun].
Defined.

End DisplayFacts.

(* ================================================================== *)
(** * Sections that raise before they display                          *)
(* ================================================================== *)

Module ShowFacts.
Import Py RaiseFacts ResolveFacts DisplayFacts Sample.

Section Frame.
Context {V : Type} `{PyValue V} `{DataTypes V} `{Dtypes V} `{Notebook}.

Lemma require_each_present (df : Pandas.DataFrame V) (ok : Pandas.Series V -> bool)
    (msg : string -> Pandas.Series V -> string) (cols : list string) :
  require_each df ok msg cols = inr tt -> all_columns_of df cols.
Proof.
  unfold all_columns_of.
  induction cols as [|c cols IH]; intros Hreq; [constructor|].
  cbn [require_each] in Hreq. unfold Pandas.getitem in Hreq.
  destruct (Pandas.lookup c (Pandas.items df)) as [s|] eqn:Hc; [|discriminate Hreq].
  cbn [bind ret] in Hreq. destruct (ok s); [|discriminate Hreq].
  constructor; [unfold Pandas.has_column; rewrite Hc; reflexivity | apply IH, Hreq].
Qed.

Lemma require_each_unit (df : Pandas.DataFrame V) (ok : Pandas.Series V -> bool)
    (msg : string -> Pandas.Series V -> string) (cols : list string) (u : unit) :
  require_each df ok msg cols = inr u -> require_each df ok msg cols = inr tt.
Proof. destruct u. exact (fun E => E). Qed.

(** The labels that the comprehension kept pass the loop that checks
    them. *)
Lemma filter_then_require (df : Pandas.DataFrame V) (keep : Pandas.Series V -> bool)
    (msg : string -> Pandas.Series V -> string) (cols kept : list string) :
  filter_by_series df keep cols = inr kept ->
  require_each df keep msg kept = inr tt.
Proof.
  revert kept. induction cols as [|c cols IH]; intros kept Hf.
  - cbn in Hf. inversion Hf. reflexivity.
  - cbn [filter_by_series] in Hf. unfold Pandas.getitem in Hf.
    destruct (Pandas.lookup c (Pandas.items df)) as [s|] eqn:Hc; [|discriminate Hf].
    cbn [bind ret] in Hf.
    destruct (filter_by_series df keep cols) as [e|rest]; [discriminate Hf|].
    cbn [bind ret] in Hf. inversion Hf; subst kept; clear Hf.
    destruct (keep s) eqn:Hk; [|apply IH; reflexivity].
    cbn [require_each]. unfold Pandas.getitem. rewrite Hc. cbn [bind ret].
    rewrite Hk. apply IH. reflexivity.
Qed.

Lemma filter_by_series_kept_present (df : Pandas.DataFrame V)
    (keep : Pandas.Series V -> bool) (cols kept : list string) :
  filter_by_series df keep cols = inr kept -> all_columns_of df kept.
Proof.
  intros Hf.
  apply (require_each_present df keep (fun _ _ => EmptyString)).
  apply (filter_then_require df keep _ cols), Hf.
Qed.

(** ** [Autocorrelation] *)

Lemma acf_resolve_present (df : Pandas.DataFrame V) (columns : option (list string))
    (cols : list string) :
  Autocorrelation.resolve_columns df columns = inr cols -> all_columns_of df cols.
Proof.
  unfold Autocorrelation.resolve_columns. destruct columns as [given|].
  - destruct (require_each df is_numeric Autocorrelation.non_numeric_message given)
      as [e|u] eqn:Hreq; [discriminate|].
    cbn [bind ret]. intros Heq. inversion Heq; subst cols.
    apply (require_each_present df is_numeric Autocorrelation.non_numeric_message).
    apply (require_each_unit _ _ _ _ u), Hreq.
  - apply filter_by_series_kept_present.
Qed.

Lemma plot_column_present (df : Pandas.DataFrame V) (partial : bool) (col : string) :
  Pandas.has_column df col = true ->
  Autocorrelation.plot_column df partial col = (acf_outputs df partial [col], inr tt).
Proof.
  unfold Pandas.has_column, Autocorrelation.plot_column, acf_outputs, series_of,
    Pandas.getitem.
  cbn [flat_map app].
  destruct (Pandas.lookup col (Pandas.items df)); [reflexivity | discriminate].
Qed.

Lemma plot_columns_present (df : Pandas.DataFrame V) (partial : bool)
    (cols : list string) :
  all_columns_of df cols ->
  for_each (Autocorrelation.plot_column df partial) cols
  = (acf_outputs df partial cols, inr tt).
Proof.
  intros Hall. unfold all_columns_of in Hall. rewrite Forall_forall in Hall.
  rewrite (for_each_displays _ (fun col => acf_outputs df partial [col])).
  - unfold acf_outputs. f_equal.
  - intros col Hin. apply plot_column_present, Hall, Hin.
Qed.

Lemma plot_acf_cases (df : Pandas.DataFrame V) (columns : option (list string))
    (partial : bool) :
  Autocorrelation.plot_acf df columns partial
  = match (if Pandas.index_time_ascending df
           then Autocorrelation.resolve_columns df columns
           else inl Autocorrelation.not_time_ascending) with
    | inl e => ([], inl e)
    | inr cols => (acf_outputs df partial cols, inr tt)
    end.
Proof.
  unfold Autocorrelation.plot_acf, Autocorrelation.check_index_time_ascending.
  destruct (Pandas.index_time_ascending df); [|reflexivity].
  unfold Autocorrelation.plot_acf_body.
  destruct (Autocorrelation.resolve_columns df columns) as [e|cols] eqn:Hres;
    [reflexivity|].
  rewrite then_lift_ret. apply plot_columns_present.
  apply (acf_resolve_present df columns), Hres.
Qed.

(** X9.  On a frame with distinct labels, [plot_acf], [plot_pacf] and
    [autocorrelation] are all or nothing.  On a frame whose index is not a time index in ascending
    order, or whose selection does not resolve (a label that the frame does
    not have, a column that is not numeric), they raise before anything is
    displayed.  Otherwise they return, [plot_acf] after the heading and the
    figure of every resolved column, [plot_pacf] doing what [plot_acf] does
    with the partial function, and [autocorrelation] after the output of
    [plot_acf], the heading of the partial autocorrelation and the output
    of [plot_pacf], over the same columns. *)
Theorem autocorrelation_all_or_nothing (df : Pandas.DataFrame V)
    (columns : option (list string)) (partial : bool) :
  distinct_labels df ->
  let resolved :=
    if Pandas.index_time_ascending df
    then Autocorrelation.resolve_columns df columns
    else inl Autocorrelation.not_time_ascending in
  Autocorrelation.plot_acf df columns partial
  = match resolved with
    | inl e => ([], inl e)
    | inr cols => (acf_outputs df partial cols, inr tt)
    end
  /\ Autocorrelation.plot_pacf df columns = Autocorrelation.plot_acf df columns true
  /\ Autocorrelation.autocorrelation df columns
     = match resolved with
       | inl e => ([], inl e)
       | inr cols =>
           ((acf_outputs df false cols
               ++ Markdown "## Partial autocorrelation" :: acf_outputs df true cols)%list,
            inr tt)
       end.
Proof.
  intros _ resolved.
  assert (Hpacf : Autocorrelation.plot_pacf df columns
                  = Autocorrelation.plot_acf df columns true).
  { unfold Autocorrelation.plot_pacf, Autocorrelation.check_index_time_ascending.
    destruct (Pandas.index_time_ascending df) eqn:Hidx; [reflexivity|].
    unfold Autocorrelation.plot_acf, Autocorrelation.check_index_time_ascending.
    rewrite Hidx. reflexivity. }
  split; [apply plot_acf_cases | split; [exact Hpacf|]].
  unfold Autocorrelation.autocorrelation.
  unfold Autocorrelation.check_index_time_ascending at 1.
  rewrite Hpacf, !plot_acf_cases. fold resolved.
  destruct (Pandas.index_time_ascending df); [|reflexivity].
  destruct resolved as [e|cols]; reflexivity.
Qed.

(** ** [UMAP] *)

(** X10.  A [UMAP] section that its constructor returned for a frame with
    distinct labels passes the checks of [show] on that frame: [show]
    displays the title, the one scatter plot over the columns that
    [plot_umap] resolves from the constructor's [columns] argument, and the
    two lines of the message.  This holds also when the constructor stored
    the default selection as [None] again, or stored the list of numeric
    columns it found. *)
Theorem umap_constructed_shows (df : Pandas.DataFrame V) (v : Z)
    (columns : option (list string)) (color_col : option string)
    (interactive : bool) (n_neighbors : Z) (min_dist : Q) (metric : string)
    (self : UMAP.t) :
  distinct_labels df ->
  UMAP.init df v columns color_col interactive n_neighbors min_dist metric = inr self ->
  exists cols,
    UMAP.resolve_columns df columns = inr cols
    /\ UMAP.resolve_columns df (UMAP.columns self) = inr cols
    /\ UMAP.show self df
       = ([Markdown (get_title UMAP.name 2);
           UmapScatter cols color_col interactive;
           Printed "UMAP requires proper setting of hyperparameters. ";
           Printed ("If results are unsatisfactory, consider trying different values of parameters"
                      ++ " `n_neighbors`, `min_dist` and `metric`.")],
          inr tt).
Proof.
  intros _ Hinit.
  assert (Hshow : forall cols,
             UMAP.resolve_columns df (UMAP.columns self) = inr cols ->
             UMAP.color_col self = color_col -> UMAP.interactive self = interactive ->
             UMAP.show self df
             = ([Markdown (get_title UMAP.name 2);
                 UmapScatter cols color_col interactive;
                 Printed "UMAP requires proper setting of hyperparameters. ";
                 Printed ("If results are unsatisfactory, consider trying different values of parameters"
                            ++ " `n_neighbors`, `min_dist` and `metric`.")],
                inr tt)).
  { intros cols Hres <- <-. unfold UMAP.show, UMAP.plot_umap. rewrite Hres. reflexivity. }
  unfold UMAP.init in Hinit. destruct columns as [given|].
  - destruct (require_each df is_numeric UMAP.non_numeric_message given) as [e|u] eqn:Hreq;
      [discriminate Hinit|].
    cbn [bind ret] in Hinit. inversion Hinit; subst self; clear Hinit.
    assert (Hres : UMAP.resolve_columns df (Some given) = inr given).
    { unfold UMAP.resolve_columns. rewrite Hreq. reflexivity. }
    exists given. split; [exact Hres | split; [exact Hres|]].
    apply Hshow; [exact Hres | reflexivity | reflexivity].
  - destruct (numeric_columns df) as [e|nums] eqn:Hnum; [discriminate Hinit|].
    cbn [bind ret] in Hinit. inversion Hinit; subst self; clear Hinit.
    cbn [UMAP.columns UMAP.color_col UMAP.interactive] in *.
    assert (Hstored :
              UMAP.resolve_columns df
                (if Nat.eqb (List.length nums) (List.length (Pandas.columns_of df))
                 then None else Some nums) = inr nums).
    { destruct (Nat.eqb _ _); unfold UMAP.resolve_columns; [exact Hnum|].
      rewrite (filter_then_require df is_numeric UMAP.non_numeric_message
                 (Pandas.columns_of df) nums Hnum).
      reflexivity. }
    exists nums. split; [exact Hnum | split; [exact Hstored|]].
    apply Hshow; [exact Hstored | reflexivity | reflexivity].
Qed.

End Frame.

(** On the sample frame one of three columns is numeric: the constructor
    stores the list it found, and [show] embeds that column. *)
Lemma umap_constructed_shows_witness :
  exists cols,
    UMAP.resolve_columns frame None = inr cols
    /\ UMAP.resolve_columns frame (Some ["height"]) = inr cols
    /\ UMAP.show
         {| UMAP.verbosity := 0; UMAP.columns := Some ["height"];
            UMAP.color_col := Some "city"; UMAP.interactive := true;
            UMAP.n_neighbors := 15; UMAP.min_dist := (1 # 10)%Q;
            UMAP.metric := "euclidean" |} frame
       = ([Markdown "## UMAP";
           UmapScatter cols (Some "city") true;
           Printed "UMAP requires proper setting of hyperparameters. ";
           Printed ("If results are unsatisfactory, consider trying different values of parameters"
                      ++ " `n_neighbors`, `min_dist` and `metric`.")],
          inr tt).
Proof.
  exact (umap_constructed_shows frame 0 None (Some "city") true 15 (1 # 10)%Q
           "euclidean" _ frame_distinct_labels eq_refl).
Defined.

(** On the sample frame: the numeric column by default, and the text
    column named. *)
Lemma autocorrelation_all_or_nothing_witness :
  Autocorrelation.autocorrelation frame None
  = ([Markdown ("---" ++ String (ascii_of_nat 10) "### height");
      AutocorrelationFigure "height" [Int 170; Int 182; Int 165] false;
      Markdown "## Partial autocorrelation";
      Markdown ("---" ++ String (ascii_of_nat 10) "### height");
      AutocorrelationFigure "height" [Int 170; Int 182; Int 165] true],
     inr tt)
  /\ Autocorrelation.autocorrelation frame (Some ["height"; "city"])
     = ([], inl (ValueError "Cannot plot autocorrelation for non-numeric column `city`")).
Proof.
  split.
  - exact (proj2 (proj2 (autocorrelation_all_or_nothing frame None false
                           frame_distinct_labels))).
  - exact (proj2 (proj2 (autocorrelation_all_or_nothing frame (Some ["height"; "city"])
                           false frame_distinct_labels))).
Defined.

End ShowFacts.

(* ================================================================== *)
(** * Running what was exported, and what the sections never raise     *)
(* ================================================================== *)

Module ExportFacts.
Import Py PyFacts RaiseFacts ResolveFacts DisplayFacts Sample Constructed.

Section Frame.
Context {V : Type} `{PyValue V} `{PyFormat} `{DataTypes V} `{Notebook}.

(** X11.  On a frame with distinct labels, the call that
    [CorrelationPlot.add_cells] and the call that
    [ContingencyTable.add_cells] write (verbosity 0 and 1) pass exactly the
    selection of the section that keeps what the call names, and running
    them displays what [show] displays under its title and ends as [show]
    ends: a [columns] that is left out of the call because [columns_x] and
    [columns_y] are given, and whatever is left out because [columns_pairs]
    is given, is never read; the threshold of the tables is the default in
    both. *)
Theorem exported_subsection_calls (correlation : CorrelationPlot.t)
    (tables : ContingencyTable.t) (df : Pandas.DataFrame V) :
  distinct_labels df ->
  exactly_one (CorrelationPlot.columns_x correlation)
              (CorrelationPlot.columns_y correlation) = false ->
  exactly_one (ContingencyTable.columns_x tables)
              (ContingencyTable.columns_y tables) = false ->
  let c := correlation_as_exported correlation in
  let t := contingency_as_exported tables in
  let run_c :=
    CorrelationPlot.plot_correlations df (CorrelationPlot.columns c)
      (CorrelationPlot.columns_x c) (CorrelationPlot.columns_y c) true true true in
  let run_t :=
    ContingencyTable.contingency_tables df (ContingencyTable.columns t)
      (ContingencyTable.columns_x t) (ContingencyTable.columns_y t)
      (ContingencyTable.columns_pairs t) 30 in
  CorrelationPlot.default_call correlation
  = call_with "plot_correlations" (correlation_arguments c)
  /\ CorrelationPlot.show correlation df
     = (Markdown (get_title CorrelationPlot.name 2) :: outputs run_c, result run_c)
  /\ ContingencyTable.default_call tables
     = call_with "contingency_tables" (contingency_arguments t)
  /\ ContingencyTable.show tables df
     = (Markdown (get_title ContingencyTable.name 2) :: outputs run_t, result run_t).
Proof.
  intros _ Ec Et c t run_c run_t. subst run_c run_t c t.
  destruct correlation as [vc cols cx cy], tables as [vt tcols tx ty pairs].
  cbn [CorrelationPlot.columns_x CorrelationPlot.columns_y
       ContingencyTable.columns_x ContingencyTable.columns_y] in Ec, Et.
  split; [|split; [|split]].
  - unfold CorrelationPlot.default_call, call_with, correlation_arguments,
      correlation_as_exported, keyword.
    destruct cx, cy; try discriminate Ec; destruct cols;
      cbn [CorrelationPlot.columns CorrelationPlot.columns_x CorrelationPlot.columns_y];
      rewrite ?append_assoc; reflexivity.
  - unfold CorrelationPlot.show. rewrite then_display. unfold correlation_as_exported.
    destruct cx, cy; try discriminate Ec; reflexivity.
  - unfold ContingencyTable.default_call, call_with, contingency_arguments,
      contingency_as_exported, keyword.
    destruct pairs, tx, ty; try discriminate Et; destruct tcols;
      cbn [ContingencyTable.columns ContingencyTable.columns_x
           ContingencyTable.columns_y ContingencyTable.columns_pairs
           ContingencyTable.init];
      rewrite ?append_assoc; reflexivity.
  - unfold ContingencyTable.show. rewrite then_display. unfold contingency_as_exported.
    destruct pairs, tx, ty; try discriminate Et; reflexivity.
Qed.

(** ** [ValueError] in [BivariateAnalysis] *)

Lemma for_each_in_no_ValueError {A} (body : A -> Run V unit) (l : list A) :
  (forall x, In x l -> raises_ValueError (result (body x)) = false) ->
  raises_ValueError (result (for_each body l)) = false.
Proof.
  induction l as [|x l IH]; intros Hb; [reflexivity|].
  cbn [for_each]. rewrite result_then, raises_bind.
  pose proof (Hb x (or_introl eq_refl)) as Hx.
  destruct (result (body x)); [exact Hx|].
  apply IH. intros y Hy. apply Hb. right. exact Hy.
Qed.

Lemma plot_pairplot_raises (df : Pandas.DataFrame V)
    (columns columns_x columns_y : option (list string)) (allow_categorical : bool)
    (color_col : option string) :
  raises_ValueError
    (result (PairPlot.plot_pairplot df columns columns_x columns_y allow_categorical
               color_col))
  = exactly_one columns_x columns_y.
Proof.
  unfold PairPlot.plot_pairplot.
  destruct (exactly_one columns_x columns_y) eqn:E; [reflexivity|].
  rewrite result_then, raises_bind. cbn [lift result snd].
  assert (Hsecond : forall xy : list string * list string,
             raises_ValueError
               (result
                  (xy' <~ lift
                     (if negb allow_categorical
                      then
                        xs <- filter_by_series df PairPlot.include_series (fst xy) ;;
                        ys <- filter_by_series df PairPlot.include_series (snd xy) ;;
                        ret (xs, ys)
                      else ret xy) ;;
                   display (V := V) (PairplotFigure (fst xy') (snd xy') color_col)))
             = false).
  { intros xy. rewrite result_then, raises_bind. cbn [lift result snd].
    destruct allow_categorical; cbn [negb]; [reflexivity|].
    pose proof (filter_by_series_no_ValueError df PairPlot.include_series (fst xy)) as Hx.
    destruct (filter_by_series df PairPlot.include_series (fst xy)); [exact Hx|].
    cbn [bind].
    pose proof (filter_by_series_no_ValueError df PairPlot.include_series (snd xy)) as Hy.
    destruct (filter_by_series df PairPlot.include_series (snd xy)); [exact Hy|].
    reflexivity. }
  destruct columns_x as [xs|], columns_y as [ys|]; try discriminate E.
  - apply (Hsecond (xs, ys)).
  - destruct columns as [cols|]; cbn [bind ret].
    + apply (Hsecond (cols, cols)).
    + pose proof (filter_by_series_no_ValueError df PairPlot.include_series
                    (Pandas.columns_of df)) as Hc.
      destruct (filter_by_series df PairPlot.include_series (Pandas.columns_of df))
        as [e|cols]; [exact Hc|].
      cbn [bind ret]. apply (Hsecond (cols, cols)).
Qed.

Lemma plot_correlations_raises (df : Pandas.DataFrame V)
    (columns columns_x columns_y : option (list string)) :
  exactly_one columns_x columns_y = false ->
  raises_ValueError
    (result (CorrelationPlot.plot_correlations df columns columns_x columns_y
               true true true)) = false.
Proof.
  intros E. rewrite plot_correlations_cases.
  pose proof (ColumnsXYFacts.get_columns_x_y_raises df columns columns_x columns_y) as Hr.
  rewrite E in Hr. cbn [enabled_correlations app].
  destruct (CorrelationPlot._get_columns_x_y df columns columns_x columns_y)
    as [e|[xs ys]]; [exact Hr | reflexivity].
Qed.

Lemma no_pairs_checked (a : BivariateAnalysis.Args) :
  exactly_one (BivariateAnalysis.a_columns_x a) (BivariateAnalysis.a_columns_y a) = false ->
  exactly_one (x_no_pairs a) (y_no_pairs a) = false.
Proof.
  unfold x_no_pairs, y_no_pairs.
  destruct (BivariateAnalysis.a_columns a), (BivariateAnalysis.a_columns_x a),
    (BivariateAnalysis.a_columns_y a), (BivariateAnalysis.a_columns_pairs a);
    intros E; try discriminate E; reflexivity.
Qed.

Lemma sub_show_no_ValueError (a : BivariateAnalysis.Args) (df : Pandas.DataFrame V)
    (sub : BivariateAnalysis.BivariateAnalysisSubsection) :
  exactly_one (BivariateAnalysis.a_columns_x a) (BivariateAnalysis.a_columns_y a) = false ->
  raises_ValueError
    (result (BivariateAnalysis.sub_show (implementation a sub) df)) = false.
Proof.
  intros E. pose proof (no_pairs_checked a E) as E'.
  destruct sub; cbn [implementation BivariateAnalysis.sub_show].
  - unfold CorrelationPlot.show. rewrite then_display. cbn [result snd].
    apply plot_correlations_raises. exact E'.
  - unfold PairPlot.show. rewrite then_display. cbn [result snd].
    cbn [PairPlot.columns PairPlot.columns_x PairPlot.columns_y PairPlot.color_col].
    change (snd ?m) with (result m).
    rewrite plot_pairplot_raises. exact E'.
  - unfold ContingencyTable.show. rewrite then_display. cbn [result snd].
    cbn [ContingencyTable.columns ContingencyTable.columns_x ContingencyTable.columns_y
         ContingencyTable.columns_pairs].
    change (snd ?m) with (result m).
    rewrite ColumnsXYFacts.contingency_tables_raises. exact E.
Qed.

(** X12.  The static [bivariate_analysis] raises [ValueError] exactly
    when one of [columns_x], [columns_y] is given without the other, and
    then before any subsection has displayed anything.  A section that the
    constructor of [BivariateAnalysis] returned never raises [ValueError]
    from [show], on any frame with distinct labels: what the constructor
    hands to its subsections passes their own checks. *)
Theorem bivariate_analysis_value_error (df : Pandas.DataFrame V)
    (c : BivariateAnalysis.Call) (a : BivariateAnalysis.Args)
    (self : BivariateAnalysis.t) :
  distinct_labels df ->
  BivariateAnalysis.init a = inr self ->
  raises_ValueError (result (BivariateAnalysis.show self df)) = false
  /\ raises_ValueError (result (BivariateAnalysis.bivariate_analysis df c))
     = exactly_one (BivariateAnalysis.c_columns_x c) (BivariateAnalysis.c_columns_y c)
  /\ (if exactly_one (BivariateAnalysis.c_columns_x c) (BivariateAnalysis.c_columns_y c)
      then BivariateAnalysis.bivariate_analysis df c = ([], inl both_or_neither)
      else result (BivariateAnalysis.bivariate_analysis df c) <> inl both_or_neither).
Proof.
  intros _ Hinit.
  assert (Hsubs : forall a',
             exactly_one (BivariateAnalysis.a_columns_x a')
                         (BivariateAnalysis.a_columns_y a') = false ->
             raises_ValueError
               (result (for_each (fun sub => BivariateAnalysis.sub_show sub df)
                          (BivariateAnalysis.subsections (built a')))) = false).
  { intros a' E. apply for_each_in_no_ValueError. intros sub Hin.
    cbn [built BivariateAnalysis.subsections] in Hin.
    apply in_map_iff in Hin as (member & <- & _).
    apply sub_show_no_ValueError, E. }
  apply AggregateFacts.init_inv in Hinit as [E ->].
  split; [|split].
  - unfold BivariateAnalysis.show, BivariateAnalysis.super_show.
    rewrite then_display. cbn [result snd]. apply (Hsubs a E).
  - unfold BivariateAnalysis.bivariate_analysis.
    match goal with
    | |- context [BivariateAnalysis.init ?args] => set (again := args)
    end.
    change (exactly_one (BivariateAnalysis.c_columns_x c) (BivariateAnalysis.c_columns_y c))
      with (exactly_one (BivariateAnalysis.a_columns_x again)
                        (BivariateAnalysis.a_columns_y again)).
    destruct (exactly_one (BivariateAnalysis.a_columns_x again)
                          (BivariateAnalysis.a_columns_y again)) eqn:Eagain.
    + rewrite (ColumnsXYFacts.init_raises again Eagain). reflexivity.
    + rewrite (AggregateFacts.init_built again Eagain), then_lift_ret.
      apply (Hsubs again Eagain).
  - unfold BivariateAnalysis.bivariate_analysis.
    match goal with
    | |- context [BivariateAnalysis.init ?args] => set (again := args)
    end.
    change (exactly_one (BivariateAnalysis.c_columns_x c) (BivariateAnalysis.c_columns_y c))
      with (exactly_one (BivariateAnalysis.a_columns_x again)
                        (BivariateAnalysis.a_columns_y again)).
    destruct (exactly_one (BivariateAnalysis.a_columns_x again)
                          (BivariateAnalysis.a_columns_y again)) eqn:Eagain.
    + rewrite (ColumnsXYFacts.init_raises again Eagain). reflexivity.
    + rewrite (AggregateFacts.init_built again Eagain), then_lift_ret.
      intros Hraise. pose proof (Hsubs again Eagain) as Hno.
      rewrite Hraise in Hno. discriminate Hno.
Qed.

End Frame.

(** On the sample frame, with the text column among the labels. *)
Lemma exported_subsection_calls_witness :
  CorrelationPlot.default_call
    {| CorrelationPlot.verbosity := 1; CorrelationPlot.columns := Some ["city"];
       CorrelationPlot.columns_x := Some ["height"];
       CorrelationPlot.columns_y := Some ["height"; "city"] |}
  = "plot_correlations(df=df, columns_x=['height'], columns_y=['height', 'city'])"
  /\ ContingencyTable.show
       (ContingencyTable.init 1 (Some ["empty"]) (Some ["height"]) (Some ["empty"])
          (Some [("city", "height")])) frame
     = ([Markdown "## Contingency table"; ContingencyHeatmap "city" "height"], inr tt).
Proof.
  pose proof (exported_subsection_calls
                {| CorrelationPlot.verbosity := 1; CorrelationPlot.columns := Some ["city"];
                   CorrelationPlot.columns_x := Some ["height"];
                   CorrelationPlot.columns_y := Some ["height"; "city"] |}
                (ContingencyTable.init 1 (Some ["empty"]) (Some ["height"])
                   (Some ["empty"]) (Some [("city", "height")]))
                frame frame_distinct_labels eq_refl eq_refl)
    as (Htext & _ & _ & Hshow).
  split; [exact Htext | exact Hshow].
Defined.

(** [ContingencyTable] is constructed without the check of [columns_x] and
    [columns_y]: holding pairs and [columns_x] alone, [show] raises while
    the call that [add_cells] writes names the pairs only and runs. *)
Example contingency_show_raises_call_runs :
  let self := ContingencyTable.init 0 None (Some ["a"]) None (Some [("a", "b")]) in
  ContingencyTable.show self two_columns
  = ([Markdown "## Contingency table"], inl both_or_neither)
  /\ ContingencyTable.default_call self
     = "contingency_tables(df=df, columns_pairs=[('a', 'b')])"
  /\ ContingencyTable.contingency_tables two_columns None None None
       (Some [("a", "b")]) 30
     = ([ContingencyHeatmap "a" "b"], inr tt).
Proof. repeat split. Qed.

Lemma bivariate_analysis_value_error_witness :
  raises_ValueError (result (BivariateAnalysis.show (built quiet_args) frame)) = false
  /\ raises_ValueError
       (result (BivariateAnalysis.bivariate_analysis frame
                  {| BivariateAnalysis.c_subsections := None;
                     BivariateAnalysis.c_columns := None;
                     BivariateAnalysis.c_columns_x := None;
                     BivariateAnalysis.c_columns_y := Some ["height"];
                     BivariateAnalysis.c_columns_pairs := None;
                     BivariateAnalysis.c_color_col := None |})) = true.
Proof.
  pose proof (bivariate_analysis_value_error frame
                {| BivariateAnalysis.c_subsections := None;
                   BivariateAnalysis.c_columns := None;
                   BivariateAnalysis.c_columns_x := None;
                   BivariateAnalysis.c_columns_y := Some ["height"];
                   BivariateAnalysis.c_columns_pairs := None;
                   BivariateAnalysis.c_color_col := None |}
                quiet_args (built quiet_args) frame_distinct_labels eq_refl)
    as (Hshow & Hraises & _).
  split; [exact Hshow | exact Hraises].
Defined.

End ExportFacts.

(* ================================================================== *)
(** * The columns that [UnivariateAnalysis] goes through               *)
(* ================================================================== *)

Module SelectionFacts.
Import Py RaiseFacts ResolveFacts Sample.

Section Frame.
Context {V : Type} `{PyValue V} `{PyFormat} `{DataTypes V} `{Notebook}.

(** [df[columns]] takes the columns in the order of the list and raises
    for the first label that the frame does not have. *)
Lemma getitems_cases (df : Pandas.DataFrame V) (cols : list string) :
  Pandas.getitems df cols
  = match first_missing df cols with
    | Some col => inl (KeyError col)
    | None =>
        inr {| Pandas.items := map (fun col => (col, series_of df col)) cols;
               Pandas.index_time_ascending := Pandas.index_time_ascending df |}
    end.
Proof.
  unfold Pandas.getitems, first_missing.
  assert (Hsel : Pandas.select (Pandas.items df) cols
                 = match find (fun col => negb (Pandas.has_column df col)) cols with
                   | Some col => inl (KeyError col)
                   | None => inr (map (fun col => (col, series_of df col)) cols)
                   end).
  { induction cols as [|c cols IH]; [reflexivity|].
    cbn [Pandas.select find map]. unfold Pandas.has_column at 1, series_of at 1.
    destruct (Pandas.lookup c (Pandas.items df)) as [s|]; [|reflexivity].
    cbn [negb]. rewrite IH.
    destruct (find (fun col => negb (Pandas.has_column df col)) cols); reflexivity. }
  rewrite Hsel.
  destruct (find (fun col => negb (Pandas.has_column df col)) cols); reflexivity.
Qed.

Lemma selected_items (df : Pandas.DataFrame V) (separator : bool) (cols : list string) :
  flat_map (expected_column_outputs separator)
    (map (fun col => (col, series_of df col)) cols)
  = selected_outputs df separator cols.
Proof.
  unfold selected_outputs. induction cols as [|c cols IH]; [reflexivity|].
  cbn [map flat_map]. rewrite IH. reflexivity.
Qed.

(** X13.  On a frame with distinct labels and with a list of different
    labels, [univariate_analysis] and [show] go through the columns in the
    order of the list, not of the frame.  When the frame does not have one of
    the labels they raise [KeyError] before anything is displayed, [show]
    before its title, and [add_cells] raises it before any cell is added. *)
Theorem univariate_analysis_selection (df : Pandas.DataFrame V) (cols : list string)
    (verbosity : Z) (cells : list Cell) :
  distinct_labels df -> NoDup cols ->
  let self := UnivariateAnalysis.init df verbosity (Some cols) in
  match first_missing df cols with
  | Some _ =>
      exists key,
        UnivariateAnalysis.univariate_analysis df (Some cols) = ([], inl (KeyError key))
        /\ UnivariateAnalysis.show self df = ([], inl (KeyError key))
        /\ UnivariateAnalysis.add_cells self cells = ([], inl (KeyError key))
  | None =>
      UnivariateAnalysis.univariate_analysis df (Some cols)
      = (selected_outputs df false cols, inr tt)
      /\ UnivariateAnalysis.show self df
         = (Markdown (get_title UnivariateAnalysis.name 1)
              :: selected_outputs df true cols, inr tt)
      /\ exists added, added_cells (UnivariateAnalysis.add_cells self cells) = Some added
  end.
Proof.
  intros _ _ self.
  pose proof (getitems_cases df cols) as Hget.
  destruct (first_missing df cols) as [col|].
  - unfold UnivariateAnalysis.univariate_analysis, UnivariateAnalysis.show,
      UnivariateAnalysis.add_cells, self, UnivariateAnalysis.init.
    cbn [UnivariateAnalysis.columns UnivariateAnalysis.df UnivariateAnalysis.restrict].
    rewrite Hget. exists col. split; [reflexivity | split; reflexivity].
  - assert (Hsel : UnivariateAnalysis.restrict df (Some cols)
                   = inr {| Pandas.items := map (fun col => (col, series_of df col)) cols;
                            Pandas.index_time_ascending :=
                              Pandas.index_time_ascending df |}).
    { exact Hget. }
    destruct (UnivariateFacts.univariate_analysis_runs df _ (Some cols) verbosity Hsel)
      as [Hrun Hshow].
    cbn [Pandas.items] in Hrun, Hshow. rewrite selected_items in Hrun, Hshow.
    split; [exact Hrun | split; [exact Hshow|]].
    unfold added_cells.
    rewrite (VerbosityFacts.add_cells_levels self _ cells Hsel).
    destruct (UnivariateAnalysis.verbosity self =? 0)%Z; eexists; reflexivity.
Qed.

Lemma lookup_listed (f : string -> Pandas.Series V) (cols : list string) (c : string) :
  In c cols -> Pandas.lookup c (map (fun col => (col, f col)) cols) = Some (f c).
Proof.
  induction cols as [|c0 cols IH]; intros Hin; [contradiction|].
  cbn [map Pandas.lookup]. destruct (String.eqb_spec c0 c) as [->|Hne]; [reflexivity|].
  destruct Hin as [Heq | Hin]; [contradiction | apply IH, Hin].
Qed.

Lemma first_missing_none (df : Pandas.DataFrame V) (cols : list string) :
  (forall c, In c cols -> Pandas.has_column df c = true) ->
  first_missing df cols = None.
Proof.
  unfold first_missing. induction cols as [|c cols IH]; intros Hall; [reflexivity|].
  cbn [find]. rewrite (Hall c (or_introl eq_refl)). cbn [negb].
  apply IH. intros c' Hc'. apply Hall. right. exact Hc'.
Qed.

(** Restricting the restricted frame changes nothing. *)
Lemma restrict_again (df df' : Pandas.DataFrame V) (columns : option (list string)) :
  UnivariateAnalysis.restrict df columns = inr df' ->
  UnivariateAnalysis.restrict df' columns = inr df'.
Proof.
  destruct columns as [cols|]; [|intros Heq; exact eq_refl].
  cbn [UnivariateAnalysis.restrict]. rewrite !getitems_cases.
  destruct (first_missing df cols) as [c|]; [discriminate|].
  intros Heq. inversion Heq; subst df'; clear Heq.
  rewrite first_missing_none.
  - cbn [Pandas.items Pandas.index_time_ascending]. f_equal. f_equal.
    apply map_ext_in. intros c Hc. unfold series_of at 1. cbn [Pandas.items].
    rewrite (lookup_listed (series_of df) cols c Hc). reflexivity.
  - intros c Hc. unfold Pandas.has_column. cbn [Pandas.items].
    rewrite (lookup_listed (series_of df) cols c Hc). reflexivity.
Qed.

Lemma code_cells_app (a b : list Cell) :
  code_cells (a ++ b) = code_cells a + code_cells b.
Proof. unfold code_cells. rewrite filter_app, length_app. reflexivity. Qed.

Lemma code_cells_columns (verbosity : Z) (items : list (string * Pandas.Series V)) :
  code_cells (flat_map (expected_column_cells verbosity) items)
  = List.length (filter (fun item => negb (Pandas.isnull_all (snd item))) items).
Proof.
  induction items as [|item items IH]; [reflexivity|].
  cbn [flat_map filter]. rewrite code_cells_app, IH.
  unfold expected_column_cells.
  destruct (Pandas.isnull_all (snd item)); reflexivity.
Qed.

(** X14.  What [UnivariateAnalysis.add_cells] does besides adding
    cells, for a frame with distinct labels and a selection of different
    labels that the frame has.  At verbosity 0 it displays nothing and adds
    one code cell.  At any other verbosity it displays, in the notebook
    that runs the export, the NULL heading and the note of every selected
    column that holds nulls only, and adds no cell for such a column: one
    code cell for each other column, after the three cells of definitions
    at verbosity 2.  It leaves the section with its frame restricted to the
    selection, and exporting that section again displays and adds the
    same. *)
Theorem univariate_add_cells_effects (self : UnivariateAnalysis.t V)
    (df' : Pandas.DataFrame V) (cells : list Cell) :
  distinct_labels (UnivariateAnalysis.df self) ->
  (forall cols, UnivariateAnalysis.columns self = Some cols -> NoDup cols) ->
  UnivariateAnalysis.restrict (UnivariateAnalysis.df self)
    (UnivariateAnalysis.columns self) = inr df' ->
  let v := UnivariateAnalysis.verbosity self in
  let run := UnivariateAnalysis.add_cells self cells in
  outputs run = (if (v =? 0)%Z then [] else flat_map null_notes (Pandas.items df'))
  /\ exists added,
       result run = inr (UnivariateAnalysis.init df' v (UnivariateAnalysis.columns self),
                         added)
       /\ UnivariateAnalysis.add_cells
            (UnivariateAnalysis.init df' v (UnivariateAnalysis.columns self)) cells
          = run
       /\ code_cells added
          = code_cells cells
            + (if (v =? 0)%Z then 1
               else (if (v =? 2)%Z then 3 else 0)
                    + List.length (columns_with_values df')).
Proof.
  intros _ _ Hsel v run.
  pose proof (VerbosityFacts.add_cells_levels self df' cells Hsel) as Hrun.
  cbv zeta in Hrun. fold v in Hrun. fold run in Hrun.
  pose proof (VerbosityFacts.add_cells_levels
                (UnivariateAnalysis.init df' v (UnivariateAnalysis.columns self))
                df' cells
                (restrict_again _ _ _ Hsel)) as Hagain.
  cbv zeta in Hagain.
  cbn [UnivariateAnalysis.init UnivariateAnalysis.verbosity UnivariateAnalysis.columns
       UnivariateAnalysis.df] in Hagain.
  rewrite Hagain, Hrun.
  destruct (v =? 0)%Z eqn:Hv0.
  - split; [reflexivity|]. eexists. split; [reflexivity | split; [reflexivity|]].
    rewrite code_cells_app. reflexivity.
  - split; [reflexivity|]. eexists. split; [reflexivity | split; [reflexivity|]].
    rewrite !code_cells_app, code_cells_columns.
    unfold columns_with_values.
    destruct (v =? 2)%Z; cbn; lia.
Qed.

End Frame.

(** On the sample frame: the column of nulls listed before the text
    column, and a label that the frame does not have. *)
Lemma univariate_analysis_selection_witness :
  UnivariateAnalysis.univariate_analysis frame (Some ["empty"; "city"])
  = ([Markdown "## *empty - NULL*";
      Markdown "The column contains only null values.";
      Markdown "## *city - categorical*";
      MostFrequentValues
        [(Str "Brno", "2 (66.67 %)"); (Str "Praha", "1 (33.33 %)");
         (Str "Other values count", "0 (0.00 %)"); (Str "Null", "0 (0.00 %)")];
      BarPlotFigure [(Str "Brno", 2); (Str "Praha", 1)]],
     inr tt)
  /\ exists key,
       UnivariateAnalysis.show (UnivariateAnalysis.init frame 0 (Some ["city"; "weight"]))
         frame
       = ([], inl (KeyError key)).
Proof.
  assert (Hfirst : NoDup ["empty"; "city"]).
  { repeat constructor; cbn; intuition discriminate. }
  assert (Hsecond : NoDup ["city"; "weight"]).
  { repeat constructor; cbn; intuition discriminate. }
  split.
  - exact (proj1 (univariate_analysis_selection frame ["empty"; "city"] 0 []
                    frame_distinct_labels Hfirst)).
  - destruct (univariate_analysis_selection frame ["city"; "weight"] 0 []
                frame_distinct_labels Hsecond) as (key & _ & Hshow & _).
    exists key. exact Hshow.
Defined.

(** Exporting the sample frame at verbosity 1: the note of the column of
    nulls is displayed, and two code cells are added for the two other
    columns. *)
Lemma univariate_add_cells_effects_witness :
  outputs (UnivariateAnalysis.add_cells (UnivariateAnalysis.init frame 1 None) [])
  = [Markdown "## *empty - NULL*"; Markdown "The column contains only null values."]
  /\ exists added,
       result (UnivariateAnalysis.add_cells (UnivariateAnalysis.init frame 1 None) [])
       = inr (UnivariateAnalysis.init frame 1 None, added)
       /\ code_cells added = 2.
Proof.
  pose proof (univariate_add_cells_effects (UnivariateAnalysis.init frame 1 None) frame []
                frame_distinct_labels ltac:(discriminate) eq_refl)
    as (Hout & added & Hres & _ & Hcount).
  split; [exact Hout|]. exists added. split; [exact Hres | exact Hcount].
Defined.

End SelectionFacts.

(* ================================================================== *)
(** * The two literal keys of [top_frequent_values]                    *)
(* ================================================================== *)

Module LiteralKeyFacts.
Import Py CountFacts Sample SampleFacts.

Section Values.
Context {V : Type} `{PyValue V} `{!PyValueLaws V} `{!PositionalIndex V} `{PyFormat}.

Lemma dict_get_replace_same {W} (k : V) (w : W) (d : list (V * W)) :
  dict_mem val_eqb k d = true ->
  dict_get val_eqb k (dict_replace val_eqb k w d) = Some w.
Proof.
  induction d as [|[k' w'] d IH]; intros Hmem; [discriminate Hmem|].
  cbn [dict_mem] in Hmem. cbn [dict_replace].
  destruct (val_eqb k' k) eqn:Hk; cbn [dict_get]; rewrite Hk; [reflexivity|].
  apply IH. exact Hmem.
Qed.

Lemma dict_get_app_absent {W} (k : V) (w : W) (d : list (V * W)) :
  dict_mem val_eqb k d = false ->
  dict_get val_eqb k (d ++ [(k, w)]) = Some w.
Proof.
  induction d as [|[k' w'] d IH]; intros Hmem.
  - cbn. rewrite val_eqb_refl. reflexivity.
  - cbn [dict_mem] in Hmem. apply orb_false_elim in Hmem as [Hk Hmem].
    cbn [app dict_get]. rewrite Hk. apply IH, Hmem.
Qed.

(** The key just set holds the value just set. *)
Lemma dict_get_set_same {W} (k : V) (w : W) (d : list (V * W)) :
  dict_get val_eqb k (dict_set val_eqb k w d) = Some w.
Proof.
  unfold dict_set. destruct (dict_mem val_eqb k d) eqn:Hmem.
  - apply dict_get_replace_same, Hmem.
  - apply dict_get_app_absent, Hmem.
Qed.

(** Setting a key leaves the other keys as they were. *)
Lemma dict_get_set_other {W} (k k' : V) (w : W) (d : list (V * W)) :
  k <> k' ->
  dict_get val_eqb k' (dict_set val_eqb k w d) = dict_get val_eqb k' d.
Proof.
  intros Hne. unfold dict_set. destruct (dict_mem val_eqb k d).
  - induction d as [|[k0 w0] d IH]; [reflexivity|].
    cbn [dict_replace]. destruct (val_eqb_spec k0 k) as [->|Hk0].
    + cbn [dict_get]. destruct (val_eqb_spec k k') as [Heq|_]; [contradiction|].
      reflexivity.
    + cbn [dict_get]. rewrite IH. reflexivity.
  - induction d as [|[k0 w0] d IH].
    + cbn. destruct (val_eqb_spec k k') as [Heq|_]; [contradiction | reflexivity].
    + cbn [app dict_get]. rewrite IH. reflexivity.
Qed.

Lemma dict_get_map {W W'} (f : W -> W') (k : V) (d : list (V * W)) :
  dict_get val_eqb k (map (fun kv => (fst kv, f (snd kv))) d)
  = option_map f (dict_get val_eqb k d).
Proof.
  induction d as [|[k' w] d IH]; [reflexivity|].
  cbn [map dict_get fst snd]. destruct (val_eqb k' k); [reflexivity | exact IH].
Qed.

Lemma dict_set_length {W} (k : V) (w : W) (d : list (V * W)) :
  List.length d <= List.length (dict_set val_eqb k w d) <= S (List.length d).
Proof.
  unfold dict_set. destruct (dict_mem val_eqb k d).
  - assert (Hlen : List.length (dict_replace val_eqb k w d) = List.length d).
    { induction d as [|[k' w'] d IH]; [reflexivity|].
      cbn [dict_replace]. destruct (val_eqb k' k); cbn [List.length]; [reflexivity|].
      rewrite IH. reflexivity. }
    rewrite Hlen. lia.
  - rewrite length_app. cbn. lia.
Qed.

(** X15.  In the table of [top_frequent_values], for values whose
    index pandas slices by position (every kind but floats), every series,
    the empty one included, and every [n_top], negative ones included: the
    entry "Null" reports the number of nulls and the entry "Other values
    count" the total of the rows after the first [n_top] of [value_counts],
    also when the series holds one of these two texts as a value, whose own
    count the literal entry then replaces; every other key keeps the count
    of its row among the first [n_top]; and the table has at most two
    entries more than these rows. *)
Theorem top_frequent_values_literal_keys (series : Pandas.Series V) (n_top : Z)
    (k : V) :
  let counts := Pandas.value_counts series in
  let text count := utils.frequency_text count (Pandas.len series) in
  let table := utils.top_frequent_values series n_top in
  dict_get val_eqb utils.null_key table = Some (text (Pandas.isna_sum series))
  /\ dict_get val_eqb utils.other_key table
     = Some (text (utils.sum_counts (slice_from n_top counts)))
  /\ (k <> utils.other_key -> k <> utils.null_key ->
      dict_get val_eqb k table
      = option_map text (dict_get val_eqb k (slice_to n_top counts)))
  /\ List.length table <= List.length (slice_to n_top counts) + 2.
Proof.
  intros counts text table. unfold table, utils.top_frequent_values.
  rewrite !(dict_get_map text), length_map.
  unfold utils.frequency_counts.
  rewrite index_head_positional, index_tail_positional. fold counts.
  split; [|split; [|split]].
  - rewrite dict_get_set_same. reflexivity.
  - rewrite dict_get_set_other by (apply not_eq_sym, TopFrequentFacts.other_key_not_null_key).
    rewrite dict_get_set_same. reflexivity.
  - intros Hother Hnull.
    rewrite dict_get_set_other by (apply not_eq_sym, Hnull).
    rewrite dict_get_set_other by (apply not_eq_sym, Hother).
    reflexivity.
  - pose proof (dict_set_length utils.other_key
                  (utils.sum_counts (slice_from n_top counts)) (slice_to n_top counts)).
    pose proof (dict_set_length utils.null_key (Pandas.isna_sum series)
                  (dict_set val_eqb utils.other_key
                     (utils.sum_counts (slice_from n_top counts))
                     (slice_to n_top counts))).
    lia.
Qed.

End Values.

(** A series that holds the text "Null" twice and one null: the entry
    "Null" keeps the place of the value and reports the one null. *)
Lemma top_frequent_values_literal_keys_witness :
  dict_get scalar_eqb (Str "Null")
    (utils.top_frequent_values [Some (Str "Null"); Some (Str "a"); Some (Str "Null"); None] 5)
  = Some "1 (25.00 %)"
  /\ utils.top_frequent_values [Some (Str "Null"); Some (Str "a"); Some (Str "Null"); None] 5
     = [(Str "Null", "1 (25.00 %)"); (Str "a", "1 (25.00 %)");
        (Str "Other values count", "0 (0.00 %)")].
Proof.
  split; [|reflexivity].
  exact (proj1 (top_frequent_values_literal_keys
                  [Some (Str "Null"); Some (Str "a"); Some (Str "Null"); None] 5
                  (Str "a"))).
Defined.

End LiteralKeyFacts.

(* ================================================================== *)
(** * The heuristic [utils.is_categorical]                             *)
(* ================================================================== *)

Module CategoricalFacts.
Import Sample.

Section Values.
Context {V : Type} `{PyValue V} `{DataTypes V} `{PandasDtypeChecks V}.

(** X16.  [utils.is_categorical]: a series of dates or time differences
    is never categorical; any other series that is not numeric always is;
    a negative [nunique_max] sets no limit, so that every series other than
    dates is categorical; and for limits that are not negative the answer
    is monotone: a series that is categorical under a limit is categorical
    under every larger one, and a numeric series is categorical exactly
    when its number of distinct values is within the limit. *)
Theorem is_categorical_limit (series : Pandas.Series V)
    (nunique_max larger negative : Z) :
  (0 <= nunique_max <= larger)%Z -> (negative < 0)%Z ->
  let dates := is_datetime_or_timedelta_dtype series in
  (dates = true -> utils.is_categorical series nunique_max = false)
  /\ (is_numeric series = false ->
      utils.is_categorical series nunique_max = negb dates)
  /\ utils.is_categorical series negative = negb dates
  /\ (utils.is_categorical series nunique_max = true ->
      utils.is_categorical series larger = true)
  /\ (is_numeric series = true -> dates = false ->
      (utils.is_categorical series nunique_max = true
       <-> (Z.of_nat (Pandas.nunique series) <= nunique_max)%Z)).
Proof.
  intros Hle Hneg dates. unfold utils.is_categorical. fold dates.
  assert (Hn : (nunique_max <? 0)%Z = false) by (apply Z.ltb_ge; lia).
  assert (Hl : (larger <? 0)%Z = false) by (apply Z.ltb_ge; lia).
  assert (Hm : (negative <? 0)%Z = true) by (apply Z.ltb_lt; lia).
  rewrite Hn, Hl, Hm. cbn [orb].
  split; [|split; [|split; [|split]]].
  - intros ->. apply andb_false_r.
  - intros ->. cbn [negb]. rewrite orb_true_r. reflexivity.
  - reflexivity.
  - destruct dates; [rewrite !andb_false_r; exact (fun E => E)|].
    rewrite !andb_true_r.
    destruct (is_numeric series); cbn [negb]; rewrite ?orb_true_r, ?orb_false_r;
      [|reflexivity].
    intros Hin. apply Z.leb_le in Hin. apply Z.leb_le. lia.
  - intros -> ->. cbn [negb]. rewrite orb_false_r, andb_true_r. apply Z.leb_le.
Qed.

End Values.

(** The text column of the sample frame, and its numeric column with three
    distinct values under the limits 2 and 3. *)
Lemma is_categorical_limit_witness :
  utils.is_categorical [Some (Str "Brno"); Some (Str "Praha"); Some (Str "Brno")] 0 = true
  /\ (utils.is_categorical [Some (Int 170); Some (Int 182); Some (Int 165)] 2 = true
      <-> (3 <= 2)%Z)
  /\ utils.is_categorical [Some (Int 170); Some (Int 182); Some (Int 165)] 3 = true.
Proof.
  split; [|split].
  - exact (proj1 (proj2 (is_categorical_limit
                           [Some (Str "Brno"); Some (Str "Praha"); Some (Str "Brno")]
                           0 0 (-1) ltac:(lia) ltac:(lia))) eq_refl).
  - exact (proj2 (proj2 (proj2 (proj2
             (is_categorical_limit [Some (Int 170); Some (Int 182); Some (Int 165)]
                2 2 (-1) ltac:(lia) ltac:(lia))))) eq_refl eq_refl).
  - reflexivity.
Defined.

End CategoricalFacts.
